(** * Harmony chat client: message store, wire codec and reconnecting socket

    A shallow embedding of the synchronisation core of the client:

    - [Js]: the fragment of the dynamic value model the sources rely on
      (truthiness, [a || b], [===], property reads, thrown errors);
    - [Model]: [common/model/ChatMessage.ets] ([ChatMessage],
      [ChatConversation], [toJson] / [fromJson]);
    - [Chat]: the caches of [common/model/ChatManager.ets] and the
      operations that mutate them;
    - [Ws]: [common/api/WebSocketManager.ets] (status, reconnection timer,
      [emit], inbound dispatch);
    - [Queued]: the second [WebSocketManager], of
      [common/push/PushManager.ets], which queues what it cannot send;
    - [Sample]: concrete stores, managers and messages.

    The platform is a parameter where the sources call it: [JSON.parse],
    the conversion of a non-number to a [Date], [Date.now()], and the
    outcome of creating, connecting and writing to the socket.

    Numbers are integers ([Z]): identifiers, counters and millisecond
    timestamps.  [NaN] is kept as a separate value because an invalid
    [Date] yields it. *)

From Stdlib Require Import ZArith List Ascii String Bool Lia.
Import ListNotations.
Local Open Scope string_scope.
Local Open Scope list_scope.
Local Open Scope Z_scope.

(* ================================================================= *)
(** ** Dynamic values *)

Module Js.

#[local] Set Warnings "-register-all".

Inductive value : Type :=
| VUndefined
| VNull
| VNaN
| VBool (b : bool)
| VNum (n : Z)
| VStr (s : string)
| VArr (items : list value)
| VObj (fields : list (string * value)).

(** Errors a statement can throw. *)
Inductive error : Type :=
| TypeError (what : string)
| SyntaxError
| ExternalError (what : string).

(** A computation either returns or throws. *)
Inductive completion (A : Type) : Type :=
| Return (a : A)
| Throw (e : error).
Arguments Return {A} a.
Arguments Throw {A} e.

Definition bind {A B} (c : completion A) (k : A -> completion B)
  : completion B :=
  match c with
  | Return a => k a
  | Throw e => Throw e
  end.

(** [ToBoolean]. *)
Definition truthy (v : value) : bool :=
  match v with
  | VUndefined | VNull | VNaN => false
  | VBool b => b
  | VNum n => negb (n =? 0)
  | VStr s => negb (String.eqb s EmptyString)
  | VArr _ | VObj _ => true
  end.

(** [a || b]. *)
Definition or_else (a b : value) : value :=
  if truthy a then a else b.

(** [a === b].  Arrays and objects compare by reference; every array or
    object met here is decoded from its own frame, so two of them are
    never the same reference. *)
Definition strict_eq (a b : value) : bool :=
  match a, b with
  | VUndefined, VUndefined => true
  | VNull, VNull => true
  | VBool x, VBool y => Bool.eqb x y
  | VNum x, VNum y => x =? y
  | VStr x, VStr y => String.eqb x y
  | _, _ => false
  end.

(** Key equality of [Map] (SameValueZero): as [===] but [NaN] equals
    itself. *)
Definition same_value_zero (a b : value) : bool :=
  match a, b with
  | VNaN, VNaN => true
  | _, _ => strict_eq a b
  end.

Fixpoint lookup_field (k : string) (fields : list (string * value))
  : value :=
  match fields with
  | [] => VUndefined
  | (k', v) :: rest => if String.eqb k' k then v else lookup_field k rest
  end.

(** [v.k]: throws on [undefined] and [null]; a missing property, or any
    of the property names used here read from a primitive or an array,
    is [undefined]. *)
Definition get_prop (v : value) (k : string) : completion value :=
  match v with
  | VUndefined => Throw (TypeError "cannot read properties of undefined")
  | VNull => Throw (TypeError "cannot read properties of null")
  | VObj fields => Return (lookup_field k fields)
  | _ => Return VUndefined
  end.

Fixpoint map_m {A B} (f : A -> completion B) (l : list A)
  : completion (list B) :=
  match l with
  | [] => Return []
  | x :: rest =>
      bind (f x) (fun y => bind (map_m f rest) (fun ys => Return (y :: ys)))
  end.

End Js.

Import Js.

Declare Scope js_scope.
Delimit Scope js_scope with js.
Notation "x <- c ;; k" := (Js.bind c (fun x => k))
  (at level 61, c at next level, right associativity) : js_scope.
Notation "a ||| b" := (Js.or_else a b) (at level 50, left associativity)
  : js_scope.
Notation "a === b" := (Js.strict_eq a b) (at level 69, no associativity)
  : js_scope.
Local Open Scope js_scope.

(* ================================================================= *)
(** ** common/model/ChatMessage.ets *)

Module Model.

(** A [Date]: its time value in milliseconds, or none when invalid. *)
Definition Date : Type := option Z.

Definition getTime (d : Date) : value :=
  match d with
  | Some t => VNum t
  | None => VNaN
  end.

Section Dates.
(** [new Date(v)] for an argument that is not a number: parsing of a
    string, conversion of the rest (platform). *)
Variable Date_convert : value -> Date.

Definition new_Date (v : value) : Date :=
  match v with
  | VNum t => Some t
  | VNaN => None
  | _ => Date_convert v
  end.
End Dates.

Record ChatMessage : Type := mkChatMessage {
  id : value;
  senderId : value;
  receiverId : value;
  message : value;
  messageType : value;
  isRead : value;
  createdAt : Date;
  senderName : value;
  senderAvatar : value
}.

(** The constructor with its positional parameters and defaults:
    [messageType = 'text'], [isRead = false], [createdAt = new Date()].
    An omitted argument is [None]. *)
Definition new_ChatMessage (now : Z)
    (a_id a_senderId a_receiverId a_message : value)
    (a_messageType a_isRead : option value) (a_createdAt : option Date)
    (a_senderName a_senderAvatar : value) : ChatMessage :=
  {| id := a_id;
     senderId := a_senderId;
     receiverId := a_receiverId;
     message := a_message;
     messageType := match a_messageType with Some v => v | None => VStr "text" end;
     isRead := match a_isRead with Some v => v | None => VBool false end;
     createdAt := match a_createdAt with Some d => d | None => Some now end;
     senderName := a_senderName;
     senderAvatar := a_senderAvatar |}.

Definition isFromMe (m : ChatMessage) (myUserId : value) : bool :=
  senderId m === myUserId.

Definition ChatMessage_toJson (m : ChatMessage) : value :=
  VObj [ ("id", id m);
         ("senderId", senderId m);
         ("receiverId", receiverId m);
         ("message", message m);
         ("messageType", messageType m);
         ("isRead", isRead m);
         ("createdAt", getTime (createdAt m));
         ("senderName", senderName m);
         ("senderAvatar", senderAvatar m) ].

Section Decode.
Variable Date_convert : value -> Date.
(** [Date.now()] at the time of the call. *)
Variable now : Z.

Definition ChatMessage_fromJson (json : value) : completion ChatMessage :=
  j_id <- get_prop json "id" ;;
  j_senderId <- get_prop json "senderId" ;;
  j_receiverId <- get_prop json "receiverId" ;;
  j_message <- get_prop json "message" ;;
  j_messageType <- get_prop json "messageType" ;;
  j_isRead <- get_prop json "isRead" ;;
  j_createdAt <- get_prop json "createdAt" ;;
  j_senderName <- get_prop json "senderName" ;;
  j_senderAvatar <- get_prop json "senderAvatar" ;;
  Return
    {| id := j_id ||| VNum 0;
       senderId := j_senderId ||| VNum 0;
       receiverId := j_receiverId ||| VNum 0;
       message := j_message ||| VStr EmptyString;
       messageType := j_messageType ||| VStr "text";
       isRead := j_isRead ||| VBool false;
       createdAt := new_Date Date_convert (j_createdAt ||| VNum now);
       senderName := j_senderName ||| VStr EmptyString;
       senderAvatar := j_senderAvatar ||| VStr EmptyString |}.
End Decode.

(** A message whose fields hold what their declared types say. *)
Definition typedMessage (i s r : Z) (text type : string) (read : bool)
    (t : Z) (name avatar : string) : ChatMessage :=
  {| id := VNum i; senderId := VNum s; receiverId := VNum r;
     message := VStr text; messageType := VStr type; isRead := VBool read;
     createdAt := Some t;
     senderName := VStr name; senderAvatar := VStr avatar |}.

(** What [fromJson] makes of an object without any of the fields. *)
Definition defaultMessage (now : Z) : ChatMessage :=
  {| id := VNum 0; senderId := VNum 0; receiverId := VNum 0;
     message := VStr EmptyString; messageType := VStr "text";
     isRead := VBool false;
     createdAt := Some now;
     senderName := VStr EmptyString; senderAvatar := VStr EmptyString |}.


Record ChatConversation : Type := mkChatConversation {
  c_id : value;
  otherUserId : value;
  otherUserName : value;
  otherUserAvatar : value;
  lastMessage : value;
  lastMessageTime : option Date;
  unreadCount : Z;
  c_createdAt : Date
}.

(** [new ChatConversation(a, b)]: two positional arguments, the rest
    omitted ([unreadCount = 0], [createdAt = new Date()]). *)
Definition new_ChatConversation2 (now : Z) (a_id a_otherUserId : value)
  : ChatConversation :=
  {| c_id := a_id;
     otherUserId := a_otherUserId;
     otherUserName := VUndefined;
     otherUserAvatar := VUndefined;
     lastMessage := VUndefined;
     lastMessageTime := None;
     unreadCount := 0;
     c_createdAt := Some now |}.

Record SendMessageRequest : Type := mkSendMessageRequest {
  rq_senderId : value;
  rq_receiverId : value;
  rq_message : value;
  rq_messageType : value
}.

Definition new_SendMessageRequest (s r m : value) : SendMessageRequest :=
  {| rq_senderId := s; rq_receiverId := r; rq_message := m;
     rq_messageType := VStr "text" |}.

Definition SendMessageRequest_toJson (r : SendMessageRequest) : value :=
  VObj [ ("senderId", rq_senderId r);
         ("receiverId", rq_receiverId r);
         ("message", rq_message r);
         ("messageType", rq_messageType r) ].

Record MarkAsReadRequest : Type := mkMarkAsReadRequest {
  mr_userId : value;
  mr_senderId : value
}.

Definition MarkAsReadRequest_toJson (r : MarkAsReadRequest) : value :=
  VObj [ ("userId", mr_userId r); ("senderId", mr_senderId r) ].

End Model.

Import Model.

(* ================================================================= *)
(** ** common/model/ChatManager.ets *)

Module Chat.

(** A [Map] keeps its bindings in insertion order; keys are compared
    with SameValueZero. *)
Definition JsMap (V : Type) : Type := list (value * V).

Fixpoint map_get {V} (k : value) (m : JsMap V) : option V :=
  match m with
  | [] => None
  | (k', v) :: rest =>
      if same_value_zero k' k then Some v else map_get k rest
  end.

Fixpoint map_set {V} (k : value) (v : V) (m : JsMap V) : JsMap V :=
  match m with
  | [] => [(k, v)]
  | (k', v') :: rest =>
      if same_value_zero k' k then (k', v) :: rest
      else (k', v') :: map_set k v rest
  end.

(** [Array.prototype.findIndex]. *)
Fixpoint findIndex {A} (p : A -> bool) (l : list A) : option nat :=
  match l with
  | [] => None
  | x :: rest =>
      if p x then Some 0%nat else option_map S (findIndex p rest)
  end.

(** [l.splice(i, 1)]. *)
Fixpoint splice1 {A} (i : nat) (l : list A) : list A :=
  match l, i with
  | [], _ => []
  | _ :: rest, O => rest
  | x :: rest, S j => x :: splice1 j rest
  end.

(** The fields of [ChatManager] that hold the conversation store.  The
    message and conversation objects are mutated in place by the source;
    each of them is reachable from one place of one cache only, so a
    cache is modelled by the values it holds. *)
Record ChatManager : Type := mkChatManager {
  currentUserId : Z;
  messageCache : JsMap (list ChatMessage);
  conversationCache : list ChatConversation
}.

Definition initial : ChatManager :=
  {| currentUserId := -1; messageCache := []; conversationCache := [] |}.

(** Calls into the collaborators, in call order, as made when none of
    them throws. *)
Inductive effect : Type :=
| LocalSaveMessage (m : ChatMessage)
| LocalMarkMessagesAsRead (peer : value)
| WsSendPrivateMessage (r : SendMessageRequest)
| WsMarkAsRead (r : MarkAsReadRequest)
| NotifyMessageReceived (m : ChatMessage)
| NotifyMessageRead (readerId : value).

Definition messagesOf (userId : value) (s : ChatManager)
  : list ChatMessage :=
  match map_get userId (messageCache s) with
  | Some l => l
  | None => []
  end.

Definition addMessageToCache (userId : value) (m : ChatMessage)
    (s : ChatManager) : ChatManager :=
  let messages := messagesOf userId s in
  {| currentUserId := currentUserId s;
     messageCache := map_set userId (messages ++ [m]) (messageCache s);
     conversationCache := conversationCache s |}.

Definition isConversationWith (otherId : value) (c : ChatConversation)
  : bool :=
  otherUserId c === otherId.

(** The last three statements of [updateConversationWithMessage]. *)
Definition touch (me : Z) (m : ChatMessage) (c : ChatConversation)
  : ChatConversation :=
  {| c_id := c_id c;
     otherUserId := otherUserId c;
     otherUserName := otherUserName c;
     otherUserAvatar := otherUserAvatar c;
     lastMessage := message m;
     lastMessageTime := Some (createdAt m);
     unreadCount :=
       if senderId m === VNum me then unreadCount c else unreadCount c + 1;
     c_createdAt := c_createdAt c |}.

Definition unknownUser : value := VStr "未知用户".

Definition updateConversationWithMessage (now : Z) (m : ChatMessage)
    (s : ChatManager) : ChatManager :=
  let me := currentUserId s in
  let otherId :=
    if senderId m === VNum me then receiverId m else senderId m in
  let convs := conversationCache s in
  let convs' :=
    match find (isConversationWith otherId) convs with
    | None =>
        (* new ChatConversation(otherUserId, message.senderName || ...):
           the constructor's parameters are (id, otherUserId, ...) *)
        let c := new_ChatConversation2 now otherId
                   (senderName m ||| unknownUser) in
        touch me m c :: convs
    | Some c =>
        match findIndex (isConversationWith otherId) convs with
        | Some index => touch me m c :: splice1 index convs
        | None => convs
        end
    end in
  {| currentUserId := me;
     messageCache := messageCache s;
     conversationCache := convs' |}.

(** [conversation.unreadCount = count]. *)
Definition setUnreadCount (count : Z) (c : ChatConversation)
  : ChatConversation :=
  {| c_id := c_id c;
     otherUserId := otherUserId c;
     otherUserName := otherUserName c;
     otherUserAvatar := otherUserAvatar c;
     lastMessage := lastMessage c;
     lastMessageTime := lastMessageTime c;
     unreadCount := count;
     c_createdAt := c_createdAt c |}.

(** [find] the first conversation with [userId] and, if there is one, set
    its count. *)
Fixpoint setFirstUnread (userId : value) (count : Z)
    (l : list ChatConversation) : list ChatConversation :=
  match l with
  | [] => []
  | c :: rest =>
      if isConversationWith userId c then setUnreadCount count c :: rest
      else c :: setFirstUnread userId count rest
  end.

Definition updateConversationUnreadCount (userId : value) (count : Z)
    (s : ChatManager) : ChatManager :=
  {| currentUserId := currentUserId s;
     messageCache := messageCache s;
     conversationCache :=
       setFirstUnread userId count (conversationCache s) |}.

Definition setRead (m : ChatMessage) : ChatMessage :=
  {| id := id m; senderId := senderId m; receiverId := receiverId m;
     message := message m; messageType := messageType m;
     isRead := VBool true;
     createdAt := createdAt m; senderName := senderName m;
     senderAvatar := senderAvatar m |}.

(** Body of the [forEach] of [markAsRead]. *)
Definition markIfUnreadFrom (sender : value) (m : ChatMessage)
  : ChatMessage :=
  if (senderId m === sender) && negb (truthy (isRead m))
  then setRead m else m.

(** Body of the [forEach] of [handleMessageRead]. *)
Definition markIfFrom (sender : value) (m : ChatMessage) : ChatMessage :=
  if senderId m === sender then setRead m else m.

(** [(this.messageCache.get(k) || []).forEach(f)] with [f] mutating the
    messages in place. *)
Definition forEachMessageOf (k : value) (f : ChatMessage -> ChatMessage)
    (s : ChatManager) : ChatManager :=
  match map_get k (messageCache s) with
  | None => s
  | Some l =>
      {| currentUserId := currentUserId s;
         messageCache := map_set k (map f l) (messageCache s);
         conversationCache := conversationCache s |}
  end.

Definition sendMessage (now : Z) (receiver : Z) (text : string)
    (s : ChatManager) : ChatManager * list effect * ChatMessage :=
  let me := VNum (currentUserId s) in
  let request := new_SendMessageRequest me (VNum receiver) (VStr text) in
  (* new ChatMessage(this.currentUserId, receiverId, message): the
     constructor's parameters are (id, senderId, receiverId, message, ...) *)
  let m0 := new_ChatMessage now me (VNum receiver) (VStr text) VUndefined
              None None None VUndefined VUndefined in
  let localMessage :=
    {| id := id m0; senderId := senderId m0; receiverId := receiverId m0;
       message := message m0; messageType := messageType m0;
       isRead := isRead m0;
       createdAt := Some now;
       senderName := VStr "我";
       senderAvatar := senderAvatar m0 |} in
  (addMessageToCache (VNum receiver) localMessage s,
   [LocalSaveMessage localMessage; WsSendPrivateMessage request],
   localMessage).

Definition markAsRead (sender : Z) (s : ChatManager)
  : ChatManager * list effect :=
  let request :=
    {| mr_userId := VNum (currentUserId s); mr_senderId := VNum sender |} in
  let s1 := forEachMessageOf (VNum sender)
              (markIfUnreadFrom (VNum sender)) s in
  let s2 := updateConversationUnreadCount (VNum sender) 0 s1 in
  (s2, [LocalMarkMessagesAsRead (VNum sender); WsMarkAsRead request]).

Definition handleNewMessage (now : Z) (m : ChatMessage) (s : ChatManager)
  : ChatManager * list effect :=
  let s1 := addMessageToCache (senderId m) m s in
  let s2 := updateConversationWithMessage now m s1 in
  (s2, [LocalSaveMessage m; NotifyMessageReceived m]).

Fixpoint handleOfflineMessages (now : Z) (ms : list ChatMessage)
    (s : ChatManager) : ChatManager * list effect :=
  match ms with
  | [] => (s, [])
  | m :: rest =>
      let '(s1, e1) := handleNewMessage now m s in
      let '(s2, e2) := handleOfflineMessages now rest s1 in
      (s2, e1 ++ e2)
  end.

Definition handleMessageRead (readerId : value) (s : ChatManager)
  : ChatManager * list effect :=
  (forEachMessageOf readerId (markIfFrom readerId) s,
   [NotifyMessageRead readerId]).

(** *** Observations used by the statements *)

Definition conversationOf (peer : value) (s : ChatManager)
  : option ChatConversation :=
  find (isConversationWith peer) (conversationCache s).

Definition conversationsOf (peer : value) (s : ChatManager)
  : list ChatConversation :=
  filter (isConversationWith peer) (conversationCache s).

Definition allMessages (s : ChatManager) : list ChatMessage :=
  flat_map snd (messageCache s).

Definition isUnreadFrom (peer : value) (m : ChatMessage) : bool :=
  (senderId m === peer) && negb (truthy (isRead m)).

Definition unreadFrom (peer : value) (s : ChatManager) : Z :=
  Z.of_nat (List.length (filter (isUnreadFrom peer) (allMessages s))).

(** The invariant of the conversation store, at one peer: at most one
    conversation, whose [unreadCount] is the number of unread messages of
    the peer. *)
Definition invariantAt (peer : value) (s : ChatManager) : Prop :=
  (List.length (conversationsOf peer s) <= 1)%nat /\
  forall c, conversationOf peer s = Some c ->
            unreadCount c = unreadFrom peer s.

End Chat.

(* ================================================================= *)
(** ** common/api/WebSocketManager.ets *)

Module Ws.

Inductive WebSocketStatus : Type :=
| DISCONNECTED
| CONNECTING
| CONNECTED
| ERROR.

Definition status_eqb (a b : WebSocketStatus) : bool :=
  match a, b with
  | DISCONNECTED, DISCONNECTED | CONNECTING, CONNECTING
  | CONNECTED, CONNECTED | ERROR, ERROR => true
  | _, _ => false
  end.

(** What a connection listener is called with. *)
Inductive conn_callback : Type :=
| OnConnected
| OnDisconnected
| OnError (error : value).

(** What a message listener is called with. *)
Inductive msg_callback : Type :=
| OnMessageReceived (m : ChatMessage)
| OnMessageSent (success messageId : value)
| OnMessageRead (readerId : value)
| OnOnlineStatusReceived (status : value)
| OnOfflineMessagesReceived (ms : list ChatMessage).

(** A listener is known by what its callbacks do to the caller: return
    ([None]) or throw. *)
Definition connection_listener : Type := conn_callback -> option error.
Definition message_listener : Type := msg_callback -> option error.

(** The handle of an armed timeout, identified by its delay (ms). *)
Definition timer : Type := Z.

Record WebSocketManager : Type := mkWebSocketManager {
  webSocket : option unit;
  url : string;
  status : WebSocketStatus;
  connectionListeners : list connection_listener;
  messageListeners : list message_listener;
  reconnectTimer : option timer;
  reconnectAttempts : Z;
  maxReconnectAttempts : Z;
  reconnectDelay : Z
}.

Definition initial : WebSocketManager :=
  {| webSocket := None;
     url := EmptyString;
     status := DISCONNECTED;
     connectionListeners := [];
     messageListeners := [];
     reconnectTimer := None;
     reconnectAttempts := 0;
     maxReconnectAttempts := 5;
     reconnectDelay := 3000 |}.

(** Everything the manager does to the outside, in order. *)
Inductive effect : Type :=
| ConsoleLog (text : string)
| ConsoleError (text : string)
| SocketCreate
| SocketConnect (url : string)
| SocketClose
| SocketSend (event : string) (data : value)
| SetTimeout (delay : Z)
| ClearTimeout (t : timer)
| ConnCall (listener : nat) (c : conn_callback)
| MsgCall (listener : nat) (c : msg_callback).

(** Statements: state in, completion, state and effects out.  A throw
    keeps the state written so far. *)
Definition M (A : Type) : Type :=
  WebSocketManager -> completion A * WebSocketManager * list effect.

Definition ret {A} (a : A) : M A := fun s => (Return a, s, []).

Definition throw {A} (e : error) : M A := fun s => (Throw e, s, []).

Definition bindM {A B} (c : M A) (k : A -> M B) : M B :=
  fun s =>
    match c s with
    | (Return a, s1, t1) =>
        let '(r, s2, t2) := k a s1 in (r, s2, t1 ++ t2)
    | (Throw e, s1, t1) => (Throw e, s1, t1)
    end.

Definition try_catch {A} (c : M A) (handler : error -> M A) : M A :=
  fun s =>
    match c s with
    | (Throw e, s1, t1) =>
        let '(r, s2, t2) := handler e s1 in (r, s2, t1 ++ t2)
    | done => done
    end.

Definition read : M WebSocketManager := fun s => (Return s, s, []).

Definition write (f : WebSocketManager -> WebSocketManager) : M unit :=
  fun s => (Return tt, f s, []).

Definition out (e : effect) : M unit := fun s => (Return tt, s, [e]).

Definition lift {A} (c : completion A) : M A :=
  fun s => (c, s, []).

Declare Scope ws_scope.
Delimit Scope ws_scope with ws.
Notation "x <~ c ;; k" := (bindM c (fun x => k))
  (at level 61, c at next level, right associativity) : ws_scope.
Notation "c ;; k" := (bindM c (fun _ => k))
  (at level 61, right associativity) : ws_scope.
Local Open Scope ws_scope.

Definition set_status (v : WebSocketStatus) (s : WebSocketManager) :=
  {| webSocket := webSocket s; url := url s; status := v;
     connectionListeners := connectionListeners s;
     messageListeners := messageListeners s;
     reconnectTimer := reconnectTimer s;
     reconnectAttempts := reconnectAttempts s;
     maxReconnectAttempts := maxReconnectAttempts s;
     reconnectDelay := reconnectDelay s |}.

Definition set_url (v : string) (s : WebSocketManager) :=
  {| webSocket := webSocket s; url := v; status := status s;
     connectionListeners := connectionListeners s;
     messageListeners := messageListeners s;
     reconnectTimer := reconnectTimer s;
     reconnectAttempts := reconnectAttempts s;
     maxReconnectAttempts := maxReconnectAttempts s;
     reconnectDelay := reconnectDelay s |}.

Definition set_webSocket (v : option unit) (s : WebSocketManager) :=
  {| webSocket := v; url := url s; status := status s;
     connectionListeners := connectionListeners s;
     messageListeners := messageListeners s;
     reconnectTimer := reconnectTimer s;
     reconnectAttempts := reconnectAttempts s;
     maxReconnectAttempts := maxReconnectAttempts s;
     reconnectDelay := reconnectDelay s |}.

Definition set_reconnectTimer (v : option timer) (s : WebSocketManager) :=
  {| webSocket := webSocket s; url := url s; status := status s;
     connectionListeners := connectionListeners s;
     messageListeners := messageListeners s;
     reconnectTimer := v;
     reconnectAttempts := reconnectAttempts s;
     maxReconnectAttempts := maxReconnectAttempts s;
     reconnectDelay := reconnectDelay s |}.

Definition set_reconnectAttempts (v : Z) (s : WebSocketManager) :=
  {| webSocket := webSocket s; url := url s; status := status s;
     connectionListeners := connectionListeners s;
     messageListeners := messageListeners s;
     reconnectTimer := reconnectTimer s;
     reconnectAttempts := v;
     maxReconnectAttempts := maxReconnectAttempts s;
     reconnectDelay := reconnectDelay s |}.

(** [listeners.forEach(l => l.callback(args))], the first listener being
    number [i].  The arguments are evaluated at each listener, before the
    call; a throw (of the arguments or of the listener) ends the loop. *)
Fixpoint forEachFrom {C} (call : nat -> C -> effect)
    (i : nat) (ls : list (C -> option error)) (args : completion C)
  : M unit :=
  match ls with
  | [] => ret tt
  | l :: rest =>
      c <~ lift args ;;
      out (call i c) ;;
      match l c with
      | None => forEachFrom call (S i) rest args
      | Some e => throw e
      end
  end.

Definition notifyConnectionListeners (event : string) (error : value)
  : M unit :=
  s <~ read ;;
  let ls := connectionListeners s in
  if String.eqb event "connected" then
    forEachFrom ConnCall 0 ls (Return OnConnected)
  else if String.eqb event "disconnected" then
    forEachFrom ConnCall 0 ls (Return OnDisconnected)
  else if String.eqb event "error" then
    forEachFrom ConnCall 0 ls
      (Return (OnError (error ||| VStr "未知错误")))
  else
    (* no case of the switch matches: every listener is visited and
       nothing is called *)
    ret tt.

Definition scheduleReconnect : M unit :=
  s <~ read ;;
  if reconnectAttempts s >=? maxReconnectAttempts s then
    out (ConsoleLog "WebSocket重连次数已达上限，停止重连")
  else
    match reconnectTimer s with
    | Some t => out (ClearTimeout t)
    | None => ret tt
    end ;;
    write (fun s => set_reconnectAttempts (reconnectAttempts s + 1) s) ;;
    s <~ read ;;
    let delay := reconnectDelay s * reconnectAttempts s in
    out (ConsoleLog "WebSocket将在 delay ms 后尝试重连") ;;
    out (SetTimeout delay) ;;
    write (set_reconnectTimer (Some delay)).

(** The socket's ['open'] handler. *)
Definition on_open : M unit :=
  out (ConsoleLog "WebSocket连接成功") ;;
  write (set_status CONNECTED) ;;
  write (set_reconnectAttempts 0) ;;
  notifyConnectionListeners "connected" VUndefined.

(** The socket's ['close'] handler. *)
Definition on_close : M unit :=
  out (ConsoleLog "WebSocket连接关闭") ;;
  write (set_status DISCONNECTED) ;;
  notifyConnectionListeners "disconnected" VUndefined ;;
  scheduleReconnect.

(** The socket's ['error'] handler; [message] is [error.message]. *)
Definition on_error (message : value) : M unit :=
  out (ConsoleError "WebSocket连接错误:") ;;
  write (set_status ERROR) ;;
  notifyConnectionListeners "error" message ;;
  scheduleReconnect.

(** How the platform answers a connection attempt. *)
Inductive connect_outcome : Type :=
| Pending
| CreateThrows (message : value)
| ConnectRejects (message : value).

(** The [catch] block of [connect]; [message] is [error.message]. *)
Definition connect_catch (message : value) : M unit :=
  out (ConsoleError "WebSocket连接失败:") ;;
  write (set_status ERROR) ;;
  notifyConnectionListeners "error" message ;;
  scheduleReconnect.

Definition connect (target : string) (o : connect_outcome) : M unit :=
  s <~ read ;;
  if status_eqb (status s) CONNECTING || status_eqb (status s) CONNECTED
  then out (ConsoleLog "WebSocket已连接或正在连接中")
  else
    write (set_url target) ;;
    write (set_status CONNECTING) ;;
    match o with
    | CreateThrows message =>
        out SocketCreate ;;
        connect_catch message
    | ConnectRejects message =>
        out SocketCreate ;;
        write (set_webSocket (Some tt)) ;;
        out (SocketConnect target) ;;
        connect_catch message
    | Pending =>
        out SocketCreate ;;
        write (set_webSocket (Some tt)) ;;
        out (SocketConnect target)
    end.

(** The callback armed by [scheduleReconnect]. *)
Definition on_timer (o : connect_outcome) : M unit :=
  s <~ read ;;
  connect (url s) o.

Definition disconnect : M unit :=
  s <~ read ;;
  match reconnectTimer s with
  | Some t => out (ClearTimeout t) ;; write (set_reconnectTimer None)
  | None => ret tt
  end ;;
  match webSocket s with
  | Some _ => out SocketClose ;; write (set_webSocket None)
  | None => ret tt
  end ;;
  write (set_status DISCONNECTED) ;;
  notifyConnectionListeners "disconnected" VUndefined.

(** [emit(event, data)]; [sendFails] is the rejection of
    [webSocket.send], if any. *)
Definition emit (event : string) (data : value) (sendFails : option error)
  : M unit :=
  s <~ read ;;
  if negb (status_eqb (status s) CONNECTED)
     || match webSocket s with None => true | Some _ => false end
  then out (ConsoleError "WebSocket未连接，无法发送消息")
  else
    try_catch
      (match sendFails with
       | None =>
           out (SocketSend event data) ;;
           out (ConsoleLog "WebSocket消息发送成功:")
       | Some e => throw e
       end)
      (fun e => out (ConsoleError "WebSocket消息发送失败:") ;; throw e).

Definition sendPrivateMessage (r : SendMessageRequest)
    (sendFails : option error) : M unit :=
  emit "send_private_message" (SendMessageRequest_toJson r) sendFails.

Definition markAsRead (r : MarkAsReadRequest) (sendFails : option error)
  : M unit :=
  emit "mark_as_read" (MarkAsReadRequest_toJson r) sendFails.

(** *** Inbound frames *)

Section Dispatch.
(** [JSON.parse]. *)
Variable JSON_parse : string -> completion value.
Variable Date_convert : value -> Date.
(** [Date.now()] while the frame is handled. *)
Variable now : Z.

Definition forEachMessageListener (args : completion msg_callback)
  : M unit :=
  s <~ read ;;
  forEachFrom MsgCall 0 (messageListeners s) args.

Definition handlePrivateMessage (data : value) : M unit :=
  message <~ lift (ChatMessage_fromJson Date_convert now data) ;;
  (* [if (message)]: an object is truthy *)
  forEachMessageListener (Return (OnMessageReceived message)).

Definition handleMessageSent (data : value) : M unit :=
  forEachMessageListener
    (success <- get_prop data "success" ;;
     messageId <- get_prop data "messageId" ;;
     Return (OnMessageSent success messageId))%js.

Definition handleMessageRead (data : value) : M unit :=
  forEachMessageListener
    (readerId <- get_prop data "readerId" ;;
     Return (OnMessageRead readerId))%js.

Definition handleOnlineStatus (data : value) : M unit :=
  forEachMessageListener (Return (OnOnlineStatusReceived data)).

Definition handleOfflineMessages (data : value) : M unit :=
  messages <~ lift (get_prop data "messages") ;;
  match messages with
  | VArr items =>
      (* [fromJson] never returns null: the filter keeps everything *)
      decoded <~ lift (map_m (ChatMessage_fromJson Date_convert now) items) ;;
      forEachMessageListener (Return (OnOfflineMessagesReceived decoded))
  | VUndefined | VNull =>
      throw (TypeError "cannot read properties of undefined")
  | _ => throw (TypeError "data.messages.map is not a function")
  end.

Definition handleMessage (data : string) : M unit :=
  try_catch
    (message <~ lift (JSON_parse data) ;;
     out (ConsoleLog "收到WebSocket消息:") ;;
     event <~ lift (get_prop message "event") ;;
     if event === VStr "receive_private_message" then
       d <~ lift (get_prop message "data") ;; handlePrivateMessage d
     else if event === VStr "message_sent" then
       d <~ lift (get_prop message "data") ;; handleMessageSent d
     else if event === VStr "message_read" then
       d <~ lift (get_prop message "data") ;; handleMessageRead d
     else if event === VStr "online_status" then
       d <~ lift (get_prop message "data") ;; handleOnlineStatus d
     else if event === VStr "offline_messages" then
       d <~ lift (get_prop message "data") ;; handleOfflineMessages d
     else
       out (ConsoleLog "未知的WebSocket消息类型:"))
    (fun _ => out (ConsoleError "解析WebSocket消息失败:")).

End Dispatch.

(** *** Runs *)

(** One thing that can go wrong with the connection, with the handler
    that runs for it. *)
Inductive failure : Type :=
| SocketClosed
| SocketError (message : value)
| ConnectThrew (message : value).

Definition fail (f : failure) : M unit :=
  match f with
  | SocketClosed => on_close
  | SocketError message => on_error message
  | ConnectThrew message => connect_catch message
  end.

(** Handlers run one after the other; what a handler throws goes to the
    platform and the next one still runs. *)
Fixpoint run (hs : list (M unit)) (s : WebSocketManager)
  : WebSocketManager * list effect :=
  match hs with
  | [] => (s, [])
  | h :: rest =>
      let '(_, s1, t1) := h s in
      let '(s2, t2) := run rest s1 in
      (s2, t1 ++ t2)
  end.

(** A failure, after the armed timer has started a new attempt
    ([retried]) or before it fired. *)
Definition round (r : bool * failure) : list (M unit) :=
  (if fst r then [on_timer Pending] else []) ++ [fail (snd r)].

(** The three parts of what a statement leaves. *)
Definition completionOf {A}
    (x : completion A * WebSocketManager * list effect) : completion A :=
  fst (fst x).

Definition stateOf {A}
    (x : completion A * WebSocketManager * list effect) : WebSocketManager :=
  snd (fst x).

Definition traceOf {A}
    (x : completion A * WebSocketManager * list effect) : list effect :=
  snd x.

(** The calls a [forEach] makes when no listener throws. *)
Fixpoint callsFrom {C} (call : nat -> C -> effect) (i : nat)
    (ls : list (C -> option error)) (c : C) : list effect :=
  match ls with
  | [] => []
  | _ :: rest => call i c :: callsFrom call (S i) rest c
  end.

(** The status a failure handler writes. *)
Definition statusAfter (f : failure) : WebSocketStatus :=
  match f with
  | SocketClosed => DISCONNECTED
  | SocketError _ | ConnectThrew _ => ERROR
  end.

(** What the listeners are called with for a failure. *)
Definition noticeOf (f : failure) : conn_callback :=
  match f with
  | SocketClosed => OnDisconnected
  | SocketError message | ConnectThrew message =>
      OnError (message ||| VStr "未知错误")
  end.

Definition firstLineOf (f : failure) : effect :=
  match f with
  | SocketClosed => ConsoleLog "WebSocket连接关闭"
  | SocketError _ => ConsoleError "WebSocket连接错误:"
  | ConnectThrew _ => ConsoleError "WebSocket连接失败:"
  end.

(** The settings and listeners of two states are the same. *)
Definition sameSetup (a b : WebSocketManager) : Prop :=
  connectionListeners b = connectionListeners a /\
  messageListeners b = messageListeners a /\
  maxReconnectAttempts b = maxReconnectAttempts a /\
  reconnectDelay b = reconnectDelay a.

(** Effects that stay inside the client: console lines and calls of
    message listeners. *)
Definition inward (e : effect) : bool :=
  match e with
  | ConsoleLog _ | ConsoleError _ | MsgCall _ _ => true
  | _ => false
  end.

(** A statement that leaves the manager as it is and has inward effects
    only. *)
Definition benign {A} (c : M A) : Prop :=
  forall s, stateOf (c s) = s /\
            Forall (fun e => inward e = true) (traceOf (c s)).



Definition isConsole (e : effect) : bool :=
  match e with ConsoleLog _ | ConsoleError _ => true | _ => false end.

Definition isSend (e : effect) : bool :=
  match e with SocketSend _ _ => true | _ => false end.

Definition isSetTimeout (e : effect) : bool :=
  match e with SetTimeout _ => true | _ => false end.

Definition isCall (e : effect) : bool :=
  match e with MsgCall _ _ | ConnCall _ _ => true | _ => false end.

Definition quiet {C} (ls : list (C -> option error)) : Prop :=
  forall l c, In l ls -> l c = None.

End Ws.


(* ================================================================= *)
(** ** common/push/PushManager.ets: the second [WebSocketManager] *)

Module Queued.

(** The manager that [common/chat/ChatManager.ets] talks to.  It keeps
    the frames it could not send. *)
Record WebSocketManager : Type := mkWebSocketManager {
  ws : option unit;
  isConnected : bool;
  reconnectAttempts : Z;
  maxReconnectAttempts : Z;
  reconnectDelay : Z;
  listeners : list Ws.connection_listener;
  messageQueue : list (string * value)
}.

Definition initial : WebSocketManager :=
  {| ws := None;
     isConnected := false;
     reconnectAttempts := 0;
     maxReconnectAttempts := 5;
     reconnectDelay := 1000;
     listeners := [];
     messageQueue := [] |}.

Definition set_messageQueue (q : list (string * value))
    (s : WebSocketManager) : WebSocketManager :=
  {| ws := ws s; isConnected := isConnected s;
     reconnectAttempts := reconnectAttempts s;
     maxReconnectAttempts := maxReconnectAttempts s;
     reconnectDelay := reconnectDelay s;
     listeners := listeners s;
     messageQueue := q |}.

Definition set_opened (s : WebSocketManager) : WebSocketManager :=
  {| ws := ws s; isConnected := true;
     reconnectAttempts := 0;
     maxReconnectAttempts := maxReconnectAttempts s;
     reconnectDelay := reconnectDelay s;
     listeners := listeners s;
     messageQueue := messageQueue s |}.

(** [emit(event, data)]: it never throws; a frame that is not sent is
    pushed on the queue.  [sendFails] is the rejection of [ws.send], if
    any. *)
Definition emit (event : string) (data : value) (sendFails : option error)
    (s : WebSocketManager) : WebSocketManager * list Ws.effect :=
  if isConnected s && match ws s with Some _ => true | None => false end then
    match sendFails with
    | None =>
        (s, [Ws.SocketSend event data; Ws.ConsoleLog "发送WebSocket消息:"])
    | Some _ =>
        (set_messageQueue (messageQueue s ++ [(event, data)]) s,
         [Ws.ConsoleError "发送WebSocket消息失败:"])
    end
  else
    (set_messageQueue (messageQueue s ++ [(event, data)]) s,
     [Ws.ConsoleLog "WebSocket未连接，消息已加入队列:"]).

(** The loop of [sendQueuedMessages] from position [i] of the queue, no
    other handler running in between.  The loop walks the queue it is
    appending to; [sendFails k] is the outcome of the send at position
    [k]; [fuel] bounds the number of turns. *)
Fixpoint replayFrom (fuel i : nat) (sendFails : nat -> option error)
    (s : WebSocketManager) : option (WebSocketManager * list Ws.effect) :=
  match fuel with
  | O => None
  | S fuel' =>
      match nth_error (messageQueue s) i with
      | None => Some (set_messageQueue [] s, [])
      | Some (event, data) =>
          let '(s1, t1) := emit event data (sendFails i) s in
          match replayFrom fuel' (S i) sendFails s1 with
          | Some (s2, t2) => Some (s2, t1 ++ t2)
          | None => None
          end
      end
  end.

Definition sendQueuedMessages (fuel : nat) (sendFails : nat -> option error)
    (s : WebSocketManager) : option (WebSocketManager * list Ws.effect) :=
  match messageQueue s with
  | [] => Some (s, [])
  | _ :: _ =>
      match replayFrom fuel 0 sendFails s with
      | Some (s1, t1) => Some (s1, Ws.ConsoleLog "发送队列中的消息" :: t1)
      | None => None
      end
  end.

(** The calls of [listeners.forEach(l => l.onConnect())]. *)
Fixpoint notifyConnect (i : nat) (ls : list Ws.connection_listener)
  : list Ws.effect :=
  match ls with
  | [] => []
  | l :: rest =>
      Ws.ConnCall i Ws.OnConnected
      :: match l Ws.OnConnected with
         | None => notifyConnect (S i) rest
         | Some _ => []
         end
  end.

(** [connect()] while not connected, up to the point where it waits for
    the socket: a socket is created and the handlers are registered. *)
Definition connect (s : WebSocketManager) : WebSocketManager :=
  if isConnected s then s
  else
    {| ws := Some tt; isConnected := isConnected s;
       reconnectAttempts := reconnectAttempts s;
       maxReconnectAttempts := maxReconnectAttempts s;
       reconnectDelay := reconnectDelay s;
       listeners := listeners s;
       messageQueue := messageQueue s |}.

(** The socket's ['open'] handler, the replay it starts run to its end.
    The listeners, which the handler calls once the replay waits for its
    first send, are recorded after the replay. *)
Definition on_open (fuel : nat) (sendFails : nat -> option error)
    (s : WebSocketManager) : option (WebSocketManager * list Ws.effect) :=
  match sendQueuedMessages fuel sendFails (set_opened s) with
  | Some (s1, t1) =>
      Some (s1, Ws.ConsoleLog "WebSocket连接成功" :: t1
                ++ notifyConnect 0 (listeners s1))
  | None => None
  end.

Fixpoint emitAll (frames : list (string * value)) (s : WebSocketManager)
  : WebSocketManager * list Ws.effect :=
  match frames with
  | [] => (s, [])
  | (event, data) :: rest =>
      let '(s1, t1) := emit event data None s in
      let '(s2, t2) := emitAll rest s1 in
      (s2, t1 ++ t2)
  end.

(** The frames handed to the socket, in order. *)
Fixpoint sentFrames (t : list Ws.effect) : list (string * value) :=
  match t with
  | [] => []
  | Ws.SocketSend event data :: rest => (event, data) :: sentFrames rest
  | _ :: rest => sentFrames rest
  end.

End Queued.


(* ================================================================= *)
(** ** Concrete stores and messages *)

Module Sample.

(** A conversation with peer 7, as loaded from the server. *)
Definition conv7 : ChatConversation :=
  {| c_id := VNum 70;
     otherUserId := VNum 7;
     otherUserName := VStr "Bob";
     otherUserAvatar := VStr EmptyString;
     lastMessage := VStr EmptyString;
     lastMessageTime := Some (Some 10);
     unreadCount := 0;
     c_createdAt := Some 10 |}.

(** User 1 is connected; nothing is cached. *)
Definition emptyStore : Chat.ChatManager :=
  {| Chat.currentUserId := 1;
     Chat.messageCache := [];
     Chat.conversationCache := [] |}.

(** User 1 is connected and has a conversation with peer 7. *)
Definition store7 : Chat.ChatManager :=
  {| Chat.currentUserId := 1;
     Chat.messageCache := [];
     Chat.conversationCache := [conv7] |}.

(** Unread messages from peer 7 to user 1. *)
Definition msg7 : ChatMessage :=
  typedMessage 500 7 1 "hi" "text" false 1000 "Bob" "avatar".

Definition batch7 : list ChatMessage :=
  [ typedMessage 501 7 1 "one" "text" false 1001 "Bob" "avatar";
    typedMessage 502 7 1 "two" "text" false 1002 "Bob" "avatar";
    typedMessage 503 7 1 "three" "text" false 1003 "Bob" "avatar" ].

(** The server's copy of the message "hello" that user 1 sent to peer 42
    at time 1000. *)
Definition confirmed42 : ChatMessage :=
  typedMessage 900 1 42 "hello" "text" false 1000 "Alice" "avatar".

(** Three unread messages of peer 7 and one of peer 8. *)
Definition msg8 : ChatMessage :=
  typedMessage 600 8 1 "yo" "text" false 1100 "Carol" "avatar".

Definition conv8 : ChatConversation :=
  {| c_id := VNum 80;
     otherUserId := VNum 8;
     otherUserName := VStr "Carol";
     otherUserAvatar := VStr EmptyString;
     lastMessage := VStr "yo";
     lastMessageTime := Some (Some 1100);
     unreadCount := 1;
     c_createdAt := Some 10 |}.

Definition busyStore : Chat.ChatManager :=
  {| Chat.currentUserId := 1;
     Chat.messageCache := [(VNum 7, batch7); (VNum 8, [msg8])];
     Chat.conversationCache := [conv8; Chat.setUnreadCount 3 conv7] |}.

(** A listener that returns from every callback, and one that throws. *)
Definition quietListener {C} : C -> option error := fun _ => None.

Definition throwingListener {C} : C -> option error :=
  fun _ => Some (ExternalError "listener").

(** A manager with one listener of each kind registered. *)
Definition listening : Ws.WebSocketManager :=
  {| Ws.webSocket := None;
     Ws.url := "ws://server:3001";
     Ws.status := Ws.DISCONNECTED;
     Ws.connectionListeners := [quietListener];
     Ws.messageListeners := [quietListener];
     Ws.reconnectTimer := None;
     Ws.reconnectAttempts := 0;
     Ws.maxReconnectAttempts := 5;
     Ws.reconnectDelay := 3000 |}.

(** The same after the socket has opened. *)
Definition connected : Ws.WebSocketManager :=
  Ws.set_status Ws.CONNECTED (Ws.set_webSocket (Some tt) listening).

(** The same after five failures in a row, a sixth attempt under way. *)
Definition exhausted : Ws.WebSocketManager :=
  Ws.set_status Ws.CONNECTING
    (Ws.set_reconnectTimer (Some 15000)
       (Ws.set_reconnectAttempts 5 (Ws.set_webSocket (Some tt) listening))).

Definition dq : string := String "034"%char EmptyString.

(** The text of an envelope whose event is [receive_private_message] and
    whose data is the empty object. *)
Definition frameWithoutFields : string :=
  String.concat dq
    ["{"; "event"; ":"; "receive_private_message"; ","; "data"; ":{}}"].

(** A [JSON.parse] that knows [frameWithoutFields] and rejects the rest. *)
Definition parseOne (text : string) : completion value :=
  if String.eqb text frameWithoutFields then
    Return (VObj [("event", VStr "receive_private_message");
                  ("data", VObj [])])
  else Throw SyntaxError.

(** The two messages user 1 sends to peer 42. *)
Definition request1 : SendMessageRequest :=
  new_SendMessageRequest (VNum 1) (VNum 42) (VStr "first").

Definition request2 : SendMessageRequest :=
  new_SendMessageRequest (VNum 1) (VNum 42) (VStr "second").

End Sample.


(* ================================================================= *)
(** ** common/model/ChatMessage.ets: the other codecs *)

Module Wire.

(** [json.k] for a [json] that is neither [null] nor [undefined]. *)
Definition fieldOf (json : value) (k : string) : value :=
  match json with
  | VObj fields => lookup_field k fields
  | _ => VUndefined
  end.

Record ChatUser : Type := mkChatUser {
  u_id : value;
  u_name : value;
  u_email : value;
  u_avatar : value
}.

Definition ChatUser_toJson (u : ChatUser) : value :=
  VObj [ ("id", u_id u);
         ("name", u_name u);
         ("email", u_email u);
         ("avatar", u_avatar u) ].

Definition ChatUser_fromJson (json : value) : completion ChatUser :=
  j_id <- get_prop json "id" ;;
  j_name <- get_prop json "name" ;;
  j_email <- get_prop json "email" ;;
  j_avatar <- get_prop json "avatar" ;;
  Return
    {| u_id := j_id ||| VNum 0;
       u_name := j_name ||| VStr EmptyString;
       u_email := j_email ||| VStr EmptyString;
       u_avatar := j_avatar ||| VStr EmptyString |}.

(** A user whose fields hold what their declared types say; an optional
    field left out is [None]. *)
Definition typedUser (i : Z) (name : string) (email avatar : option string)
  : ChatUser :=
  {| u_id := VNum i;
     u_name := VStr name;
     u_email := match email with Some e => VStr e | None => VUndefined end;
     u_avatar := match avatar with Some a => VStr a | None => VUndefined end |}.

(** [ChatConversation.toJson]: [this.lastMessageTime.getTime()] throws
    when the optional [lastMessageTime] is not set. *)
Definition ChatConversation_toJson (c : ChatConversation)
  : completion value :=
  match lastMessageTime c with
  | None => Throw (TypeError "cannot read properties of undefined")
  | Some t =>
      Return
        (VObj [ ("id", c_id c);
                ("otherUserId", otherUserId c);
                ("otherUserName", otherUserName c);
                ("otherUserAvatar", otherUserAvatar c);
                ("lastMessage", lastMessage c);
                ("lastMessageTime", getTime t);
                ("unreadCount", VNum (unreadCount c));
                ("createdAt", getTime (c_createdAt c)) ])
  end.

(** A conversation as [fromJson] leaves it: [unreadCount] holds whatever
    the JSON held. *)
Record DecodedConversation : Type := mkDecodedConversation {
  d_id : value;
  d_otherUserId : value;
  d_otherUserName : value;
  d_otherUserAvatar : value;
  d_lastMessage : value;
  d_lastMessageTime : Date;
  d_unreadCount : value;
  d_createdAt : Date
}.

Section Decode.
Variable Date_convert : value -> Date.
Variable now : Z.

Definition ChatConversation_fromJson (json : value)
  : completion DecodedConversation :=
  j_id <- get_prop json "id" ;;
  j_otherUserId <- get_prop json "otherUserId" ;;
  j_otherUserName <- get_prop json "otherUserName" ;;
  j_otherUserAvatar <- get_prop json "otherUserAvatar" ;;
  j_lastMessage <- get_prop json "lastMessage" ;;
  j_lastMessageTime <- get_prop json "lastMessageTime" ;;
  j_unreadCount <- get_prop json "unreadCount" ;;
  j_createdAt <- get_prop json "createdAt" ;;
  Return
    {| d_id := j_id ||| VNum 0;
       d_otherUserId := j_otherUserId ||| VNum 0;
       d_otherUserName := j_otherUserName ||| VStr EmptyString;
       d_otherUserAvatar := j_otherUserAvatar ||| VStr EmptyString;
       d_lastMessage := j_lastMessage ||| VStr EmptyString;
       d_lastMessageTime :=
         new_Date Date_convert (j_lastMessageTime ||| VNum now);
       d_unreadCount := j_unreadCount ||| VNum 0;
       d_createdAt := new_Date Date_convert (j_createdAt ||| VNum now) |}.

End Decode.

(** The decoded conversation as a [ChatConversation], when its count is a
    number. *)
Definition asConversation (d : DecodedConversation)
  : option ChatConversation :=
  match d_unreadCount d with
  | VNum n =>
      Some {| c_id := d_id d;
              otherUserId := d_otherUserId d;
              otherUserName := d_otherUserName d;
              otherUserAvatar := d_otherUserAvatar d;
              lastMessage := d_lastMessage d;
              lastMessageTime := Some (d_lastMessageTime d);
              unreadCount := n;
              c_createdAt := d_createdAt d |}
  | _ => None
  end.

(** A conversation whose fields hold what their declared types say, every
    optional field set. *)
Definition typedConversation (i other : Z) (name avatar last : string)
    (lastTime unread created : Z) : ChatConversation :=
  {| c_id := VNum i;
     otherUserId := VNum other;
     otherUserName := VStr name;
     otherUserAvatar := VStr avatar;
     lastMessage := VStr last;
     lastMessageTime := Some (Some lastTime);
     unreadCount := unread;
     c_createdAt := Some created |}.

Definition nullish (v : value) : Prop := v = VNull \/ v = VUndefined.

Definition isObject (v : value) : bool :=
  match v with VObj _ => true | _ => false end.

End Wire.


(* ================================================================= *)
(** ** common/model/ChatManager.ets: loading, fetching and the store as a
    whole *)

Module Store.

(** The sum of the unread counts of the conversations. *)
Definition totalUnread (s : Chat.ChatManager) : Z :=
  fold_right (fun c acc => unreadCount c + acc) 0 (Chat.conversationCache s).

(** [ApiResponse<T>]: [success] and the optional [data]. *)
Record ApiResponse (A : Type) : Type := mkApiResponse {
  success : bool;
  data : option A
}.
Arguments mkApiResponse {A} success data.
Arguments success {A} _.
Arguments data {A} _.

(** Calls into the collaborators made by the functions below, in call
    order, as made when none of them throws. *)
Inductive call : Type :=
| ApiGetOfflineMessages (userId : Z)
| LocalSaveMessages (ms : list ChatMessage)
| ApiMarkOfflineMessagesAsRead (userId : Z) (ids : list value)
| LocalGetMessagesWithUser (otherUserId : value)
| ConsoleError (text : string).

(** The body of the [forEach] of [fetchOfflineMessages]. *)
Definition addAndUpdate (now : Z) (m : ChatMessage) (s : Chat.ChatManager)
  : Chat.ChatManager :=
  Chat.updateConversationWithMessage now m
    (Chat.addMessageToCache (senderId m) m s).

(** [fetchOfflineMessages]; [response] is what
    [apiManager.getOfflineMessages] returns or throws. *)
Definition fetchOfflineMessages (now : Z)
    (response : completion (ApiResponse (list ChatMessage)))
    (s : Chat.ChatManager) : Chat.ChatManager * list call :=
  let me := Chat.currentUserId s in
  match response with
  | Throw _ =>
      (s, [ApiGetOfflineMessages me; ConsoleError "获取离线消息失败:"])
  | Return r =>
      match success r, data r with
      | true, Some (m :: rest) =>
          let ms := m :: rest in
          (fold_left (fun acc x => addAndUpdate now x acc) ms s,
           [ApiGetOfflineMessages me;
            LocalSaveMessages ms;
            ApiMarkOfflineMessagesAsRead me (map id ms)])
      | _, _ => (s, [ApiGetOfflineMessages me])
      end
  end.

(** [getMessages(otherUserId)]; [stored] is what
    [localDataManager.getMessagesWithUser] returns when it is asked. *)
Definition getMessages (otherUserId : value) (stored : list ChatMessage)
    (s : Chat.ChatManager)
  : Chat.ChatManager * list call * list ChatMessage :=
  match Chat.messagesOf otherUserId s with
  | [] =>
      ({| Chat.currentUserId := Chat.currentUserId s;
          Chat.messageCache :=
            Chat.map_set otherUserId stored (Chat.messageCache s);
          Chat.conversationCache := Chat.conversationCache s |},
       [LocalGetMessagesWithUser otherUserId],
       stored)
  | messages => (s, [], messages)
  end.

(** [disconnect()]: the caches are kept. *)
Definition disconnect (s : Chat.ChatManager) : Chat.ChatManager :=
  {| Chat.currentUserId := -1;
     Chat.messageCache := Chat.messageCache s;
     Chat.conversationCache := Chat.conversationCache s |}.

(** The operations that write the caches. *)
Inductive op : Type :=
| Ingest (now : Z) (m : ChatMessage)
| IngestBatch (now : Z) (ms : list ChatMessage)
| FetchOffline (now : Z) (response : completion (ApiResponse (list ChatMessage)))
| Send (now : Z) (receiver : Z) (text : string)
| MarkAsRead (sender : Z)
| ReadReceipt (readerId : value)
| Disconnect.

Definition apply (o : op) (s : Chat.ChatManager) : Chat.ChatManager :=
  match o with
  | Ingest now m => fst (Chat.handleNewMessage now m s)
  | IngestBatch now ms => fst (Chat.handleOfflineMessages now ms s)
  | FetchOffline now response => fst (fetchOfflineMessages now response s)
  | Send now receiver text => fst (fst (Chat.sendMessage now receiver text s))
  | MarkAsRead sender => fst (Chat.markAsRead sender s)
  | ReadReceipt readerId => fst (Chat.handleMessageRead readerId s)
  | Disconnect => disconnect s
  end.

Definition applyAll (ops : list op) (s : Chat.ChatManager)
  : Chat.ChatManager :=
  fold_left (fun acc o => apply o acc) ops s.

(** The message cache is indexed by sender: every list holds messages of
    its key only, and a key that can be looked up occurs once. *)
Fixpoint indexed (c : Chat.JsMap (list ChatMessage)) : Prop :=
  match c with
  | [] => True
  | (k, l) :: rest =>
      Forall (fun m => senderId m = k) l /\
      Chat.map_get k rest = None /\
      indexed rest
  end.

(** Whether the message is one of the user's own, as the store sees it. *)
Definition isOwn (me : Z) (m : ChatMessage) : bool :=
  senderId m === VNum me.

(** The other participant of a message, as [updateConversationWithMessage]
    computes it. *)
Definition peerOf (me : Z) (m : ChatMessage) : value :=
  if senderId m === VNum me then receiverId m else senderId m.

(** The conversation [updateConversationWithMessage] creates when it
    finds none. *)
Definition created (now me : Z) (m : ChatMessage) : ChatConversation :=
  Chat.touch me m
    (new_ChatConversation2 now (peerOf me m)
       (senderName m ||| Chat.unknownUser)).

End Store.


(* ================================================================= *)
(** ** common/api/WebSocketManager.ets: the remaining methods, and runs of
    events *)

Module Socket.

Local Open Scope ws_scope.
Import Ws.

Definition set_connectionListeners (v : list connection_listener)
    (s : WebSocketManager) : WebSocketManager :=
  {| webSocket := webSocket s; url := url s; status := status s;
     connectionListeners := v;
     messageListeners := messageListeners s;
     reconnectTimer := reconnectTimer s;
     reconnectAttempts := reconnectAttempts s;
     maxReconnectAttempts := maxReconnectAttempts s;
     reconnectDelay := reconnectDelay s |}.

Definition set_messageListeners (v : list message_listener)
    (s : WebSocketManager) : WebSocketManager :=
  {| webSocket := webSocket s; url := url s; status := status s;
     connectionListeners := connectionListeners s;
     messageListeners := v;
     reconnectTimer := reconnectTimer s;
     reconnectAttempts := reconnectAttempts s;
     maxReconnectAttempts := maxReconnectAttempts s;
     reconnectDelay := reconnectDelay s |}.

Definition addConnectionListener (l : connection_listener) : M unit :=
  write (fun s => set_connectionListeners (connectionListeners s ++ [l]) s).

Definition addMessageListener (l : message_listener) : M unit :=
  write (fun s => set_messageListeners (messageListeners s ++ [l]) s).

Definition getStatus (s : WebSocketManager) : WebSocketStatus := status s.

Definition isConnected (s : WebSocketManager) : bool :=
  status_eqb (status s) CONNECTED.

Definition register (userId : Z) (sendFails : option error) : M unit :=
  emit "register" (VNum userId) sendFails.

Definition getOnlineStatus (userIds : list Z) (sendFails : option error)
  : M unit :=
  emit "get_online_status" (VArr (map VNum userIds)) sendFails.

Definition destroy : M unit :=
  disconnect ;;
  write (set_connectionListeners []) ;;
  write (set_messageListeners []).

(** *** Listener objects

    [removeListener] finds the listener with [indexOf], which compares
    object references.  A reference is a number; an object literal
    evaluates to a reference not used before. *)

Definition ref : Type := nat.

Fixpoint indexOf (x : ref) (l : list ref) : option nat :=
  match l with
  | [] => None
  | y :: rest =>
      if Nat.eqb y x then Some 0%nat else option_map S (indexOf x rest)
  end.

(** [addXListener(listener)]. *)
Definition addListener (x : ref) (l : list ref) : list ref := l ++ [x].

(** [removeXListener(listener)]. *)
Definition removeListener (x : ref) (l : list ref) : list ref :=
  match indexOf x l with
  | Some index => Chat.splice1 index l
  | None => l
  end.

(** The two listener arrays of the socket manager, and the next unused
    reference. *)
Record registry : Type := mkRegistry {
  messageRefs : list ref;
  connectionRefs : list ref;
  next : ref
}.

(** [ChatManager.setupWebSocketListeners]: two object literals are
    registered. *)
Definition setupWebSocketListeners (r : registry) : registry :=
  {| messageRefs := addListener (next r) (messageRefs r);
     connectionRefs := addListener (S (next r)) (connectionRefs r);
     next := S (S (next r)) |}.

(** [ChatManager.removeWebSocketListeners]: each removal is given the
    object literal [{}]. *)
Definition removeWebSocketListeners (r : registry) : registry :=
  {| messageRefs := removeListener (next r) (messageRefs r);
     connectionRefs := removeListener (S (next r)) (connectionRefs r);
     next := S (S (next r)) |}.

(** Every registered reference has been handed out. *)
Definition allocated (r : registry) : Prop :=
  Forall (fun x => (x < next r)%nat) (messageRefs r) /\
  Forall (fun x => (x < next r)%nat) (connectionRefs r).

(** [connect] and [disconnect] of [ChatManager], as far as the listeners
    of the socket manager go. *)
Fixpoint sessions (n : nat) (r : registry) : registry :=
  match n with
  | O => r
  | S k => sessions k (removeWebSocketListeners (setupWebSocketListeners r))
  end.

(** *** Runs of events *)

Section Events.
Variable JSON_parse : string -> completion value.
Variable Date_convert : value -> Date.

(** What happens to the manager: events of the socket and of the timer,
    and calls of its methods. *)
Inductive event : Type :=
| EvOpen
| EvClose
| EvError (message : value)
| EvMessage (now : Z) (data : string)
| EvTimer (o : connect_outcome)
| EvConnectRejected (message : value)
| CallConnect (target : string) (o : connect_outcome)
| CallDisconnect
| CallDestroy
| CallEmit (name : string) (data : value) (sendFails : option error).

Definition handlerOf (ev : event) : M unit :=
  match ev with
  | EvOpen => on_open
  | EvClose => on_close
  | EvError message => on_error message
  | EvMessage now data => handleMessage JSON_parse Date_convert now data
  | EvTimer o => on_timer o
  | EvConnectRejected message => connect_catch message
  | CallConnect target o => connect target o
  | CallDisconnect => disconnect
  | CallDestroy => destroy
  | CallEmit name data sendFails => emit name data sendFails
  end.

Definition isOpen (ev : event) : bool :=
  match ev with EvOpen => true | _ => false end.

Definition runEvents (evs : list event) (s : WebSocketManager)
  : WebSocketManager * list effect :=
  run (map handlerOf evs) s.

End Events.

(** The number of timers armed in a trace. *)
Definition timersArmed (t : list effect) : Z :=
  Z.of_nat (List.length (filter isSetTimeout t)).

(** A statement that never changes the settings and raises the counter by
    one for every timer it arms, and never above the maximum. *)
Definition counts {A} (c : M A) : Prop :=
  forall s,
    maxReconnectAttempts (stateOf (c s)) = maxReconnectAttempts s /\
    reconnectDelay (stateOf (c s)) = reconnectDelay s /\
    reconnectAttempts (stateOf (c s)) =
      reconnectAttempts s + timersArmed (traceOf (c s)) /\
    (reconnectAttempts s <= maxReconnectAttempts s ->
     reconnectAttempts (stateOf (c s)) <= maxReconnectAttempts s).


(** A frame with the outcome of its send. *)
Definition emitFrame (f : string * value * option error) : M unit :=
  emit (fst (fst f)) (snd (fst f)) (snd f).

Definition accepted (f : string * value * option error) : bool :=
  match snd f with None => true | Some _ => false end.

Definition isSocketCreate (e : effect) : bool :=
  match e with SocketCreate => true | _ => false end.

Definition isSocketOrTimer (e : effect) : bool :=
  match e with
  | SocketCreate | SocketConnect _ | SocketClose | SocketSend _ _
  | SetTimeout _ | ClearTimeout _ => true
  | _ => false
  end.

End Socket.

(* ================================================================= *)
(** * Version comparison ([UpdateManager.ets]) *)

Module Update.

(** [s.split(sep)] for a one-character separator: the empty string gives
    one empty part. *)
Fixpoint split_on (sep : ascii) (s : string) : list string :=
  match s with
  | EmptyString => [EmptyString]
  | String c rest =>
      if Ascii.eqb c sep then EmptyString :: split_on sep rest
      else
        match split_on sep rest with
        | part :: parts => String c part :: parts
        | [] => [String c EmptyString]
        end
  end.

Section Versions.

(** The numbers of the platform: what [Number] makes of a part, which
    numbers are truthy (all but zero and NaN), and the two comparisons. *)
Variable number : Type.
Variable Number : string -> number.
Variable zero : number.
Variable isTruthy : number -> bool.
Variable gt lt : number -> number -> bool.

(** [parts[i] || 0]; an index past the end reads [undefined]. *)
Definition partOr0 (parts : list number) (i : nat) : number :=
  match nth_error parts i with
  | Some v => if isTruthy v then v else zero
  | None => zero
  end.

(** The loop of [compareVersions] at index [i], with [turns] turns left. *)
Fixpoint compareFrom (turns i : nat) (v1Parts v2Parts : list number) : Z :=
  match turns with
  | O => 0
  | S turns' =>
      let v1 := partOr0 v1Parts i in
      let v2 := partOr0 v2Parts i in
      if gt v1 v2 then 1
      else if lt v1 v2 then -1
      else compareFrom turns' (S i) v1Parts v2Parts
  end.

Definition compareVersions (version1 version2 : string) : Z :=
  let v1Parts := map Number (split_on "." version1) in
  let v2Parts := map Number (split_on "." version2) in
  compareFrom (Nat.max (List.length v1Parts) (List.length v2Parts)) 0
    v1Parts v2Parts.

(** [isForceUpdateRequired(newVersion)], [currentVersion] being the field
    of the manager. *)
Definition isForceUpdateRequired (currentVersion newVersion : string)
  : bool :=
  let comparison := compareVersions currentVersion newVersion in
  comparison <? -1.

End Versions.

(** A number model to run the comparison on examples: a part that is a
    run of decimal digits is read as a whole number, the empty part as
    zero; the examples use no other part. *)
Definition digitOf (c : ascii) : option Z :=
  let n := Z.of_nat (nat_of_ascii c) in
  if (48 <=? n) && (n <=? 57) then Some (n - 48) else None.

Fixpoint digitsFrom (acc : Z) (s : string) : option Z :=
  match s with
  | EmptyString => Some acc
  | String c rest =>
      match digitOf c with
      | Some d => digitsFrom (10 * acc + d) rest
      | None => None
      end
  end.

Definition decimal (s : string) : option Z := digitsFrom 0 s.

Definition decimalTruthy (v : option Z) : bool :=
  match v with Some n => negb (n =? 0) | None => false end.

Definition decimalGt (a b : option Z) : bool :=
  match a, b with Some x, Some y => y <? x | _, _ => false end.

Definition decimalLt (a b : option Z) : bool :=
  match a, b with Some x, Some y => x <? y | _, _ => false end.

Definition compareDecimal : string -> string -> Z :=
  compareVersions (option Z) decimal (Some 0) decimalTruthy
    decimalGt decimalLt.

End Update.

(* ================================================================= *)
(** * The timers that are pending *)

Module Timers.

(** [clearTimeout(t)]: the timer with handle [t], if it is pending, is
    taken out; any other handle (a timer that has fired already) changes
    nothing. *)
Fixpoint cancel (t : Ws.timer) (pending : list Ws.timer) : list Ws.timer :=
  match pending with
  | [] => []
  | d :: rest => if d =? t then rest else d :: cancel t rest
  end.

(** The pending timers after an effect of the manager, and after a
    trace. *)
Definition afterEffect (pending : list Ws.timer) (e : Ws.effect)
  : list Ws.timer :=
  match e with
  | Ws.SetTimeout d => pending ++ [d]
  | Ws.ClearTimeout t => cancel t pending
  | _ => pending
  end.

Definition afterTrace (t : list Ws.effect) (pending : list Ws.timer)
  : list Ws.timer :=
  fold_left afterEffect t pending.

(** What happens to the manager while the socket does not open: a
    pending timer fires, and its callback starts a connection attempt,
    or the connection fails (a close, an error, an attempt that
    threw). *)
Inductive event : Type :=
| TimerFires (d : Ws.timer)
| Fails (f : Ws.failure).

Definition isFailure (ev : event) : bool :=
  match ev with Fails _ => true | TimerFires _ => false end.

Definition failures (evs : list event) : nat :=
  List.length (filter isFailure evs).

(** The manager and the pending timers after a run of events; [None]
    when a timer is said to fire that is not pending. *)
Fixpoint play (evs : list event) (s : Ws.WebSocketManager)
    (pending : list Ws.timer)
  : option (Ws.WebSocketManager * list Ws.timer) :=
  match evs with
  | [] => Some (s, pending)
  | TimerFires d :: rest =>
      if existsb (Z.eqb d) pending then
        let r := Ws.on_timer Ws.Pending s in
        play rest (Ws.stateOf r)
          (afterTrace (Ws.traceOf r) (cancel d pending))
      else None
  | Fails f :: rest =>
      let r := Ws.fail f s in
      play rest (Ws.stateOf r) (afterTrace (Ws.traceOf r) pending)
  end.

(** At most one timer is pending, and it is the one whose handle the
    manager holds. *)
Definition tracked (s : Ws.WebSocketManager) (pending : list Ws.timer)
  : Prop :=
  pending = [] \/
  exists d, pending = [d] /\ Ws.reconnectTimer s = Some d.

Definition isTimerEffect (e : Ws.effect) : bool :=
  match e with
  | Ws.SetTimeout _ | Ws.ClearTimeout _ => true
  | _ => false
  end.

(** A connection listener that throws from [onDisconnected] and returns
    from its other callbacks. *)
Definition throwsOnDisconnected : Ws.connection_listener :=
  fun c =>
    match c with
    | Ws.OnDisconnected => Some (ExternalError "listener")
    | _ => None
    end.

(** The connected manager of the samples with that listener as its only
    connection listener. *)
Definition fragile : Ws.WebSocketManager :=
  {| Ws.webSocket := Some tt;
     Ws.url := "ws://server:3001";
     Ws.status := Ws.CONNECTED;
     Ws.connectionListeners := [throwsOnDisconnected];
     Ws.messageListeners := [];
     Ws.reconnectTimer := None;
     Ws.reconnectAttempts := 0;
     Ws.maxReconnectAttempts := 5;
     Ws.reconnectDelay := 3000 |}.

End Timers.


(* ================================================================= *)
(** * Properties *)

Local Open Scope js_scope.

(** ** The wire codec of [ChatMessage] *)

Section Codec.

Variable Date_convert : value -> Date.
Variable now : Z.

Lemma or_else_num_zero (n : Z) : VNum n ||| VNum 0 = VNum n.
Proof.
  unfold or_else; simpl.
  destruct (Z.eqb_spec n 0) as [-> | _]; reflexivity.
Qed.

Lemma or_else_str_empty (s : string) :
  VStr s ||| VStr EmptyString = VStr s.
Proof.
  unfold or_else; simpl.
  destruct (String.eqb_spec s EmptyString) as [-> | _]; reflexivity.
Qed.



Lemma or_else_undefined (d : value) : VUndefined ||| d = d.
Proof. reflexivity. Qed.


Lemma fromJson_toJson_fields (m : ChatMessage) :
  ChatMessage_fromJson Date_convert now (ChatMessage_toJson m) =
  Return
    {| id := id m ||| VNum 0;
       senderId := senderId m ||| VNum 0;
       receiverId := receiverId m ||| VNum 0;
       message := message m ||| VStr EmptyString;
       messageType := messageType m ||| VStr "text";
       isRead := isRead m ||| VBool false;
       createdAt := new_Date Date_convert (getTime (createdAt m) ||| VNum now);
       senderName := senderName m ||| VStr EmptyString;
       senderAvatar := senderAvatar m ||| VStr EmptyString |}.
Proof. reflexivity. Qed.


End Codec.




(** ** The caches of [ChatManager] *)

Lemma strict_eq_true (a b : value) : a === b = true -> a = b.
Proof.
  destruct a, b; simpl; try discriminate; intros H; try reflexivity.
  - apply Bool.eqb_prop in H. now subst.
  - apply Z.eqb_eq in H. now subst.
  - apply String.eqb_eq in H. now subst.
Qed.

Lemma same_value_zero_true (a b : value) :
  same_value_zero a b = true -> a = b.
Proof.
  destruct a, b; simpl; try discriminate; intros H; try reflexivity;
    apply strict_eq_true; exact H.
Qed.

Lemma same_value_zero_num (p : Z) : same_value_zero (VNum p) (VNum p) = true.
Proof. simpl. apply Z.eqb_refl. Qed.

Lemma strict_eq_num (p q : Z) : VNum p === VNum q = (p =? q).
Proof. reflexivity. Qed.

Section MapLemmas.

Context {V : Type}.
Implicit Types (m : Chat.JsMap V) (k : value) (v : V).

Lemma map_get_set_same k v m :
  same_value_zero k k = true -> Chat.map_get k (Chat.map_set k v m) = Some v.
Proof.
  intros Hk. induction m as [| [k0 v0] rest IH]; simpl.
  - now rewrite Hk.
  - destruct (same_value_zero k0 k) eqn:E; simpl; rewrite E; [reflexivity | exact IH].
Qed.

Lemma map_get_set_other k k' v m :
  same_value_zero k k' = false ->
  Chat.map_get k' (Chat.map_set k v m) = Chat.map_get k' m.
Proof.
  intros Hk. induction m as [| [k0 v0] rest IH]; simpl.
  - now rewrite Hk.
  - destruct (same_value_zero k0 k) eqn:E; simpl.
    + apply same_value_zero_true in E. subst k0. now rewrite Hk.
    + destruct (same_value_zero k0 k'); [reflexivity | exact IH].
Qed.

End MapLemmas.

Lemma messagesOf_addMessageToCache_same (k : value) (m : ChatMessage)
    (s : Chat.ChatManager) :
  same_value_zero k k = true ->
  Chat.messagesOf k (Chat.addMessageToCache k m s) = Chat.messagesOf k s ++ [m].
Proof.
  intros Hk. unfold Chat.messagesOf at 1, Chat.addMessageToCache; simpl.
  now rewrite map_get_set_same.
Qed.

Lemma messagesOf_addMessageToCache_other (k k' : value) (m : ChatMessage)
    (s : Chat.ChatManager) :
  same_value_zero k k' = false ->
  Chat.messagesOf k' (Chat.addMessageToCache k m s) = Chat.messagesOf k' s.
Proof.
  intros Hk. unfold Chat.messagesOf, Chat.addMessageToCache; simpl.
  now rewrite map_get_set_other.
Qed.

Lemma flat_map_map_set (k : value) (l : list ChatMessage)
    (c : Chat.JsMap (list ChatMessage)) :
  List.length (flat_map snd (Chat.map_set k l c)) =
  (List.length (flat_map snd c) + List.length l
   - List.length (match Chat.map_get k c with Some o => o | None => [] end))%nat.
Proof.
  induction c as [| [k0 v0] rest IH]; simpl.
  - rewrite app_nil_r. lia.
  - destruct (same_value_zero k0 k); simpl; rewrite !length_app.
    + lia.
    + rewrite IH.
      assert (List.length (match Chat.map_get k rest with
                           | Some o => o | None => [] end)
              <= List.length (flat_map snd rest))%nat.
      { clear. induction rest as [| [k1 v1] r IHr]; simpl; [lia |].
        rewrite length_app.
        destruct (same_value_zero k1 k); lia. }
      lia.
Qed.

Lemma allMessages_addMessageToCache_length (k : value) (m : ChatMessage)
    (s : Chat.ChatManager) :
  List.length (Chat.allMessages (Chat.addMessageToCache k m s)) =
  S (List.length (Chat.allMessages s)).
Proof.
  unfold Chat.allMessages, Chat.addMessageToCache, Chat.messagesOf; simpl.
  rewrite flat_map_map_set, length_app; simpl.
  assert (List.length (match Chat.map_get k (Chat.messageCache s) with
                       | Some o => o | None => [] end)
          <= List.length (flat_map snd (Chat.messageCache s)))%nat.
  { generalize (Chat.messageCache s) as c.
    induction c as [| [k1 v1] r IHr]; simpl; [lia |].
    rewrite length_app. destruct (same_value_zero k1 k); lia. }
  lia.
Qed.

Lemma allMessages_addMessageToCache_In (k : value) (m : ChatMessage)
    (s : Chat.ChatManager) :
  In m (Chat.allMessages (Chat.addMessageToCache k m s)).
Proof.
  unfold Chat.allMessages, Chat.addMessageToCache; simpl.
  generalize (Chat.messagesOf k s) as old.
  generalize (Chat.messageCache s) as c.
  induction c as [| [k0 v0] rest IH]; intros old; simpl.
  - rewrite app_nil_r. apply in_or_app. right. now left.
  - destruct (same_value_zero k0 k); simpl; apply in_or_app.
    + left. apply in_or_app. right. now left.
    + right. apply IH.
Qed.

Lemma allMessages_addMessageToCache_keeps (k : value) (m x : ChatMessage)
    (s : Chat.ChatManager) :
  In x (Chat.allMessages s) ->
  In x (Chat.allMessages (Chat.addMessageToCache k m s)).
Proof.
  unfold Chat.allMessages, Chat.addMessageToCache, Chat.messagesOf; simpl.
  generalize (Chat.messageCache s) as c.
  induction c as [| [k0 v0] rest IH]; simpl; [contradiction |].
  intros Hx. apply in_app_or in Hx.
  destruct (same_value_zero k0 k) eqn:E; simpl; apply in_or_app.
  - destruct Hx as [Hx | Hx]; [left | right; exact Hx].
    apply in_or_app. now left.
  - destruct Hx as [Hx | Hx]; [left; exact Hx | right; now apply IH].
Qed.

Lemma find_findIndex {A} (p : A -> bool) (l : list A) (x : A) :
  find p l = Some x -> exists i, Chat.findIndex p l = Some i.
Proof.
  induction l as [| y rest IH]; simpl; [discriminate |].
  destruct (p y); [intros _; now exists 0%nat |].
  intros H. destruct (IH H) as [i Hi]. exists (S i). now rewrite Hi.
Qed.

Lemma fst_handleOfflineMessages_cons (now : Z) (m : ChatMessage)
    (ms : list ChatMessage) (s : Chat.ChatManager) :
  fst (Chat.handleOfflineMessages now (m :: ms) s) =
  fst (Chat.handleOfflineMessages now ms (fst (Chat.handleNewMessage now m s))).
Proof.
  simpl. destruct (Chat.handleOfflineMessages now ms _) as [s2 e2].
  reflexivity.
Qed.

Lemma conversationOf_update_found (now : Z) (m : ChatMessage)
    (s : Chat.ChatManager) (p : Z) (c : ChatConversation) :
  senderId m = VNum p ->
  p <> Chat.currentUserId s ->
  Chat.conversationOf (VNum p) s = Some c ->
  Chat.conversationOf (VNum p) (Chat.updateConversationWithMessage now m s) =
  Some (Chat.touch (Chat.currentUserId s) m c).
Proof.
  intros Hm Hp Hc.
  unfold Chat.conversationOf, Chat.updateConversationWithMessage in *; simpl.
  rewrite Hm, strict_eq_num.
  destruct (Z.eqb_spec p (Chat.currentUserId s)); [contradiction |].
  rewrite Hc.
  destruct (find_findIndex _ _ _ Hc) as [i ->]; simpl.
  apply find_some in Hc. destruct Hc as [_ Hc].
  unfold Chat.isConversationWith in *; simpl. now rewrite Hc.
Qed.

Lemma touch_unread_from_peer (me p : Z) (m : ChatMessage)
    (c : ChatConversation) :
  senderId m = VNum p -> p <> me ->
  unreadCount (Chat.touch me m c) = unreadCount c + 1.
Proof.
  intros Hm Hp. unfold Chat.touch; simpl. rewrite Hm, strict_eq_num.
  destruct (Z.eqb_spec p me); [contradiction | reflexivity].
Qed.

(** One ingest of a message of peer [p]: one more row, one more unread. *)
Lemma handleNewMessage_from_peer (now : Z) (m : ChatMessage)
    (s : Chat.ChatManager) (p : Z) (c : ChatConversation) :
  senderId m = VNum p ->
  p <> Chat.currentUserId s ->
  Chat.conversationOf (VNum p) s = Some c ->
  let s1 := fst (Chat.handleNewMessage now m s) in
  Chat.currentUserId s1 = Chat.currentUserId s /\
  Chat.messagesOf (VNum p) s1 = Chat.messagesOf (VNum p) s ++ [m] /\
  exists c1, Chat.conversationOf (VNum p) s1 = Some c1 /\
             unreadCount c1 = unreadCount c + 1.
Proof.
  intros Hm Hp Hc s1. subst s1. unfold Chat.handleNewMessage; simpl.
  split; [reflexivity |]. split.
  - rewrite Hm.
    change (Chat.messagesOf (VNum p)
              (Chat.updateConversationWithMessage now m
                 (Chat.addMessageToCache (VNum p) m s)))
      with (Chat.messagesOf (VNum p) (Chat.addMessageToCache (VNum p) m s)).
    apply messagesOf_addMessageToCache_same, same_value_zero_num.
  - eexists. split.
    + apply conversationOf_update_found; [exact Hm | exact Hp | exact Hc].
    + simpl. now apply touch_unread_from_peer with (p := p).
Qed.

(** A batch of messages of peer [p]: as many rows and unread more as the
    batch has messages. *)
Lemma handleOfflineMessages_from_peer (now : Z) (p : Z)
    (ms : list ChatMessage) :
  Forall (fun m => senderId m = VNum p) ms ->
  forall (s : Chat.ChatManager) (c : ChatConversation),
  p <> Chat.currentUserId s ->
  Chat.conversationOf (VNum p) s = Some c ->
  let s1 := fst (Chat.handleOfflineMessages now ms s) in
  Chat.currentUserId s1 = Chat.currentUserId s /\
  Chat.messagesOf (VNum p) s1 = Chat.messagesOf (VNum p) s ++ ms /\
  exists c1, Chat.conversationOf (VNum p) s1 = Some c1 /\
             unreadCount c1 = unreadCount c + Z.of_nat (List.length ms).
Proof.
  induction 1 as [| m ms Hm Hms IH]; intros s c Hp Hc.
  - simpl. rewrite app_nil_r. split; [reflexivity |]. split; [reflexivity |].
    exists c. split; [exact Hc | lia].
  - cbv zeta. rewrite fst_handleOfflineMessages_cons.
    destruct (handleNewMessage_from_peer now m s p c Hm Hp Hc)
      as (Hme & Hrows & c1 & Hc1 & Hn1).
    destruct (IH (fst (Chat.handleNewMessage now m s)) c1) as (Hme2 & Hrows2 & c2 & Hc2 & Hn2).
    { now rewrite Hme. }
    { exact Hc1. }
    split; [now rewrite Hme2 |]. split.
    + rewrite Hrows2, Hrows, <- app_assoc. reflexivity.
    + exists c2. split; [exact Hc2 |].
      rewrite Hn2, Hn1. simpl List.length. lia.
Qed.

(** C1, as stated, fails: ingesting the same message of peer 7 a second
    time changes the store again (two rows, [unreadCount] 2 instead of 1),
    and a batch of three messages of peer 7 delivered twice leaves
    [unreadCount] at 6. *)
Lemma ingest_twice_differs :
  let s1 := fst (Chat.handleNewMessage 2000 Sample.msg7 Sample.store7) in
  let s2 := fst (Chat.handleNewMessage 2000 Sample.msg7 s1) in
  let b1 := fst (Chat.handleOfflineMessages 2000 Sample.batch7 Sample.store7) in
  let b2 := fst (Chat.handleOfflineMessages 2000 Sample.batch7 b1) in
  s2 <> s1 /\
  Chat.messagesOf (VNum 7) s1 = [Sample.msg7] /\
  Chat.messagesOf (VNum 7) s2 = [Sample.msg7; Sample.msg7] /\
  option_map unreadCount (Chat.conversationOf (VNum 7) s1) = Some 1 /\
  option_map unreadCount (Chat.conversationOf (VNum 7) s2) = Some 2 /\
  option_map unreadCount (Chat.conversationOf (VNum 7) b1) = Some 3 /\
  option_map unreadCount (Chat.conversationOf (VNum 7) b2) = Some 6.
Proof.
  cbv zeta. split; [| repeat split; reflexivity].
  vm_compute. discriminate.
Qed.

(** C1 (amended): ingesting is not idempotent.  For every store that has a
    conversation with peer [p] (not the local user) and every batch [ms] of
    messages of [p], delivering the batch a second time appends its
    messages to the list of [p] a second time and raises the [unreadCount]
    of the conversation a second time: the list ends with [ms ++ ms] and
    the count is raised by twice the length of [ms].  A single message
    ingested twice is the batch [[m]]. *)
Theorem ingest_twice_duplicates (now1 now2 p : Z) (ms : list ChatMessage)
    (s : Chat.ChatManager) (c : ChatConversation) :
  Forall (fun m => senderId m = VNum p) ms ->
  p <> Chat.currentUserId s ->
  Chat.conversationOf (VNum p) s = Some c ->
  let s1 := fst (Chat.handleOfflineMessages now1 ms s) in
  let s2 := fst (Chat.handleOfflineMessages now2 ms s1) in
  Chat.messagesOf (VNum p) s2 = Chat.messagesOf (VNum p) s ++ ms ++ ms /\
  (exists c2, Chat.conversationOf (VNum p) s2 = Some c2 /\
              unreadCount c2 = unreadCount c + 2 * Z.of_nat (List.length ms)) /\
  (forall m, ms = [m] ->
     s2 = fst (Chat.handleNewMessage now2 m
                 (fst (Chat.handleNewMessage now1 m s)))).
Proof.
  intros Hms Hp Hc s1 s2.
  destruct (handleOfflineMessages_from_peer now1 p ms Hms s c Hp Hc)
    as (Hme1 & Hrows1 & c1 & Hc1 & Hn1).
  fold s1 in Hme1, Hrows1, Hc1.
  destruct (handleOfflineMessages_from_peer now2 p ms Hms s1 c1)
    as (Hme2 & Hrows2 & c2 & Hc2 & Hn2).
  { now rewrite Hme1. }
  { exact Hc1. }
  fold s2 in Hme2, Hrows2, Hc2.
  split; [| split].
  - rewrite Hrows2, Hrows1, <- app_assoc. reflexivity.
  - exists c2. split; [exact Hc2 | lia].
  - intros m ->. subst s2 s1.
    rewrite !fst_handleOfflineMessages_cons. reflexivity.
Qed.

Lemma ingest_twice_duplicates_witness :
  let s1 := fst (Chat.handleOfflineMessages 2000 Sample.batch7 Sample.store7) in
  let s2 := fst (Chat.handleOfflineMessages 3000 Sample.batch7 s1) in
  Chat.messagesOf (VNum 7) s2 = Sample.batch7 ++ Sample.batch7 /\
  exists c2, Chat.conversationOf (VNum 7) s2 = Some c2 /\ unreadCount c2 = 6.
Proof.
  cbv zeta.
  destruct (ingest_twice_duplicates 2000 3000 7 Sample.batch7 Sample.store7
              Sample.conv7) as (Hrows & Hcount & _).
  - repeat constructor.
  - simpl. lia.
  - reflexivity.
  - split; [exact Hrows | exact Hcount].
Defined.

(** *** [markAsRead] *)

Lemma find_setFirstUnread (k : value) (n : Z) (l : list ChatConversation) :
  find (Chat.isConversationWith k) (Chat.setFirstUnread k n l) =
  option_map (Chat.setUnreadCount n) (find (Chat.isConversationWith k) l).
Proof.
  induction l as [| c rest IH]; simpl; [reflexivity |].
  destruct (Chat.isConversationWith k c) eqn:E; simpl.
  - unfold Chat.isConversationWith in *; simpl. now rewrite E.
  - now rewrite E.
Qed.

Lemma setFirstUnread_length (k : value) (n : Z) (l : list ChatConversation) :
  List.length (Chat.setFirstUnread k n l) = List.length l.
Proof.
  induction l as [| c rest IH]; simpl; [reflexivity |].
  destruct (Chat.isConversationWith k c); simpl; congruence.
Qed.

Lemma setFirstUnread_nth_other (k : value) (n : Z)
    (l : list ChatConversation) (i : nat) :
  Chat.findIndex (Chat.isConversationWith k) l <> Some i ->
  nth_error (Chat.setFirstUnread k n l) i = nth_error l i.
Proof.
  revert i. induction l as [| c rest IH]; intros i; simpl; [reflexivity |].
  destruct (Chat.isConversationWith k c) eqn:E.
  - destruct i; [congruence | reflexivity].
  - intros Hi. destruct i; [reflexivity |]. simpl. apply IH.
    intros Hrest. apply Hi. now rewrite Hrest.
Qed.

Lemma messagesOf_forEach_same (k : value) (f : ChatMessage -> ChatMessage)
    (s : Chat.ChatManager) :
  same_value_zero k k = true ->
  Chat.messagesOf k (Chat.forEachMessageOf k f s) = map f (Chat.messagesOf k s).
Proof.
  intros Hk. unfold Chat.forEachMessageOf, Chat.messagesOf.
  destruct (Chat.map_get k (Chat.messageCache s)) as [l |] eqn:E; simpl.
  - now rewrite map_get_set_same.
  - now rewrite E.
Qed.

Lemma messagesOf_forEach_other (k k' : value)
    (f : ChatMessage -> ChatMessage) (s : Chat.ChatManager) :
  same_value_zero k k' = false ->
  Chat.messagesOf k' (Chat.forEachMessageOf k f s) = Chat.messagesOf k' s.
Proof.
  intros Hk. unfold Chat.forEachMessageOf, Chat.messagesOf.
  destruct (Chat.map_get k (Chat.messageCache s)) as [l |] eqn:E; simpl.
  - now rewrite map_get_set_other.
  - reflexivity.
Qed.

Lemma conversationCache_forEach (k : value) (f : ChatMessage -> ChatMessage)
    (s : Chat.ChatManager) :
  Chat.conversationCache (Chat.forEachMessageOf k f s) =
  Chat.conversationCache s.
Proof.
  unfold Chat.forEachMessageOf.
  now destruct (Chat.map_get k (Chat.messageCache s)).
Qed.

Lemma currentUserId_forEach (k : value) (f : ChatMessage -> ChatMessage)
    (s : Chat.ChatManager) :
  Chat.currentUserId (Chat.forEachMessageOf k f s) = Chat.currentUserId s.
Proof.
  unfold Chat.forEachMessageOf.
  now destruct (Chat.map_get k (Chat.messageCache s)).
Qed.

Lemma markIfUnreadFrom_read (k : value) (m : ChatMessage) :
  senderId (Chat.markIfUnreadFrom k m) === k = true ->
  truthy (isRead (Chat.markIfUnreadFrom k m)) = true.
Proof.
  unfold Chat.markIfUnreadFrom.
  destruct (senderId m === k) eqn:Es; simpl.
  - destruct (truthy (isRead m)) eqn:Er; simpl; [now rewrite Er | reflexivity].
  - now rewrite Es.
Qed.

Lemma markIfUnreadFrom_other (k : value) (m : ChatMessage) :
  senderId m === k = false -> Chat.markIfUnreadFrom k m = m.
Proof. unfold Chat.markIfUnreadFrom. now intros ->. Qed.

(** What [markAsRead(p)] does in every store: the conversation that a
    search by [otherUserId] finds for [p], if there is one, is the one
    found before with [unreadCount] 0; every message of [p]'s list sent by
    [p] is flagged read; the lists of the other peers, the messages of
    [p]'s list that [p] did not send, and every conversation other than
    the one found for [p] are as before. *)
Theorem markAsRead_frame (p : Z) (s : Chat.ChatManager) :
  let s' := fst (Chat.markAsRead p s) in
  Chat.conversationOf (VNum p) s' =
    option_map (Chat.setUnreadCount 0) (Chat.conversationOf (VNum p) s) /\
  (forall c, Chat.conversationOf (VNum p) s' = Some c -> unreadCount c = 0) /\
  List.length (Chat.messagesOf (VNum p) s') =
    List.length (Chat.messagesOf (VNum p) s) /\
  (forall m, In m (Chat.messagesOf (VNum p) s') ->
             senderId m === VNum p = true -> truthy (isRead m) = true) /\
  (forall i m, nth_error (Chat.messagesOf (VNum p) s) i = Some m ->
               senderId m === VNum p = false ->
               nth_error (Chat.messagesOf (VNum p) s') i = Some m) /\
  (forall k, same_value_zero (VNum p) k = false ->
             Chat.messagesOf k s' = Chat.messagesOf k s) /\
  List.length (Chat.conversationCache s') =
    List.length (Chat.conversationCache s) /\
  (forall i,
     Chat.findIndex (Chat.isConversationWith (VNum p))
       (Chat.conversationCache s) <> Some i ->
     nth_error (Chat.conversationCache s') i =
     nth_error (Chat.conversationCache s) i) /\
  Chat.currentUserId s' = Chat.currentUserId s.
Proof.
  intros s'. subst s'. unfold Chat.markAsRead; simpl.
  set (s1 := Chat.forEachMessageOf (VNum p) (Chat.markIfUnreadFrom (VNum p)) s).
  assert (Hconv : Chat.conversationOf (VNum p)
                    (Chat.updateConversationUnreadCount (VNum p) 0 s1) =
                  option_map (Chat.setUnreadCount 0)
                    (Chat.conversationOf (VNum p) s)).
  { unfold Chat.conversationOf, Chat.updateConversationUnreadCount; simpl.
    rewrite find_setFirstUnread. subst s1.
    now rewrite conversationCache_forEach. }
  assert (Hrows : Chat.messagesOf (VNum p)
                    (Chat.updateConversationUnreadCount (VNum p) 0 s1) =
                  map (Chat.markIfUnreadFrom (VNum p))
                    (Chat.messagesOf (VNum p) s)).
  { change (Chat.messagesOf (VNum p)
              (Chat.updateConversationUnreadCount (VNum p) 0 s1))
      with (Chat.messagesOf (VNum p) s1).
    subst s1. apply messagesOf_forEach_same, same_value_zero_num. }
  repeat split.
  - exact Hconv.
  - intros c Hc. rewrite Hconv in Hc.
    destruct (Chat.conversationOf (VNum p) s); simpl in Hc; [| discriminate].
    injection Hc as <-. reflexivity.
  - rewrite Hrows. apply length_map.
  - intros m Hin Hfrom. rewrite Hrows in Hin. apply in_map_iff in Hin.
    destruct Hin as (m0 & <- & _). now apply markIfUnreadFrom_read.
  - intros i m Hi Hother. rewrite Hrows, nth_error_map, Hi. simpl.
    now rewrite markIfUnreadFrom_other.
  - intros k Hk.
    change (Chat.messagesOf k
              (Chat.updateConversationUnreadCount (VNum p) 0 s1))
      with (Chat.messagesOf k s1).
    subst s1. now apply messagesOf_forEach_other.
  - simpl. rewrite setFirstUnread_length. subst s1.
    now rewrite conversationCache_forEach.
  - intros i Hi. simpl. subst s1. rewrite conversationCache_forEach.
    now apply setFirstUnread_nth_other.
  - simpl. subst s1. apply currentUserId_forEach.
Qed.

Lemma markAsRead_frame_witness :
  let s' := fst (Chat.markAsRead 7 Sample.busyStore) in
  (exists c, Chat.conversationOf (VNum 7) s' = Some c /\ unreadCount c = 0) /\
  Forall (fun m => truthy (isRead m) = true) (Chat.messagesOf (VNum 7) s') /\
  Chat.messagesOf (VNum 8) s' = [Sample.msg8] /\
  nth_error (Chat.conversationCache s') 0 = Some Sample.conv8.
Proof.
  cbv zeta.
  destruct (markAsRead_frame 7 Sample.busyStore)
    as (Hconv & Hzero & _ & Hread & _ & Hother & _ & Hframe & _).
  split; [| split; [| split]].
  - eexists. split; [exact Hconv | reflexivity].
  - apply Forall_forall. intros m Hin. apply Hread; [exact Hin |].
    vm_compute in Hin. decompose [or] Hin; subst; try reflexivity; contradiction.
  - rewrite (Hother (VNum 8)); reflexivity.
  - rewrite (Hframe 0%nat); [reflexivity | vm_compute; discriminate].
Defined.

(** C9 fails on the code.  User 1 has no conversation yet.  A message of
    peer 7 is ingested: the manager opens a conversation for it, with
    [unreadCount] 1, and by the argument order of its constructor call the
    peer's id goes to [id] and the sender's name to [otherUserId].
    [markAsRead(7)] then flags the message read, so no unread message of
    peer 7 is left, but its search by [otherUserId] finds no conversation
    for peer 7: the conversation keeps [unreadCount] 1. *)
Theorem markAsRead_misses_opened_conversation :
  let s0 := Sample.emptyStore in
  let s1 := fst (Chat.handleNewMessage 2000 Sample.msg7 s0) in
  let s2 := fst (Chat.markAsRead 7 s1) in
  let seen := map (fun c => (c_id c, otherUserId c, unreadCount c)) in
  seen (Chat.conversationCache s1) = [(VNum 7, VStr "Bob", 1)] /\
  Chat.unreadFrom (VNum 7) s1 = 1 /\
  seen (Chat.conversationCache s2) = [(VNum 7, VStr "Bob", 1)] /\
  Chat.conversationOf (VNum 7) s2 = None /\
  Chat.unreadFrom (VNum 7) s2 = 0 /\
  Forall (fun m => truthy (isRead m) = true) (Chat.messagesOf (VNum 7) s2).
Proof.
  cbv zeta. split; [| split; [| split; [| split; [| split]]]];
    try reflexivity.
  repeat constructor.
Qed.

(** *** The count of unread messages and read receipts *)

(** [handleMessageRead] leaves every conversation as it is. *)
Lemma handleMessageRead_conversations (readerId : value)
    (s : Chat.ChatManager) :
  Chat.conversationCache (fst (Chat.handleMessageRead readerId s)) =
  Chat.conversationCache s.
Proof. simpl. apply conversationCache_forEach. Qed.

(** C3 fails on the code.  User 1 has a conversation with peer 7 and no
    cached message; the invariant holds.  A message of peer 7 is ingested:
    one unread message, [unreadCount] 1; the invariant holds.  The read
    receipt [message_read {readerId: 7}] then flags the message read and
    leaves [unreadCount] at 1, although no unread message of peer 7 is
    left. *)
Theorem read_receipt_breaks_unread_invariant :
  let s0 := Sample.store7 in
  let s1 := fst (Chat.handleNewMessage 2000 Sample.msg7 s0) in
  let s2 := fst (Chat.handleMessageRead (VNum 7) s1) in
  Chat.invariantAt (VNum 7) s0 /\
  Chat.invariantAt (VNum 7) s1 /\
  Chat.unreadFrom (VNum 7) s2 = 0 /\
  option_map unreadCount (Chat.conversationOf (VNum 7) s2) = Some 1 /\
  ~ Chat.invariantAt (VNum 7) s2.
Proof.
  cbv zeta. split; [| split; [| split; [| split]]].
  - split; [simpl; lia |].
    intros c Hc. vm_compute in Hc. injection Hc as <-. reflexivity.
  - split; [simpl; lia |].
    intros c Hc. vm_compute in Hc. injection Hc as <-. reflexivity.
  - reflexivity.
  - reflexivity.
  - intros [_ H].
    specialize (H _ eq_refl). vm_compute in H. discriminate H.
Qed.

(** The constructor call of [updateConversationWithMessage] passes the
    peer's id as [id] and the sender's name as [otherUserId]: from the
    empty store, two messages of peer 7 leave two conversations, both
    under the name and none under the id. *)
Lemma second_message_opens_second_conversation :
  let s1 := fst (Chat.handleNewMessage 2000 Sample.msg7 Sample.emptyStore) in
  let s2 := fst (Chat.handleNewMessage 2001 Sample.msg7 s1) in
  List.length (Chat.conversationsOf (VStr "Bob") s2) = 2%nat /\
  Chat.conversationOf (VNum 7) s2 = None /\
  map c_id (Chat.conversationCache s2) = [VNum 7; VNum 7].
Proof. cbv zeta. repeat split. Qed.

(** *** Pending and confirmed messages *)

(** C4, as stated, fails: user 1 sends "hello" to peer 42 while the store
    is empty, then the server's copy of that message is ingested; the
    store holds two entries, the pending one in the list of peer 42 and
    the confirmed one in the list of user 1. *)
Lemma pending_and_confirmed_are_two_entries :
  let sent := Chat.sendMessage 1000 42 "hello" Sample.emptyStore in
  let pending := snd sent in
  let s2 := fst (Chat.handleNewMessage 1500 Sample.confirmed42
                   (fst (fst sent))) in
  List.length (Chat.allMessages s2) = 2%nat /\
  Chat.messagesOf (VNum 42) s2 = [pending] /\
  Chat.messagesOf (VNum 1) s2 = [Sample.confirmed42] /\
  pending <> Sample.confirmed42.
Proof. cbv zeta. repeat split. vm_compute. discriminate. Qed.

(** C4 (amended): no reconciliation takes place.  For every store, every
    pending message made by [sendMessage] and every message [c] ingested
    afterwards (its server-confirmed counterpart included), the store ends
    with two entries more than before: the pending entry, unchanged, at
    the end of the list of the receiver, and [c] appended as a further
    entry, at the end of the list kept under its sender (a number, as the
    field is declared). *)
Theorem pending_and_confirmed_both_kept (now1 now2 receiver : Z)
    (text : string) (c : ChatMessage) (s : Chat.ChatManager) :
  let sent := Chat.sendMessage now1 receiver text s in
  let pending := snd sent in
  let s1 := fst (fst sent) in
  let s2 := fst (Chat.handleNewMessage now2 c s1) in
  List.length (Chat.allMessages s2) = (List.length (Chat.allMessages s) + 2)%nat /\
  Chat.messagesOf (VNum receiver) s1 =
    Chat.messagesOf (VNum receiver) s ++ [pending] /\
  In pending (Chat.messagesOf (VNum receiver) s2) /\
  In c (Chat.allMessages s2) /\
  (forall q, senderId c = VNum q ->
     Chat.messagesOf (VNum q) s2 = Chat.messagesOf (VNum q) s1 ++ [c]) /\
  (forall q, senderId c = VNum q -> q <> receiver ->
     Chat.messagesOf (VNum receiver) s2 = Chat.messagesOf (VNum receiver) s1).
Proof.
  cbv zeta. unfold Chat.sendMessage, Chat.handleNewMessage; simpl fst; simpl snd.
  set (pending := {| id := _ |}).
  set (s1 := Chat.addMessageToCache (VNum receiver) pending s).
  change (Chat.allMessages (Chat.updateConversationWithMessage now2 c
            (Chat.addMessageToCache (senderId c) c s1)))
    with (Chat.allMessages (Chat.addMessageToCache (senderId c) c s1)).
  assert (Hsame : forall k,
            Chat.messagesOf k
              (Chat.updateConversationWithMessage now2 c
                 (Chat.addMessageToCache (senderId c) c s1)) =
            Chat.messagesOf k (Chat.addMessageToCache (senderId c) c s1))
    by reflexivity.
  rewrite !Hsame.
  assert (Hlist : Chat.messagesOf (VNum receiver) s1 =
                  Chat.messagesOf (VNum receiver) s ++ [pending]).
  { subst s1. apply messagesOf_addMessageToCache_same, same_value_zero_num. }
  assert (Hpending : In pending (Chat.messagesOf (VNum receiver) s1)).
  { rewrite Hlist. apply in_or_app. right. now left. }
  split; [| split; [| split; [| split; [| split]]]].
  - rewrite !allMessages_addMessageToCache_length. subst s1.
    rewrite allMessages_addMessageToCache_length. lia.
  - exact Hlist.
  - destruct (same_value_zero (senderId c) (VNum receiver)) eqn:E.
    + apply same_value_zero_true in E. rewrite E.
      rewrite messagesOf_addMessageToCache_same by apply same_value_zero_num.
      apply in_or_app. now left.
    + now rewrite messagesOf_addMessageToCache_other.
  - apply allMessages_addMessageToCache_In.
  - intros q Hq. rewrite Hq.
    apply messagesOf_addMessageToCache_same, same_value_zero_num.
  - intros q Hq Hne. rewrite Hq.
    apply messagesOf_addMessageToCache_other.
    simpl. now apply Z.eqb_neq.
Qed.

Lemma pending_and_confirmed_both_kept_witness :
  let sent := Chat.sendMessage 1000 42 "hello" Sample.emptyStore in
  let s2 := fst (Chat.handleNewMessage 1500 Sample.confirmed42
                   (fst (fst sent))) in
  Chat.messagesOf (VNum 1) s2 = [Sample.confirmed42] /\
  Chat.messagesOf (VNum 42) s2 = [snd sent].
Proof.
  cbv zeta.
  destruct (pending_and_confirmed_both_kept 1000 1500 42 "hello"
              Sample.confirmed42 Sample.emptyStore)
    as (_ & Hlist & _ & _ & Hsender & Hreceiver).
  split.
  - rewrite (Hsender 1 eq_refl). reflexivity.
  - rewrite (Hreceiver 1 eq_refl); [exact Hlist | discriminate].
Defined.

(** ** The socket manager *)

Lemma forEachFrom_quiet {C} (call : nat -> C -> Ws.effect) (c : C)
    (ls : list (C -> option error)) :
  (forall l, In l ls -> l c = None) ->
  forall (i : nat) (s : Ws.WebSocketManager),
  Ws.forEachFrom call i ls (Return c) s =
  (Return tt, s, Ws.callsFrom call i ls c).
Proof.
  induction ls as [| l rest IH]; intros Hq i s; simpl; [reflexivity |].
  unfold Ws.bindM, Ws.lift, Ws.out; simpl.
  rewrite (Hq l (or_introl eq_refl)).
  rewrite IH by (intros l' Hl'; apply Hq; now right).
  reflexivity.
Qed.

(** Whatever the listeners do, a [forEach] leaves the manager as it is and
    does nothing but call listeners. *)
Lemma forEachFrom_frame {C} (call : nat -> C -> Ws.effect)
    (args : completion C) (ls : list (C -> option error)) :
  forall (i : nat) (s : Ws.WebSocketManager),
  Ws.stateOf (Ws.forEachFrom call i ls args s) = s /\
  Forall (fun e => exists j c, e = call j c)
    (Ws.traceOf (Ws.forEachFrom call i ls args s)).
Proof.
  induction ls as [| l rest IH]; intros i s; simpl.
  - split; [reflexivity | constructor].
  - unfold Ws.bindM, Ws.lift, Ws.out; simpl.
    destruct args as [c | e]; simpl; [| split; [reflexivity | constructor]].
    destruct (l c) as [e |]; simpl.
    + split; [reflexivity |]. constructor; [now exists i, c | constructor].
    + destruct (IH (S i) s) as [Hs Ht].
      destruct (Ws.forEachFrom call (S i) rest (Return c) s) as [[r s'] t].
      simpl in *. split; [exact Hs |].
      constructor; [now exists i, c | exact Ht].
Qed.

Lemma callsFrom_no_timeout {C} (call : nat -> C -> Ws.effect) (c : C)
    (ls : list (C -> option error)) (i : nat) :
  (forall j x, Ws.isSetTimeout (call j x) = false) ->
  filter Ws.isSetTimeout (Ws.callsFrom call i ls c) = [].
Proof.
  intros Hcall. revert i.
  induction ls as [| l rest IH]; intros i; simpl; [reflexivity |].
  now rewrite Hcall, IH.
Qed.

Section Reconnection.

Variable s : Ws.WebSocketManager.
Hypothesis Hquiet : Ws.quiet (Ws.connectionListeners s).

Lemma fail_exhausted (f : Ws.failure) :
  Ws.maxReconnectAttempts s <= Ws.reconnectAttempts s ->
  Ws.fail f s =
  (Return tt, Ws.set_status (Ws.statusAfter f) s,
   Ws.firstLineOf f
   :: Ws.callsFrom Ws.ConnCall 0 (Ws.connectionListeners s) (Ws.noticeOf f)
   ++ [Ws.ConsoleLog "WebSocket重连次数已达上限，停止重连"]).
Proof.
  intros Hlim.
  destruct f; simpl;
    unfold Ws.on_close, Ws.on_error, Ws.connect_catch,
      Ws.notifyConnectionListeners, Ws.scheduleReconnect,
      Ws.bindM, Ws.read, Ws.write, Ws.out; simpl;
    rewrite forEachFrom_quiet by (intros l Hl; now apply Hquiet); simpl;
    destruct (Z.geb_spec (Ws.reconnectAttempts s) (Ws.maxReconnectAttempts s));
    try lia; simpl; rewrite ?app_nil_r; reflexivity.
Qed.

Lemma fail_schedules (f : Ws.failure) :
  Ws.reconnectAttempts s < Ws.maxReconnectAttempts s ->
  Ws.fail f s =
  (Return tt,
   Ws.set_reconnectTimer (Some (Ws.reconnectDelay s * (Ws.reconnectAttempts s + 1)))
     (Ws.set_reconnectAttempts (Ws.reconnectAttempts s + 1)
        (Ws.set_status (Ws.statusAfter f) s)),
   Ws.firstLineOf f
   :: Ws.callsFrom Ws.ConnCall 0 (Ws.connectionListeners s) (Ws.noticeOf f)
   ++ match Ws.reconnectTimer s with
      | Some t => [Ws.ClearTimeout t]
      | None => []
      end
   ++ [Ws.ConsoleLog "WebSocket将在 delay ms 后尝试重连";
       Ws.SetTimeout (Ws.reconnectDelay s * (Ws.reconnectAttempts s + 1))]).
Proof.
  intros Hlim.
  destruct f; simpl;
    unfold Ws.on_close, Ws.on_error, Ws.connect_catch,
      Ws.notifyConnectionListeners, Ws.scheduleReconnect,
      Ws.bindM, Ws.read, Ws.write, Ws.out, Ws.ret; simpl;
    rewrite forEachFrom_quiet by (intros l Hl; now apply Hquiet); simpl;
    destruct (Z.geb_spec (Ws.reconnectAttempts s) (Ws.maxReconnectAttempts s));
    try lia; simpl;
    destruct (Ws.reconnectTimer s); simpl; rewrite ?app_nil_r; reflexivity.
Qed.

End Reconnection.

Lemma on_timer_pending (s : Ws.WebSocketManager) :
  let r := Ws.on_timer Ws.Pending s in
  Ws.sameSetup s (Ws.stateOf r) /\
  Ws.reconnectAttempts (Ws.stateOf r) = Ws.reconnectAttempts s /\
  Ws.reconnectTimer (Ws.stateOf r) = Ws.reconnectTimer s /\
  filter Ws.isSetTimeout (Ws.traceOf r) = [].
Proof.
  unfold Ws.on_timer, Ws.connect, Ws.bindM, Ws.read, Ws.write, Ws.out,
    Ws.sameSetup; simpl.
  destruct (Ws.status s); simpl; repeat split; reflexivity.
Qed.

(** One more failure: the counter and the timer after it. *)
Lemma round_step (s : Ws.WebSocketManager) (r : bool * Ws.failure) :
  Ws.quiet (Ws.connectionListeners s) ->
  let a := Ws.reconnectAttempts s in
  let after := Ws.run (Ws.round r) s in
  Ws.sameSetup s (fst after) /\
  (a < Ws.maxReconnectAttempts s ->
   Ws.reconnectAttempts (fst after) = a + 1 /\
   Ws.reconnectTimer (fst after) = Some (Ws.reconnectDelay s * (a + 1)) /\
   filter Ws.isSetTimeout (snd after) =
     [Ws.SetTimeout (Ws.reconnectDelay s * (a + 1))]) /\
  (Ws.maxReconnectAttempts s <= a ->
   Ws.reconnectAttempts (fst after) = a /\
   filter Ws.isSetTimeout (snd after) = []).
Proof.
  intros Hq a after. subst a after.
  assert (Hfail : forall s0 f,
    Ws.quiet (Ws.connectionListeners s0) ->
    let res := Ws.fail f s0 in
    Ws.sameSetup s0 (Ws.stateOf res) /\
    (Ws.reconnectAttempts s0 < Ws.maxReconnectAttempts s0 ->
     Ws.reconnectAttempts (Ws.stateOf res) = Ws.reconnectAttempts s0 + 1 /\
     Ws.reconnectTimer (Ws.stateOf res) =
       Some (Ws.reconnectDelay s0 * (Ws.reconnectAttempts s0 + 1)) /\
     filter Ws.isSetTimeout (Ws.traceOf res) =
       [Ws.SetTimeout (Ws.reconnectDelay s0 * (Ws.reconnectAttempts s0 + 1))]) /\
    (Ws.maxReconnectAttempts s0 <= Ws.reconnectAttempts s0 ->
     Ws.reconnectAttempts (Ws.stateOf res) = Ws.reconnectAttempts s0 /\
     filter Ws.isSetTimeout (Ws.traceOf res) = [])).
  { intros s0 f Hq0. cbv zeta. split; [| split].
    - destruct (Z.lt_ge_cases (Ws.reconnectAttempts s0)
                  (Ws.maxReconnectAttempts s0)) as [Hlt | Hge].
      + rewrite (fail_schedules s0 Hq0 f Hlt). repeat split.
      + rewrite (fail_exhausted s0 Hq0 f Hge). repeat split.
    - intros Hlt. rewrite (fail_schedules s0 Hq0 f Hlt).
      unfold Ws.stateOf, Ws.traceOf; simpl. repeat split.
      assert (Hfirst : Ws.isSetTimeout (Ws.firstLineOf f) = false)
        by now destruct f.
      rewrite Hfirst, !filter_app, callsFrom_no_timeout by reflexivity.
      destruct (Ws.reconnectTimer s0); reflexivity.
    - intros Hge. rewrite (fail_exhausted s0 Hq0 f Hge).
      unfold Ws.stateOf, Ws.traceOf; simpl. split; [reflexivity |].
      assert (Hfirst : Ws.isSetTimeout (Ws.firstLineOf f) = false)
        by now destruct f.
      rewrite Hfirst, !filter_app, callsFrom_no_timeout by reflexivity.
      reflexivity. }
  destruct r as [[|] f]; unfold Ws.round; simpl.
  - destruct (on_timer_pending s) as (Hsetup & Hatt & Htimer & Htrace).
    destruct (Ws.on_timer Ws.Pending s) as [[r0 s0] t0].
    unfold Ws.stateOf, Ws.traceOf in *; simpl in *.
    destruct Hsetup as (Hl & Hm & Hmax & Hbase).
    assert (Hq0 : Ws.quiet (Ws.connectionListeners s0)) by now rewrite Hl.
    destruct (Hfail s0 f Hq0) as (Hsetup1 & Hlt1 & Hge1).
    destruct (Ws.fail f s0) as [[r1 s1] t1].
    unfold Ws.stateOf, Ws.traceOf, Ws.sameSetup in *; simpl in *.
    rewrite app_nil_r, filter_app, Htrace; simpl.
    rewrite Hatt, Hmax, Hbase in *.
    destruct Hsetup1 as (Hl1 & Hm1 & Hmax1 & Hbase1).
    repeat split; try congruence; try (now apply Hlt1); try (now apply Hge1).
  - destruct (Hfail s f Hq) as (Hsetup1 & Hlt1 & Hge1).
    destruct (Ws.fail f s) as [[r1 s1] t1].
    unfold Ws.stateOf, Ws.traceOf in *; simpl in *.
    rewrite app_nil_r.
    repeat split; try (now apply Hsetup1); try (now apply Hlt1);
      try (now apply Hge1).
Qed.

Lemma run_app (hs1 hs2 : list (Ws.M unit)) (s : Ws.WebSocketManager) :
  Ws.run (hs1 ++ hs2) s =
  (fst (Ws.run hs2 (fst (Ws.run hs1 s))),
   snd (Ws.run hs1 s) ++ snd (Ws.run hs2 (fst (Ws.run hs1 s)))).
Proof.
  revert s. induction hs1 as [| h rest IH]; intros s; simpl.
  - now destruct (Ws.run hs2 s).
  - destruct (h s) as [[r s1] t1]. rewrite IH.
    destruct (Ws.run rest s1) as [s2 t2]; simpl.
    now rewrite app_assoc.
Qed.

Lemma run_single (h : Ws.M unit) (s : Ws.WebSocketManager) :
  Ws.run [h] s = (Ws.stateOf (h s), Ws.traceOf (h s)).
Proof.
  simpl. destruct (h s) as [[r s1] t1]; simpl. now rewrite app_nil_r.
Qed.

(** After [k] failures in a row the counter is [k], up to the limit. *)
Lemma rounds_count (rs : list (bool * Ws.failure)) :
  forall s : Ws.WebSocketManager,
  Ws.quiet (Ws.connectionListeners s) ->
  0 <= Ws.reconnectAttempts s <= Ws.maxReconnectAttempts s ->
  let after := fst (Ws.run (List.concat (map Ws.round rs)) s) in
  Ws.sameSetup s after /\
  Ws.reconnectAttempts after =
    Z.min (Ws.reconnectAttempts s + Z.of_nat (List.length rs))
          (Ws.maxReconnectAttempts s).
Proof.
  induction rs as [| r rest IH]; intros s Hq Hrange; cbv zeta.
  - simpl. unfold Ws.sameSetup. repeat split; lia.
  - simpl List.concat. rewrite run_app. simpl fst.
    destruct (round_step s r Hq) as (Hsetup & Hlt & Hge).
    set (s1 := fst (Ws.run (Ws.round r) s)) in *.
    destruct Hsetup as (Hl & Hm & Hmax & Hbase).
    assert (Hq1 : Ws.quiet (Ws.connectionListeners s1)) by now rewrite Hl.
    assert (Ha1 : Ws.reconnectAttempts s1 =
                  Z.min (Ws.reconnectAttempts s + 1) (Ws.maxReconnectAttempts s)).
    { destruct (Z.lt_ge_cases (Ws.reconnectAttempts s)
                  (Ws.maxReconnectAttempts s)) as [H | H].
      - destruct (Hlt H) as (-> & _). lia.
      - destruct (Hge H) as (-> & _). lia. }
    destruct (IH s1 Hq1) as (Hsetup2 & Hcount); [lia |].
    destruct Hsetup2 as (Hl2 & Hm2 & Hmax2 & Hbase2).
    unfold Ws.sameSetup. repeat split; try congruence.
    rewrite Hcount, Ha1, Hmax. simpl List.length. lia.
Qed.

Lemma on_open_resets (s : Ws.WebSocketManager) :
  Ws.reconnectAttempts (Ws.stateOf (Ws.on_open s)) = 0 /\
  Ws.status (Ws.stateOf (Ws.on_open s)) = Ws.CONNECTED /\
  filter Ws.isSend (Ws.traceOf (Ws.on_open s)) = [].
Proof.
  unfold Ws.on_open, Ws.notifyConnectionListeners, Ws.bindM, Ws.read,
    Ws.write, Ws.out; simpl.
  match goal with
  | |- context [Ws.forEachFrom ?c ?i ?ls ?a ?s0] =>
      destruct (forEachFrom_frame c a ls i s0) as [Hs Ht];
      destruct (Ws.forEachFrom c i ls a s0) as [[r s1] t]
  end.
  unfold Ws.stateOf, Ws.traceOf in *; simpl in *. subst s1.
  assert (Hnone : filter Ws.isSend t = []).
  { clear -Ht. induction Ht as [| e t (j & c & ->) _ IH]; simpl; [reflexivity | exact IH]. }
  destruct r; simpl; repeat split; exact Hnone.
Qed.

(** *** The timers pending after a failure *)

Lemma afterTrace_app (t1 t2 : list Ws.effect) (pending : list Ws.timer) :
  Timers.afterTrace (t1 ++ t2) pending =
  Timers.afterTrace t2 (Timers.afterTrace t1 pending).
Proof. apply fold_left_app. Qed.

Lemma afterTrace_inert (t : list Ws.effect) :
  Forall (fun e => Timers.isTimerEffect e = false) t ->
  forall pending, Timers.afterTrace t pending = pending.
Proof.
  induction 1 as [| e rest He _ IH]; intros pending; [reflexivity |].
  unfold Timers.afterTrace in *. simpl. rewrite <- (IH pending) at 2.
  f_equal. now destruct e.
Qed.

Lemma callsFrom_inert (c : Ws.conn_callback)
    (ls : list Ws.connection_listener) (i : nat) :
  Forall (fun e => Timers.isTimerEffect e = false)
    (Ws.callsFrom Ws.ConnCall i ls c).
Proof.
  revert i. induction ls as [| l rest IH]; intros i; simpl; constructor;
    [reflexivity | apply IH].
Qed.

Lemma on_timer_inert (s : Ws.WebSocketManager) :
  Forall (fun e => Timers.isTimerEffect e = false)
    (Ws.traceOf (Ws.on_timer Ws.Pending s)).
Proof.
  unfold Ws.on_timer, Ws.connect, Ws.bindM, Ws.read, Ws.write, Ws.out,
    Ws.traceOf; simpl.
  destruct (Ws.status s); simpl; repeat constructor.
Qed.

Lemma cancel_tracked (s : Ws.WebSocketManager) (pending : list Ws.timer)
    (t : Ws.timer) :
  Timers.tracked s pending -> Ws.reconnectTimer s = Some t ->
  Timers.cancel t pending = [].
Proof.
  intros [-> | (d & -> & Hd)] Ht; [reflexivity |].
  rewrite Ht in Hd. injection Hd as <-. simpl. now rewrite Z.eqb_refl.
Qed.

(** One failure, the listeners returning: the counter, the handle and
    the pending timers after it. *)
Lemma fail_pending (s : Ws.WebSocketManager) (pending : list Ws.timer)
    (f : Ws.failure) :
  Ws.quiet (Ws.connectionListeners s) ->
  Timers.tracked s pending ->
  let r := Ws.fail f s in
  let a := Ws.reconnectAttempts s in
  Ws.sameSetup s (Ws.stateOf r) /\
  (a < Ws.maxReconnectAttempts s ->
   Ws.reconnectAttempts (Ws.stateOf r) = a + 1 /\
   Ws.reconnectTimer (Ws.stateOf r) = Some (Ws.reconnectDelay s * (a + 1)) /\
   Timers.afterTrace (Ws.traceOf r) pending =
     [Ws.reconnectDelay s * (a + 1)] /\
   filter Ws.isSetTimeout (Ws.traceOf r) =
     [Ws.SetTimeout (Ws.reconnectDelay s * (a + 1))]) /\
  (Ws.maxReconnectAttempts s <= a ->
   Ws.reconnectAttempts (Ws.stateOf r) = a /\
   Ws.reconnectTimer (Ws.stateOf r) = Ws.reconnectTimer s /\
   Timers.afterTrace (Ws.traceOf r) pending = pending /\
   filter Ws.isSetTimeout (Ws.traceOf r) = []).
Proof.
  intros Hq Htr. cbv zeta.
  assert (Hfirst : Ws.isSetTimeout (Ws.firstLineOf f) = false
                   /\ Timers.isTimerEffect (Ws.firstLineOf f) = false)
    by (now destruct f).
  destruct Hfirst as [Hfirst1 Hfirst2].
  split; [| split].
  - destruct (Z.lt_ge_cases (Ws.reconnectAttempts s)
                (Ws.maxReconnectAttempts s)) as [Hlt | Hge].
    + rewrite (fail_schedules s Hq f Hlt). repeat split.
    + rewrite (fail_exhausted s Hq f Hge). repeat split.
  - intros Hlt. rewrite (fail_schedules s Hq f Hlt).
    unfold Ws.stateOf, Ws.traceOf; cbn [fst snd].
    split; [reflexivity |]. split; [reflexivity |]. split.
    + change (Ws.firstLineOf f :: ?l) with ([Ws.firstLineOf f] ++ l).
      rewrite !afterTrace_app.
      rewrite (afterTrace_inert [Ws.firstLineOf f]) by (now constructor).
      rewrite (afterTrace_inert (Ws.callsFrom _ _ _ _))
        by apply callsFrom_inert.
      destruct (Ws.reconnectTimer s) as [t |] eqn:Ht.
      * unfold Timers.afterTrace at 2. simpl fold_left.
        rewrite (cancel_tracked s pending t Htr Ht). reflexivity.
      * destruct Htr as [-> | (d & _ & Hd)]; [reflexivity | congruence].
    + simpl. rewrite Hfirst1, !filter_app, callsFrom_no_timeout
        by reflexivity.
      destruct (Ws.reconnectTimer s); reflexivity.
  - intros Hge. rewrite (fail_exhausted s Hq f Hge).
    unfold Ws.stateOf, Ws.traceOf; cbn [fst snd].
    split; [reflexivity |]. split; [reflexivity |]. split.
    + apply afterTrace_inert. constructor; [exact Hfirst2 |].
      apply Forall_app. split; [apply callsFrom_inert |].
      now repeat constructor.
    + simpl. rewrite Hfirst1, !filter_app, callsFrom_no_timeout
        by reflexivity.
      reflexivity.
Qed.

(** After a run of failures and timers, from a counter within the
    maximum: the counter is the number of failures, up to the maximum,
    and at most one timer is pending, the one whose handle is held. *)
Lemma play_tracked (evs : list Timers.event) :
  forall (s : Ws.WebSocketManager) (pending : list Ws.timer)
         (s1 : Ws.WebSocketManager) (pending1 : list Ws.timer),
  Ws.quiet (Ws.connectionListeners s) ->
  0 <= Ws.reconnectAttempts s <= Ws.maxReconnectAttempts s ->
  Timers.tracked s pending ->
  Timers.play evs s pending = Some (s1, pending1) ->
  Ws.sameSetup s s1 /\
  Timers.tracked s1 pending1 /\
  Ws.reconnectAttempts s1 =
    Z.min (Ws.reconnectAttempts s + Z.of_nat (Timers.failures evs))
          (Ws.maxReconnectAttempts s).
Proof.
  induction evs as [| [d | f] rest IH];
    intros s pending s1 pending1 Hq Hrange Htr Hplay; simpl in Hplay.
  - injection Hplay as <- <-. unfold Ws.sameSetup, Timers.failures. simpl.
    repeat split; [exact Htr | lia].
  - destruct (existsb (Z.eqb d) pending) eqn:Hd; [| discriminate].
    destruct (on_timer_pending s) as (Hsetup & Hatt & Htimer & _).
    rewrite (afterTrace_inert _ (on_timer_inert s)) in Hplay.
    set (s0 := Ws.stateOf (Ws.on_timer Ws.Pending s)) in *.
    destruct Hsetup as (Hl & Hm & Hmax & Hbase).
    assert (Hcancel : Timers.cancel d pending = []).
    { destruct Htr as [-> | (d0 & -> & _)]; [discriminate |].
      simpl in Hd. rewrite orb_false_r in Hd.
      simpl. rewrite Z.eqb_sym. now rewrite Hd. }
    rewrite Hcancel in Hplay.
    destruct (IH s0 [] s1 pending1) as (Hsetup1 & Htr1 & Hcount).
    + now rewrite Hl.
    + rewrite Hatt, Hmax. exact Hrange.
    + now left.
    + exact Hplay.
    + destruct Hsetup1 as (Hl1 & Hm1 & Hmax1 & Hbase1).
      unfold Ws.sameSetup. repeat split; try congruence.
      rewrite Hcount, Hatt, Hmax. reflexivity.
  - destruct (fail_pending s pending f Hq Htr) as (Hsetup & Hlt & Hge).
    set (s0 := Ws.stateOf (Ws.fail f s)) in *.
    set (p0 := Timers.afterTrace (Ws.traceOf (Ws.fail f s)) pending) in *.
    destruct Hsetup as (Hl & Hm & Hmax & Hbase).
    assert (Hstep : Timers.tracked s0 p0 /\
                    Ws.reconnectAttempts s0 =
                      Z.min (Ws.reconnectAttempts s + 1)
                            (Ws.maxReconnectAttempts s)).
    { destruct (Z.lt_ge_cases (Ws.reconnectAttempts s)
                  (Ws.maxReconnectAttempts s)) as [H | H].
      - destruct (Hlt H) as (Ha & Ht & Hp & _). split; [| lia].
        right. eexists. split; [exact Hp | exact Ht].
      - destruct (Hge H) as (Ha & Ht & Hp & _). split; [| lia].
        rewrite Hp. destruct Htr as [-> | (d & -> & Hd)]; [now left |].
        right. exists d. split; [reflexivity | now rewrite Ht]. }
    destruct Hstep as [Htr0 Ha0].
    destruct (IH s0 p0 s1 pending1) as (Hsetup1 & Htr1 & Hcount).
    + now rewrite Hl.
    + rewrite Hmax. lia.
    + exact Htr0.
    + exact Hplay.
    + destruct Hsetup1 as (Hl1 & Hm1 & Hmax1 & Hbase1).
      unfold Ws.sameSetup. repeat split; try congruence.
      rewrite Hcount, Ha0, Hmax.
      unfold Timers.failures. simpl filter. simpl List.length.
      fold (Timers.failures rest). lia.
Qed.

(** C6, as stated, fails, in two ways.  A connection listener that
    throws from [onDisconnected] stops the close handler before it
    schedules anything: after an error and a close, two failures in a
    row, the one timer pending is the one of the first failure, of 3000
    ms and not of 6000, and it is the one that starts the next attempt.
    And at the maximum of five attempts a further failure schedules
    nothing: after six failures in a row the timer pending is the one of
    the fifth, of 15000 ms and not of 18000. *)
Lemma next_attempt_comes_before_base_times_n :
  let reset := Timers.Fails (Ws.SocketError (VStr "reset")) in
  let closed := Timers.Fails Ws.SocketClosed in
  let seen := option_map (fun x => (Ws.status (fst x),
                                    Ws.reconnectAttempts (fst x), snd x)) in
  seen (Timers.play [reset; closed] Timers.fragile [])
    = Some (Ws.DISCONNECTED, 1, [3000]) /\
  seen (Timers.play [reset; closed; Timers.TimerFires 3000] Timers.fragile [])
    = Some (Ws.CONNECTING, 1, []) /\
  3000 < Ws.reconnectDelay Timers.fragile * 2 /\
  seen (Timers.play (repeat closed 6) Sample.connected [])
    = Some (Ws.DISCONNECTED, 5, [15000]) /\
  seen (Timers.play (repeat closed 6 ++ [Timers.TimerFires 15000])
          Sample.connected [])
    = Some (Ws.CONNECTING, 5, []) /\
  15000 < Ws.reconnectDelay Sample.connected * 6.
Proof. cbv zeta. repeat split. Qed.

(** C6 (amended): while the connection listeners return from their
    callbacks, from a counter at 0 with no timer pending, after [n >= 1]
    failures in a row (each a socket close, a socket error or a
    connection attempt that threw, pending timers firing in between or
    not): when [n] is within the maximum, the [n]-th failure cancels the
    timer that was pending, if any, and arms one timer, with delay
    [reconnectDelay * n], so that it is the only timer pending and the
    next attempt waits for it; the counter is [n].  Beyond the maximum
    the failure arms and cancels nothing.  The ['open'] handler sets the
    counter to 0 and the status to [CONNECTED]. *)
Theorem reconnect_delay_after_failures (s : Ws.WebSocketManager)
    (evs : list Timers.event) (f : Ws.failure)
    (s1 : Ws.WebSocketManager) (pending1 : list Ws.timer) :
  Ws.quiet (Ws.connectionListeners s) ->
  Ws.reconnectAttempts s = 0 ->
  0 <= Ws.maxReconnectAttempts s ->
  Timers.play evs s [] = Some (s1, pending1) ->
  let n := Z.of_nat (S (Timers.failures evs)) in
  let r := Ws.fail f s1 in
  let pending2 := Timers.afterTrace (Ws.traceOf r) pending1 in
  (n <= Ws.maxReconnectAttempts s ->
   pending2 = [Ws.reconnectDelay s * n] /\
   filter Ws.isSetTimeout (Ws.traceOf r) =
     [Ws.SetTimeout (Ws.reconnectDelay s * n)] /\
   Ws.reconnectTimer (Ws.stateOf r) = Some (Ws.reconnectDelay s * n) /\
   Ws.reconnectAttempts (Ws.stateOf r) = n) /\
  (Ws.maxReconnectAttempts s < n ->
   pending2 = pending1 /\
   filter Ws.isSetTimeout (Ws.traceOf r) = [] /\
   Ws.reconnectAttempts (Ws.stateOf r) = Ws.maxReconnectAttempts s) /\
  (forall d, In d pending2 -> n <= Ws.maxReconnectAttempts s ->
             d = Ws.reconnectDelay s * n) /\
  Ws.reconnectAttempts (Ws.stateOf (Ws.on_open (Ws.stateOf r))) = 0 /\
  Ws.status (Ws.stateOf (Ws.on_open (Ws.stateOf r))) = Ws.CONNECTED.
Proof.
  intros Hq H0 Hmax Hplay n r pending2.
  destruct (play_tracked evs s [] s1 pending1 Hq) as (Hsetup & Htr & Hcount);
    [lia | now left | exact Hplay |].
  destruct Hsetup as (Hl & _ & Hlim & Hbase).
  assert (Hq1 : Ws.quiet (Ws.connectionListeners s1)) by now rewrite Hl.
  destruct (fail_pending s1 pending1 f Hq1 Htr) as (_ & Hlt & Hge).
  fold r in Hlt, Hge. fold pending2 in Hlt, Hge.
  rewrite Hlim, Hbase, Hcount, H0 in *.
  assert (Hn : n = Z.of_nat (Timers.failures evs) + 1) by (subst n; lia).
  assert (Hwithin : n <= Ws.maxReconnectAttempts s ->
            pending2 = [Ws.reconnectDelay s * n] /\
            filter Ws.isSetTimeout (Ws.traceOf r) =
              [Ws.SetTimeout (Ws.reconnectDelay s * n)] /\
            Ws.reconnectTimer (Ws.stateOf r) =
              Some (Ws.reconnectDelay s * n) /\
            Ws.reconnectAttempts (Ws.stateOf r) = n).
  { intros Hle.
    replace (Z.min (0 + Z.of_nat (Timers.failures evs))
               (Ws.maxReconnectAttempts s)) with (n - 1) in * by lia.
    replace (n - 1 + 1) with n in * by lia.
    destruct Hlt as (Ha & Ht & Hp & Hs); [lia |]. repeat split; assumption. }
  split; [exact Hwithin |]. split; [| split].
  - intros Hgt.
    replace (Z.min (0 + Z.of_nat (Timers.failures evs))
               (Ws.maxReconnectAttempts s))
      with (Ws.maxReconnectAttempts s) in * by lia.
    destruct Hge as (Ha & _ & Hp & Hs); [lia |]. repeat split; assumption.
  - intros d Hd Hle. destruct (Hwithin Hle) as (Hp & _).
    rewrite Hp in Hd. destruct Hd as [<- | []]. reflexivity.
  - destruct (on_open_resets (Ws.stateOf r)) as (Hr & Hs & _). now split.
Qed.

Lemma reconnect_delay_after_failures_witness :
  let evs := [Timers.Fails Ws.SocketClosed; Timers.TimerFires 3000;
              Timers.Fails (Ws.SocketError (VStr "reset"))] in
  exists s1 pending1,
    Timers.play evs Sample.connected [] = Some (s1, pending1) /\
    pending1 = [6000] /\
    let r := Ws.fail (Ws.ConnectThrew VUndefined) s1 in
    Timers.afterTrace (Ws.traceOf r) pending1 = [9000] /\
    Ws.reconnectAttempts (Ws.stateOf r) = 3.
Proof.
  cbv zeta. eexists. eexists. split; [reflexivity |]. split; [reflexivity |].
  edestruct (reconnect_delay_after_failures Sample.connected
               [Timers.Fails Ws.SocketClosed; Timers.TimerFires 3000;
                Timers.Fails (Ws.SocketError (VStr "reset"))]
               (Ws.ConnectThrew VUndefined)) as (Hwithin & _).
  - intros l c [<- | []]. reflexivity.
  - reflexivity.
  - simpl. lia.
  - reflexivity.
  - destruct Hwithin as (Hp & _ & _ & Ha); [simpl; lia |].
    split; [exact Hp | exact Ha].
Defined.

Lemma callsFrom_are_calls (c : Ws.conn_callback)
    (ls : list Ws.connection_listener) (i : nat) :
  filter Ws.isCall (Ws.callsFrom Ws.ConnCall i ls c) =
  Ws.callsFrom Ws.ConnCall i ls c.
Proof.
  revert i. induction ls as [| l rest IH]; intros i; simpl; [reflexivity |].
  now rewrite IH.
Qed.

(** What the listeners are told of a failure does not depend on the
    counter. *)
Lemma fail_calls (s : Ws.WebSocketManager) (f : Ws.failure) :
  Ws.quiet (Ws.connectionListeners s) ->
  filter Ws.isCall (Ws.traceOf (Ws.fail f s)) =
  Ws.callsFrom Ws.ConnCall 0 (Ws.connectionListeners s) (Ws.noticeOf f).
Proof.
  intros Hq.
  assert (Hfirst : Ws.isCall (Ws.firstLineOf f) = false) by now destruct f.
  destruct (Z.lt_ge_cases (Ws.reconnectAttempts s)
              (Ws.maxReconnectAttempts s)) as [Hlt | Hge].
  - rewrite (fail_schedules s Hq f Hlt). unfold Ws.traceOf; simpl.
    rewrite Hfirst, !filter_app, callsFrom_are_calls.
    destruct (Ws.reconnectTimer s); simpl; now rewrite app_nil_r.
  - rewrite (fail_exhausted s Hq f Hge). unfold Ws.traceOf; simpl.
    rewrite Hfirst, !filter_app, callsFrom_are_calls; simpl.
    now rewrite app_nil_r.
Qed.

(** C7, as stated, fails.  With the counter at the maximum, a socket error
    leaves the status at [ERROR], not [DISCONNECTED], and the listener is
    told what it is told of the first, transient, error; a socket close
    tells it [onDisconnected] and no error at all. *)
Lemma exhausted_error_is_not_disconnected :
  let r := Ws.on_error (VStr "timeout") Sample.exhausted in
  Ws.status (Ws.stateOf r) = Ws.ERROR /\
  Ws.status (Ws.stateOf r) <> Ws.DISCONNECTED /\
  Ws.traceOf r =
    [Ws.ConsoleError "WebSocket连接错误:";
     Ws.ConnCall 0 (Ws.OnError (VStr "timeout"));
     Ws.ConsoleLog "WebSocket重连次数已达上限，停止重连"] /\
  filter Ws.isCall (Ws.traceOf (Ws.on_error (VStr "timeout") Sample.connected))
    = [Ws.ConnCall 0 (Ws.OnError (VStr "timeout"))] /\
  filter Ws.isCall (Ws.traceOf (Ws.on_close Sample.exhausted))
    = [Ws.ConnCall 0 Ws.OnDisconnected].
Proof.
  cbv zeta. split; [reflexivity |]. split; [discriminate |].
  repeat split.
Qed.

(** C7 (amended): when the count of failures in a row has reached the
    maximum, a further failure is handled like any other except that no
    timer is armed: the handler returns, the status is what the handler
    of the failure writes ([DISCONNECTED] for a close, [ERROR] for an
    error or a connection attempt that threw), the counter and the timer
    are as before, the only extra effect is a console line, and the
    listeners are told what they are told of every failure, whatever the
    counter: [onDisconnected] for a close, [onError] for the others. *)
Theorem exhausted_retries_stop_silently (s : Ws.WebSocketManager)
    (f : Ws.failure) :
  Ws.quiet (Ws.connectionListeners s) ->
  Ws.maxReconnectAttempts s <= Ws.reconnectAttempts s ->
  let r := Ws.fail f s in
  Ws.completionOf r = Return tt /\
  Ws.stateOf r = Ws.set_status (Ws.statusAfter f) s /\
  Ws.traceOf r =
    Ws.firstLineOf f
    :: Ws.callsFrom Ws.ConnCall 0 (Ws.connectionListeners s) (Ws.noticeOf f)
    ++ [Ws.ConsoleLog "WebSocket重连次数已达上限，停止重连"] /\
  filter Ws.isSetTimeout (Ws.traceOf r) = [] /\
  (forall a,
     filter Ws.isCall (Ws.traceOf (Ws.fail f (Ws.set_reconnectAttempts a s))) =
     filter Ws.isCall (Ws.traceOf r)).
Proof.
  intros Hq Hge r. subst r.
  split; [| split; [| split; [| split]]].
  - now rewrite (fail_exhausted s Hq f Hge).
  - now rewrite (fail_exhausted s Hq f Hge).
  - now rewrite (fail_exhausted s Hq f Hge).
  - destruct (round_step s (false, f) Hq) as (_ & _ & Hstop).
    destruct (Hstop Hge) as (_ & Htr).
    unfold Ws.round in Htr; simpl in Htr.
    destruct (Ws.fail f s) as [[r0 s0] t0]. simpl in *.
    now rewrite app_nil_r in Htr.
  - intros a. rewrite (fail_calls s f Hq).
    now rewrite (fail_calls (Ws.set_reconnectAttempts a s) f Hq).
Qed.

Lemma exhausted_retries_stop_silently_witness :
  Ws.stateOf (Ws.fail Ws.SocketClosed Sample.exhausted) =
    Ws.set_status Ws.DISCONNECTED Sample.exhausted /\
  filter Ws.isSetTimeout (Ws.traceOf (Ws.fail Ws.SocketClosed Sample.exhausted))
    = [].
Proof.
  destruct (exhausted_retries_stop_silently Sample.exhausted Ws.SocketClosed)
    as (_ & Hstate & _ & Htimer & _).
  - intros l c [<- | []]. reflexivity.
  - simpl. lia.
  - split; [exact Hstate | exact Htimer].
Defined.

(** *** Sending *)

Lemma emit_not_connected (s : Ws.WebSocketManager) (event : string)
    (data : value) (sendFails : option error) :
  Ws.status s <> Ws.CONNECTED \/ Ws.webSocket s = None ->
  Ws.emit event data sendFails s =
  (Return tt, s, [Ws.ConsoleError "WebSocket未连接，无法发送消息"]).
Proof.
  intros H. unfold Ws.emit, Ws.bindM, Ws.read, Ws.out; simpl.
  destruct H as [H | H].
  - destruct (Ws.status s); try contradiction; reflexivity.
  - rewrite H. now rewrite orb_true_r.
Qed.

(** C8, as stated, fails: sending while [DISCONNECTED] returns to the
    caller without an error. *)
Lemma emit_disconnected_is_no_error :
  let r := Ws.sendPrivateMessage Sample.request1 None Sample.listening in
  Ws.status Sample.listening = Ws.DISCONNECTED /\
  Ws.completionOf r = Return tt /\
  ~ (exists e, Ws.completionOf r = Throw e).
Proof.
  cbv zeta. split; [reflexivity |]. split; [reflexivity |].
  intros [e He]. discriminate He.
Qed.

(** C8 (amended): in every state whose status is not [CONNECTED]
    ([DISCONNECTED], [CONNECTING] or [ERROR]), [emit] returns at once and
    without an error: the completion is a normal return, nothing is handed
    to the socket, the manager is as before and the only effect is an
    error line on the console. *)
Theorem emit_not_connected_returns (s : Ws.WebSocketManager) (event : string)
    (data : value) (sendFails : option error) :
  Ws.status s <> Ws.CONNECTED ->
  let r := Ws.emit event data sendFails s in
  Ws.completionOf r = Return tt /\
  Ws.stateOf r = s /\
  Ws.traceOf r = [Ws.ConsoleError "WebSocket未连接，无法发送消息"] /\
  filter Ws.isSend (Ws.traceOf r) = [].
Proof.
  intros Hs r. subst r.
  rewrite emit_not_connected by (now left).
  repeat split.
Qed.

Lemma emit_not_connected_returns_witness :
  Ws.completionOf
    (Ws.emit "mark_as_read" VNull None Sample.exhausted) = Return tt.
Proof.
  apply (emit_not_connected_returns Sample.exhausted "mark_as_read" VNull None).
  simpl. discriminate.
Defined.

(** While connected and while the socket accepts them, frames reach the
    socket in the order of the calls. *)
Lemma emit_connected (s : Ws.WebSocketManager) (event : string)
    (data : value) :
  Ws.status s = Ws.CONNECTED -> Ws.webSocket s <> None ->
  Ws.emit event data None s =
  (Return tt, s,
   [Ws.SocketSend event data; Ws.ConsoleLog "WebSocket消息发送成功:"]).
Proof.
  intros Hs Hw. unfold Ws.emit, Ws.bindM, Ws.read, Ws.out, Ws.try_catch; simpl.
  rewrite Hs. destruct (Ws.webSocket s); [reflexivity | contradiction].
Qed.

Lemma run_emits_not_connected (s : Ws.WebSocketManager)
    (frames : list (string * value)) :
  Ws.status s <> Ws.CONNECTED ->
  let sends := map (fun f => Ws.emit (fst f) (snd f) None) frames in
  fst (Ws.run sends s) = s /\ filter Ws.isSend (snd (Ws.run sends s)) = [].
Proof.
  intros Hs. induction frames as [| f rest IH]; simpl; [now split |].
  rewrite emit_not_connected by (now left).
  cbv zeta in IH.
  destruct (Ws.run (map (fun f0 => Ws.emit (fst f0) (snd f0) None) rest) s)
    as [s2 t2]; simpl in *. exact IH.
Qed.

(** C2 fails on the code: frames sent while the status is not [CONNECTED]
    are not kept.  Every such call leaves the manager as it was, and
    neither the calls nor the ['open'] handler that follows hand anything
    to the socket. *)
Theorem frames_sent_while_not_connected_are_lost (s : Ws.WebSocketManager)
    (frames : list (string * value)) :
  Ws.status s <> Ws.CONNECTED ->
  let sends := map (fun f => Ws.emit (fst f) (snd f) None) frames in
  fst (Ws.run sends s) = s /\
  filter Ws.isSend (snd (Ws.run (sends ++ [Ws.on_open]) s)) = [] /\
  Ws.status (fst (Ws.run (sends ++ [Ws.on_open]) s)) = Ws.CONNECTED.
Proof.
  intros Hs sends.
  destruct (run_emits_not_connected s frames Hs) as (Hstate & Htrace).
  fold sends in Hstate, Htrace.
  split; [exact Hstate |].
  rewrite run_app; cbn [fst snd].
  rewrite Hstate, filter_app, Htrace, run_single; cbn [fst snd app].
  destruct (on_open_resets s) as (_ & Hstatus & Hopen). now split.
Qed.

Lemma frames_sent_while_not_connected_are_lost_witness :
  let frames :=
    [("send_private_message", SendMessageRequest_toJson Sample.request1);
     ("send_private_message", SendMessageRequest_toJson Sample.request2)] in
  let sends := map (fun f => Ws.emit (fst f) (snd f) None) frames in
  filter Ws.isSend (snd (Ws.run (sends ++ [Ws.on_open]) Sample.listening)) = [] /\
  Ws.status (fst (Ws.run (sends ++ [Ws.on_open]) Sample.listening)) = Ws.CONNECTED.
Proof.
  cbv zeta.
  apply (frames_sent_while_not_connected_are_lost Sample.listening
           [("send_private_message", SendMessageRequest_toJson Sample.request1);
            ("send_private_message", SendMessageRequest_toJson Sample.request2)]).
  simpl. discriminate.
Defined.

(** *** Inbound frames *)

Lemma benign_ret {A} (a : A) : Ws.benign (Ws.ret a).
Proof. intros s. split; [reflexivity | constructor]. Qed.

Lemma benign_throw {A} (e : error) : Ws.benign (@Ws.throw A e).
Proof. intros s. split; [reflexivity | constructor]. Qed.

Lemma benign_lift {A} (c : completion A) : Ws.benign (Ws.lift c).
Proof. intros s. split; [reflexivity | constructor]. Qed.

Lemma benign_read : Ws.benign Ws.read.
Proof. intros s. split; [reflexivity | constructor]. Qed.

Lemma benign_out (e : Ws.effect) : Ws.inward e = true -> Ws.benign (Ws.out e).
Proof. intros He s. split; [reflexivity | repeat constructor; exact He]. Qed.

Lemma benign_bind {A B} (c : Ws.M A) (k : A -> Ws.M B) :
  Ws.benign c -> (forall a, Ws.benign (k a)) -> Ws.benign (Ws.bindM c k).
Proof.
  intros Hc Hk s. unfold Ws.bindM.
  destruct (Hc s) as [Hs Ht].
  destruct (c s) as [[[a | e] s1] t1]; unfold Ws.stateOf, Ws.traceOf in *;
    simpl in *; subst s1; [| now split].
  destruct (Hk a s) as [Hs2 Ht2].
  destruct (k a s) as [[r2 s2] t2]; unfold Ws.stateOf, Ws.traceOf in *;
    simpl in *.
  split; [exact Hs2 | now apply Forall_app].
Qed.

Lemma benign_try_catch {A} (c : Ws.M A) (h : error -> Ws.M A) :
  Ws.benign c -> (forall e, Ws.benign (h e)) -> Ws.benign (Ws.try_catch c h).
Proof.
  intros Hc Hh s. unfold Ws.try_catch.
  destruct (Hc s) as [Hs Ht].
  destruct (c s) as [[[a | e] s1] t1]; unfold Ws.stateOf, Ws.traceOf in *;
    simpl in *; subst s1; [now split |].
  destruct (Hh e s) as [Hs2 Ht2].
  destruct (h e s) as [[r2 s2] t2]; unfold Ws.stateOf, Ws.traceOf in *;
    simpl in *.
  split; [exact Hs2 | now apply Forall_app].
Qed.

Lemma benign_forEachMessageListener (args : completion Ws.msg_callback) :
  Ws.benign (Ws.forEachMessageListener args).
Proof.
  unfold Ws.forEachMessageListener.
  apply benign_bind; [apply benign_read |]. intros s0 s.
  destruct (forEachFrom_frame Ws.MsgCall args (Ws.messageListeners s0) 0 s)
    as [Hs Ht].
  split; [exact Hs |].
  eapply Forall_impl; [| exact Ht]. now intros e (j & c & ->).
Qed.

Section Inbound.

Variable JSON_parse : string -> completion value.
Variable Date_convert : value -> Date.
Variable now : Z.

Lemma benign_handlers (d : value) :
  Ws.benign (Ws.handlePrivateMessage Date_convert now d) /\
  Ws.benign (Ws.handleMessageSent d) /\
  Ws.benign (Ws.handleMessageRead d) /\
  Ws.benign (Ws.handleOnlineStatus d) /\
  Ws.benign (Ws.handleOfflineMessages Date_convert now d).
Proof.
  split; [| split; [| split; [| split]]].
  - apply benign_bind; [apply benign_lift |]. intros m.
    apply benign_forEachMessageListener.
  - apply benign_forEachMessageListener.
  - apply benign_forEachMessageListener.
  - apply benign_forEachMessageListener.
  - apply benign_bind; [apply benign_lift |]. intros ms.
    destruct ms; try apply benign_throw.
    apply benign_bind; [apply benign_lift |]. intros decoded.
    apply benign_forEachMessageListener.
Qed.

Lemma benign_handleMessage (data : string) : Ws.benign (Ws.handleMessage JSON_parse Date_convert now data).
Proof.
  unfold Ws.handleMessage.
  apply benign_try_catch; [| intros e; now apply benign_out].
  apply benign_bind; [apply benign_lift |]. intros message.
  apply benign_bind; [now apply benign_out |]. intros _.
  apply benign_bind; [apply benign_lift |]. intros event.
  repeat match goal with
         | |- Ws.benign (if ?c then _ else _) => destruct c
         end;
    try (apply benign_bind; [apply benign_lift |]; intros d;
         apply benign_handlers);
    now apply benign_out.
Qed.


End Inbound.

Section InboundCases.

Variable JSON_parse : string -> completion value.
Variable Date_convert : value -> Date.
Variable now : Z.
Variable data : string.
Variable s : Ws.WebSocketManager.





End InboundCases.




(** ** The manager that queues *)

Lemma emitAll_not_connected (frames : list (string * value)) :
  forall s : Queued.WebSocketManager,
  Queued.isConnected s = false ->
  let r := Queued.emitAll frames s in
  Queued.messageQueue (fst r) = Queued.messageQueue s ++ frames /\
  Queued.isConnected (fst r) = false /\
  Queued.listeners (fst r) = Queued.listeners s /\
  Queued.sentFrames (snd r) = [].
Proof.
  induction frames as [| [event data] rest IH]; intros s Hs; cbv zeta; simpl.
  - now rewrite app_nil_r.
  - unfold Queued.emit. rewrite Hs; simpl.
    set (s1 := Queued.set_messageQueue _ s).
    destruct (IH s1 Hs) as (Hq & Hc & Hl & Ht).
    destruct (Queued.emitAll rest s1) as [s2 t2]; simpl in *.
    rewrite Hq, <- app_assoc. now repeat split.
Qed.

Lemma skipn_nth_error {A} (l : list A) (i : nat) (x : A) :
  nth_error l i = Some x -> skipn i l = x :: skipn (S i) l.
Proof.
  revert i. induction l as [| y rest IH]; intros [| i] H; simpl in *;
    try discriminate.
  - now injection H as ->.
  - now apply IH.
Qed.

Lemma replayFrom_all_sent (sendFails : nat -> option error)
    (s : Queued.WebSocketManager) :
  (forall k, sendFails k = None) ->
  Queued.isConnected s = true -> Queued.ws s = Some tt ->
  forall fuel i : nat,
  (List.length (Queued.messageQueue s) - i < fuel)%nat ->
  exists t,
    Queued.replayFrom fuel i sendFails s =
      Some (Queued.set_messageQueue [] s, t) /\
    Queued.sentFrames t = skipn i (Queued.messageQueue s).
Proof.
  intros Hok Hc Hw.
  induction fuel as [| fuel IH]; intros i Hfuel; [lia |]. simpl.
  destruct (nth_error (Queued.messageQueue s) i) as [[event data] |] eqn:E.
  - unfold Queued.emit. rewrite Hc, Hw, Hok; simpl.
    assert (Hi : (i < List.length (Queued.messageQueue s))%nat)
      by (apply nth_error_Some; congruence).
    destruct (IH (S i)) as (t & Hrun & Hsent); [lia |].
    rewrite Hrun. eexists. split; [reflexivity |].
    simpl. rewrite Hsent. symmetry. now apply skipn_nth_error.
  - exists []. split; [reflexivity |].
    apply nth_error_None in E. simpl. symmetry. now apply skipn_all2.
Qed.

Lemma sentFrames_app (t1 t2 : list Ws.effect) :
  Queued.sentFrames (t1 ++ t2) = Queued.sentFrames t1 ++ Queued.sentFrames t2.
Proof.
  induction t1 as [| e rest IH]; simpl; [reflexivity |].
  destruct e; simpl; now rewrite IH.
Qed.

Lemma sentFrames_notifyConnect (ls : list Ws.connection_listener) (i : nat) :
  Queued.sentFrames (Queued.notifyConnect i ls) = [].
Proof.
  revert i. induction ls as [| l rest IH]; intros i; simpl; [reflexivity |].
  destruct (l Ws.OnConnected); [reflexivity | apply IH].
Qed.

(** The second manager does what C2 says: frames emitted while it is not
    connected are queued, and when the socket opens, and accepts them, they
    reach it in the order of the calls and the queue is emptied. *)
Lemma queued_frames_are_replayed_in_order (s : Queued.WebSocketManager)
    (frames : list (string * value)) (sendFails : nat -> option error)
    (fuel : nat) :
  Queued.isConnected s = false ->
  Queued.messageQueue s = [] ->
  (forall k, sendFails k = None) ->
  (List.length frames < fuel)%nat ->
  let queued := Queued.emitAll frames s in
  Queued.sentFrames (snd queued) = [] /\
  Queued.messageQueue (fst queued) = frames /\
  exists s2 t,
    Queued.on_open fuel sendFails (Queued.connect (fst queued)) = Some (s2, t) /\
    Queued.sentFrames t = frames /\
    Queued.messageQueue s2 = [].
Proof.
  intros Hc Hq Hok Hfuel queued.
  destruct (emitAll_not_connected frames s Hc) as (Hqueue & Hc1 & _ & Hsent).
  fold queued in Hqueue, Hc1, Hsent. rewrite Hq in Hqueue; simpl in Hqueue.
  split; [exact Hsent |]. split; [exact Hqueue |].
  unfold Queued.on_open, Queued.sendQueuedMessages, Queued.connect.
  rewrite Hc1; simpl. rewrite Hqueue.
  destruct frames as [| f rest].
  - do 2 eexists. split; [reflexivity |]. split; [| reflexivity].
    simpl. apply sentFrames_notifyConnect.
  - set (s1 := Queued.set_opened _).
    destruct (replayFrom_all_sent sendFails s1 Hok eq_refl eq_refl fuel 0)
      as (t & Hrun & Ht).
    { subst s1; simpl in *. lia. }
    rewrite Hrun. do 2 eexists. split; [reflexivity |].
    split; [| reflexivity].
    simpl. rewrite sentFrames_app, sentFrames_notifyConnect, app_nil_r, Ht.
    reflexivity.
Qed.

(* ================================================================= *)
(** * Further properties *)

(** ** Codecs *)

Lemma or_else_idem (a d : value) : (a ||| d) ||| d = a ||| d.
Proof.
  unfold or_else. destruct (truthy a) eqn:Ea.
  - now rewrite Ea.
  - now destruct (truthy d).
Qed.

Lemma get_prop_fieldOf (json : value) (k : string) :
  json <> VNull -> json <> VUndefined ->
  get_prop json k = Return (Wire.fieldOf json k).
Proof. destruct json; intros Hn Hu; try reflexivity; contradiction. Qed.

Lemma fromJson_shape (Date_convert : value -> Date) (now : Z)
    (json : value) :
  json <> VNull -> json <> VUndefined ->
  ChatMessage_fromJson Date_convert now json =
  Return
    {| id := Wire.fieldOf json "id" ||| VNum 0;
       senderId := Wire.fieldOf json "senderId" ||| VNum 0;
       receiverId := Wire.fieldOf json "receiverId" ||| VNum 0;
       message := Wire.fieldOf json "message" ||| VStr EmptyString;
       messageType := Wire.fieldOf json "messageType" ||| VStr "text";
       isRead := Wire.fieldOf json "isRead" ||| VBool false;
       createdAt :=
         new_Date Date_convert (Wire.fieldOf json "createdAt" ||| VNum now);
       senderName := Wire.fieldOf json "senderName" ||| VStr EmptyString;
       senderAvatar := Wire.fieldOf json "senderAvatar" ||| VStr EmptyString |}.
Proof.
  intros Hn Hu. unfold ChatMessage_fromJson.
  rewrite !get_prop_fieldOf by assumption. reflexivity.
Qed.

(** [ChatMessage.fromJson] throws on [null] and [undefined] and on nothing
    else: every other value is decoded, and a value that is not an object
    (a number, a string, a boolean, an array) is decoded to the message
    made of the defaults. *)
Theorem fromJson_throws_only_on_nullish (Date_convert : value -> Date)
    (now : Z) (json : value) :
  (Wire.nullish json ->
   exists what, ChatMessage_fromJson Date_convert now json =
                Throw (TypeError what)) /\
  (~ Wire.nullish json ->
   exists m, ChatMessage_fromJson Date_convert now json = Return m) /\
  (~ Wire.nullish json -> Wire.isObject json = false ->
   ChatMessage_fromJson Date_convert now json = Return (defaultMessage now)).
Proof.
  unfold Wire.nullish. split; [| split].
  - intros [-> | ->]; eexists; reflexivity.
  - intros Hn. eexists. apply fromJson_shape; intros ->; apply Hn; auto.
  - intros Hn Hobj. destruct json; try discriminate; try reflexivity;
      exfalso; apply Hn; auto.
Qed.

Lemma fromJson_throws_only_on_nullish_witness :
  (exists what, ChatMessage_fromJson (fun _ => None) 5 VNull =
                Throw (TypeError what)) /\
  ChatMessage_fromJson (fun _ => None) 5 (VStr "hello") =
    Return (defaultMessage 5).
Proof.
  destruct (fromJson_throws_only_on_nullish (fun _ => None) 5 VNull)
    as (Hthrow & _).
  destruct (fromJson_throws_only_on_nullish (fun _ => None) 5 (VStr "hello"))
    as (_ & _ & Hdef).
  split.
  - apply Hthrow. now left.
  - apply Hdef; [intros [H | H]; discriminate H | reflexivity].
Defined.

(** A decoded message is a fixed point of the codec: whatever JSON it was
    decoded from, encoding it and decoding it again gives the same
    message, provided its [createdAt] is a valid date other than the
    epoch. *)
Theorem decoded_message_roundtrip (Date_convert : value -> Date)
    (now now' : Z) (json : value) (m : ChatMessage) (t : Z) :
  ChatMessage_fromJson Date_convert now json = Return m ->
  createdAt m = Some t ->
  t <> 0 ->
  ChatMessage_fromJson Date_convert now' (ChatMessage_toJson m) = Return m.
Proof.
  intros Hdec Ht Hnz.
  assert (Hnn : json <> VNull /\ json <> VUndefined).
  { split; intros ->; discriminate Hdec. }
  destruct Hnn as [Hn Hu].
  rewrite (fromJson_shape _ _ _ Hn Hu) in Hdec. injection Hdec as <-.
  rewrite fromJson_toJson_fields. simpl in *.
  rewrite !or_else_idem, Ht. simpl.
  unfold or_else at 7. simpl.
  destruct (Z.eqb_spec t 0); [contradiction |]. reflexivity.
Qed.

Lemma decoded_message_roundtrip_witness :
  ChatMessage_fromJson (fun _ => None) 9
    (ChatMessage_toJson
       (typedMessage 7 0 3 "" "text" false 1000 "" "")) =
  Return (typedMessage 7 0 3 "" "text" false 1000 "" "").
Proof.
  apply (decoded_message_roundtrip (fun _ => None) 5 9
           (VObj [("id", VNum 7); ("receiverId", VNum 3);
                  ("createdAt", VNum 1000)])
           _ 1000); [reflexivity | reflexivity | lia].
Defined.

(** The codec of [ChatUser] loses nothing but the absence of an optional
    field: decoding an encoded user gives the user back, with an [email]
    or [avatar] that was not set replaced by the empty string. *)
Theorem user_roundtrip (i : Z) (name : string) (email avatar : option string) :
  Wire.ChatUser_fromJson (Wire.ChatUser_toJson (Wire.typedUser i name email avatar))
  = Return
      (Wire.typedUser i name
         (Some match email with Some e => e | None => EmptyString end)
         (Some match avatar with Some a => a | None => EmptyString end)).
Proof.
  unfold Wire.ChatUser_fromJson, Wire.ChatUser_toJson, Wire.typedUser; simpl.
  rewrite or_else_num_zero, or_else_str_empty.
  destruct email, avatar; simpl; rewrite ?or_else_str_empty; reflexivity.
Qed.

(** The codec of [ChatConversation]: a conversation whose
    [lastMessageTime] is not set cannot be encoded ([toJson] throws, as
    for a conversation fresh from the constructor); one whose fields are
    all set, with both timestamps nonzero, is encoded and decoded to
    itself. *)
Theorem conversation_roundtrip (Date_convert : value -> Date) (now : Z)
    (i other : Z) (name avatar last : string) (lastTime unread created : Z) :
  lastTime <> 0 -> created <> 0 ->
  let c := Wire.typedConversation i other name avatar last lastTime unread
             created in
  (exists what,
     Wire.ChatConversation_toJson (new_ChatConversation2 now (VNum i) (VStr name))
     = Throw (TypeError what)) /\
  exists json d,
    Wire.ChatConversation_toJson c = Return json /\
    Wire.ChatConversation_fromJson Date_convert now json = Return d /\
    Wire.asConversation d = Some c.
Proof.
  intros Hl Hc c. split; [eexists; reflexivity |].
  do 2 eexists. split; [reflexivity |]. split; [reflexivity |].
  unfold Wire.asConversation; simpl.
  rewrite !or_else_num_zero, !or_else_str_empty.
  unfold or_else; simpl.
  destruct (Z.eqb_spec lastTime 0); [contradiction |].
  destruct (Z.eqb_spec created 0); [contradiction |]. reflexivity.
Qed.

Lemma conversation_roundtrip_witness :
  exists json d,
    Wire.ChatConversation_toJson Sample.conv8 = Return json /\
    Wire.ChatConversation_fromJson (fun _ => None) 5 json = Return d /\
    Wire.asConversation d = Some Sample.conv8.
Proof.
  apply (conversation_roundtrip (fun _ => None) 5 80 8 "Carol" EmptyString
           "yo" 1100 1 10); lia.
Defined.

(** ** The conversation list *)

Lemma find_findIndex_nth {A} (p : A -> bool) (l : list A) (x : A) :
  find p l = Some x ->
  exists i, Chat.findIndex p l = Some i /\ nth_error l i = Some x.
Proof.
  induction l as [| y rest IH]; simpl; [discriminate |].
  destruct (p y).
  - intros H. injection H as <-. now exists 0%nat.
  - intros H. destruct (IH H) as (i & Hi & Hn).
    exists (S i). now rewrite Hi.
Qed.

Lemma find_middle {A} (p : A -> bool) (l1 l2 : list A) (c : A) :
  (forall x, In x l1 -> p x = false) -> p c = true ->
  find p (l1 ++ c :: l2) = Some c /\
  Chat.findIndex p (l1 ++ c :: l2) = Some (List.length l1) /\
  Chat.splice1 (List.length l1) (l1 ++ c :: l2) = l1 ++ l2.
Proof.
  intros Hl1 Hc. induction l1 as [| y rest IH]; simpl.
  - now rewrite Hc.
  - rewrite (Hl1 y (or_introl eq_refl)).
    destruct IH as (Hf & Hi & Hs); [intros x Hx; apply Hl1; now right |].
    now rewrite Hf, Hi, Hs.
Qed.

Lemma updateConversation_unfold (now : Z) (m : ChatMessage)
    (s : Chat.ChatManager) :
  Chat.conversationCache (Chat.updateConversationWithMessage now m s) =
  let me := Chat.currentUserId s in
  let convs := Chat.conversationCache s in
  match find (Chat.isConversationWith (Store.peerOf me m)) convs with
  | None => Store.created now me m :: convs
  | Some c =>
      match Chat.findIndex (Chat.isConversationWith (Store.peerOf me m)) convs with
      | Some index => Chat.touch me m c :: Chat.splice1 index convs
      | None => convs
      end
  end.
Proof. reflexivity. Qed.

(** [updateConversationWithMessage] moves the conversation it finds to the
    front: the first conversation with the peer comes first, updated, and
    the others follow in the order they had. *)
Theorem conversation_moves_to_front (now : Z) (m : ChatMessage)
    (s : Chat.ChatManager) (l1 l2 : list ChatConversation)
    (c : ChatConversation) :
  let peer := Store.peerOf (Chat.currentUserId s) m in
  Chat.conversationCache s = l1 ++ c :: l2 ->
  (forall x, In x l1 -> Chat.isConversationWith peer x = false) ->
  Chat.isConversationWith peer c = true ->
  Chat.conversationCache (Chat.updateConversationWithMessage now m s) =
  Chat.touch (Chat.currentUserId s) m c :: l1 ++ l2.
Proof.
  intros peer Hs Hl1 Hc. rewrite updateConversation_unfold. cbv zeta.
  fold peer. rewrite Hs.
  destruct (find_middle _ l1 l2 c Hl1 Hc) as (Hf & Hi & Hsp).
  now rewrite Hf, Hi, Hsp.
Qed.

Lemma conversation_moves_to_front_witness :
  Chat.conversationCache
    (Chat.updateConversationWithMessage 2000 Sample.msg7 Sample.busyStore) =
  [Chat.touch 1 Sample.msg7 (Chat.setUnreadCount 3 Sample.conv7);
   Sample.conv8].
Proof.
  apply (conversation_moves_to_front 2000 Sample.msg7 Sample.busyStore
           [Sample.conv8] [] (Chat.setUnreadCount 3 Sample.conv7)).
  - reflexivity.
  - intros x [<- | []]. reflexivity.
  - reflexivity.
Defined.

Lemma sum_splice (l : list ChatConversation) (i : nat)
    (c : ChatConversation) :
  nth_error l i = Some c ->
  fold_right (fun c acc => unreadCount c + acc) 0 l =
  unreadCount c +
  fold_right (fun c acc => unreadCount c + acc) 0 (Chat.splice1 i l).
Proof.
  revert i. induction l as [| y rest IH]; intros [| i] H; simpl in *;
    try discriminate.
  - now injection H as ->.
  - rewrite (IH i H). lia.
Qed.

Lemma totalUnread_update (now : Z) (m : ChatMessage) (s : Chat.ChatManager) :
  Store.totalUnread (Chat.updateConversationWithMessage now m s) =
  Store.totalUnread s +
  (if Store.isOwn (Chat.currentUserId s) m then 0 else 1).
Proof.
  unfold Store.totalUnread. rewrite updateConversation_unfold. cbv zeta.
  destruct (find _ (Chat.conversationCache s)) as [c |] eqn:Hf.
  - destruct (find_findIndex_nth _ _ _ Hf) as (i & Hi & Hn).
    rewrite Hi. simpl. rewrite (sum_splice _ i c Hn).
    unfold Store.isOwn. destruct (senderId m === _); lia.
  - simpl. unfold Store.isOwn. destruct (senderId m === _); lia.
Qed.

Lemma currentUserId_handleNewMessage (now : Z) (m : ChatMessage)
    (s : Chat.ChatManager) :
  Chat.currentUserId (fst (Chat.handleNewMessage now m s)) =
  Chat.currentUserId s.
Proof. reflexivity. Qed.

(** The sum of the unread counts grows by one with every ingested message
    that is not the user's own, whether its conversation existed or was
    created, and by nothing with the user's own messages. *)
Theorem total_unread_counts_inbound (now : Z) (ms : list ChatMessage) :
  forall s : Chat.ChatManager,
  Store.totalUnread (fst (Chat.handleOfflineMessages now ms s)) =
  Store.totalUnread s +
  Z.of_nat (List.length
              (filter (fun m => negb (Store.isOwn (Chat.currentUserId s) m)) ms)).
Proof.
  induction ms as [| m rest IH]; intros s.
  - simpl. lia.
  - rewrite fst_handleOfflineMessages_cons, IH.
    rewrite currentUserId_handleNewMessage.
    change (Store.totalUnread (fst (Chat.handleNewMessage now m s)))
      with (Store.totalUnread
              (Chat.updateConversationWithMessage now m
                 (Chat.addMessageToCache (senderId m) m s))).
    rewrite totalUnread_update. simpl Chat.currentUserId.
    change (Store.totalUnread (Chat.addMessageToCache (senderId m) m s))
      with (Store.totalUnread s).
    simpl filter. destruct (Store.isOwn (Chat.currentUserId s) m); simpl;
      lia.
Qed.

Lemma created_not_found (now me p : Z) (m : ChatMessage) :
  senderId m = VNum p -> p <> me ->
  (forall n, senderName m <> VNum n) ->
  Chat.isConversationWith (VNum p) (Store.created now me m) = false.
Proof.
  intros Hm Hp Hname.
  unfold Chat.isConversationWith, Store.created; simpl.
  destruct ((senderName m ||| Chat.unknownUser) === VNum p) eqn:E;
    [| reflexivity].
  apply strict_eq_true in E. unfold or_else in E.
  destruct (truthy (senderName m)); [now apply Hname in E | discriminate E].
Qed.

Lemma peerOf_inbound (me p : Z) (m : ChatMessage) :
  senderId m = VNum p -> p <> me -> Store.peerOf me m = VNum p.
Proof.
  intros Hm Hp. unfold Store.peerOf. rewrite Hm, strict_eq_num.
  destruct (Z.eqb_spec p me); [contradiction | reflexivity].
Qed.

(** A conversation that [updateConversationWithMessage] creates is not
    found again: its [otherUserId] holds the sender's name.  So, in a
    store without a conversation with peer [p], every message of [p]
    adds a conversation, and none of them is the conversation with
    [p]. *)
Theorem every_message_opens_a_conversation (now p : Z)
    (ms : list ChatMessage) :
  Forall (fun m => senderId m = VNum p /\ forall n, senderName m <> VNum n) ms ->
  forall s : Chat.ChatManager,
  p <> Chat.currentUserId s ->
  Chat.conversationOf (VNum p) s = None ->
  let s1 := fst (Chat.handleOfflineMessages now ms s) in
  Chat.conversationOf (VNum p) s1 = None /\
  List.length (Chat.conversationCache s1) =
    (List.length (Chat.conversationCache s) + List.length ms)%nat.
Proof.
  induction 1 as [| m rest [Hm Hname] _ IH]; intros s Hp Hnone; cbv zeta.
  - simpl. split; [exact Hnone | lia].
  - rewrite fst_handleOfflineMessages_cons.
    set (s1 := fst (Chat.handleNewMessage now m s)).
    assert (Hconvs : Chat.conversationCache s1 =
                     Store.created now (Chat.currentUserId s) m
                     :: Chat.conversationCache s).
    { subst s1. unfold Chat.handleNewMessage; simpl fst.
      rewrite updateConversation_unfold. cbv zeta. simpl Chat.currentUserId.
      rewrite (peerOf_inbound _ p m Hm Hp).
      change (Chat.conversationCache (Chat.addMessageToCache (senderId m) m s))
        with (Chat.conversationCache s).
      unfold Chat.conversationOf in Hnone. now rewrite Hnone. }
    destruct (IH s1) as (Hnone1 & Hlen1).
    + exact Hp.
    + unfold Chat.conversationOf. rewrite Hconvs. simpl.
      rewrite (created_not_found now _ p m Hm Hp Hname). exact Hnone.
    + split; [exact Hnone1 |].
      rewrite Hlen1, Hconvs. simpl. lia.
Qed.

Lemma every_message_opens_a_conversation_witness :
  let s1 := fst (Chat.handleOfflineMessages 2000 Sample.batch7
                   Sample.emptyStore) in
  Chat.conversationOf (VNum 7) s1 = None /\
  List.length (Chat.conversationCache s1) = 3%nat.
Proof.
  apply (every_message_opens_a_conversation 2000 7 Sample.batch7).
  - repeat constructor; intros n H; discriminate H.
  - simpl. lia.
  - reflexivity.
Defined.

(** ** The message cache *)

Lemma same_value_zero_sym (a b : value) :
  same_value_zero a b = same_value_zero b a.
Proof.
  destruct a, b; simpl; try reflexivity.
  - now destruct b, b0.
  - apply Z.eqb_sym.
  - apply String.eqb_sym.
Qed.

Lemma map_set_set {V} (k : value) (v1 v2 : V) (m : Chat.JsMap V) :
  same_value_zero k k = true ->
  Chat.map_set k v2 (Chat.map_set k v1 m) = Chat.map_set k v2 m.
Proof.
  intros Hk. induction m as [| [k0 v0] rest IH]; simpl.
  - now rewrite Hk.
  - destruct (same_value_zero k0 k) eqn:E; simpl; rewrite E;
      [reflexivity | now rewrite IH].
Qed.

Lemma markIfUnreadFrom_idem (k : value) (m : ChatMessage) :
  Chat.markIfUnreadFrom k (Chat.markIfUnreadFrom k m) =
  Chat.markIfUnreadFrom k m.
Proof.
  unfold Chat.markIfUnreadFrom.
  destruct ((senderId m === k) && negb (truthy (isRead m))) eqn:E; simpl.
  - now rewrite andb_false_r.
  - now rewrite E.
Qed.

Lemma setFirstUnread_idem (k : value) (n : Z) (l : list ChatConversation) :
  Chat.setFirstUnread k n (Chat.setFirstUnread k n l) =
  Chat.setFirstUnread k n l.
Proof.
  induction l as [| c rest IH]; simpl; [reflexivity |].
  destruct (Chat.isConversationWith k c) eqn:E; simpl.
  - unfold Chat.isConversationWith in *; simpl. now rewrite E.
  - now rewrite E, IH.
Qed.

Lemma forEachMessageOf_idem (k : value) (f : ChatMessage -> ChatMessage)
    (s : Chat.ChatManager) :
  same_value_zero k k = true ->
  (forall m, f (f m) = f m) ->
  Chat.forEachMessageOf k f (Chat.forEachMessageOf k f s) =
  Chat.forEachMessageOf k f s.
Proof.
  intros Hk Hf. unfold Chat.forEachMessageOf.
  destruct (Chat.map_get k (Chat.messageCache s)) as [l |] eqn:E; simpl.
  - rewrite map_get_set_same by exact Hk. simpl.
    rewrite map_set_set by exact Hk.
    rewrite map_map. f_equal. f_equal. apply map_ext. exact Hf.
  - now rewrite E.
Qed.

(** [markAsRead] is idempotent on the store: a second call for the same
    peer changes nothing. *)
Theorem markAsRead_idempotent (p : Z) (s : Chat.ChatManager) :
  fst (Chat.markAsRead p (fst (Chat.markAsRead p s))) =
  fst (Chat.markAsRead p s).
Proof.
  unfold Chat.markAsRead; simpl.
  set (f := Chat.markIfUnreadFrom (VNum p)).
  assert (Hswap : forall s0,
    Chat.forEachMessageOf (VNum p) f
      (Chat.updateConversationUnreadCount (VNum p) 0 s0) =
    Chat.updateConversationUnreadCount (VNum p) 0
      (Chat.forEachMessageOf (VNum p) f s0)).
  { intros s0. unfold Chat.forEachMessageOf,
      Chat.updateConversationUnreadCount; simpl.
    now destruct (Chat.map_get (VNum p) (Chat.messageCache s0)). }
  rewrite Hswap.
  rewrite forEachMessageOf_idem
    by (try apply same_value_zero_num; intros m; apply markIfUnreadFrom_idem).
  unfold Chat.updateConversationUnreadCount; simpl.
  now rewrite setFirstUnread_idem.
Qed.

(** What [sendMessage] stores.  The message it caches under the receiver
    and returns carries the receiver as its sender, the text as its
    receiver and no body, so that [isFromMe] holds of it only when the
    user writes to himself; the conversation list is left as it is; the
    frame handed to the socket manager has the four fields in their
    places. *)
Theorem sendMessage_local_message (now receiver : Z) (text : string)
    (s : Chat.ChatManager) :
  let sent := Chat.sendMessage now receiver text s in
  let s1 := fst (fst sent) in
  let local := snd sent in
  Chat.messagesOf (VNum receiver) s1 =
    Chat.messagesOf (VNum receiver) s ++ [local] /\
  Chat.conversationCache s1 = Chat.conversationCache s /\
  isFromMe local (VNum (Chat.currentUserId s)) =
    (receiver =? Chat.currentUserId s) /\
  senderId local = VNum receiver /\
  receiverId local = VStr text /\
  message local = VUndefined /\
  snd (fst sent) =
    [Chat.LocalSaveMessage local;
     Chat.WsSendPrivateMessage
       {| rq_senderId := VNum (Chat.currentUserId s);
          rq_receiverId := VNum receiver;
          rq_message := VStr text;
          rq_messageType := VStr "text" |}].
Proof.
  cbv zeta. unfold Chat.sendMessage; simpl.
  split; [| repeat split].
  apply messagesOf_addMessageToCache_same, same_value_zero_num.
Qed.

Lemma fst_handleOfflineMessages_fold (now : Z) (ms : list ChatMessage) :
  forall s : Chat.ChatManager,
  fst (Chat.handleOfflineMessages now ms s) =
  fold_left (fun acc x => Store.addAndUpdate now x acc) ms s.
Proof.
  induction ms as [| m rest IH]; intros s; [reflexivity |].
  rewrite fst_handleOfflineMessages_cons, IH. reflexivity.
Qed.

(** Fetching the offline messages over HTTP ingests them exactly as the
    socket's [offline_messages] batch does, and acknowledges their ids in
    order; when the request throws, fails, or brings no message, the
    store is left as it is and nothing is acknowledged. *)
Theorem fetchOfflineMessages_ingests_like_batch (now : Z)
    (response : completion (Store.ApiResponse (list ChatMessage)))
    (s : Chat.ChatManager) :
  let r := Store.fetchOfflineMessages now response s in
  (forall ms, response = Return (Store.mkApiResponse true (Some ms)) ->
     fst r = fst (Chat.handleOfflineMessages now ms s) /\
     (ms <> [] ->
      snd r = [Store.ApiGetOfflineMessages (Chat.currentUserId s);
               Store.LocalSaveMessages ms;
               Store.ApiMarkOfflineMessagesAsRead (Chat.currentUserId s)
                 (map id ms)])) /\
  ((forall ms, ms <> [] ->
      response <> Return (Store.mkApiResponse true (Some ms))) ->
   fst r = s /\
   forall u ids, ~ In (Store.ApiMarkOfflineMessagesAsRead u ids) (snd r)).
Proof.
  cbv zeta. split.
  - intros ms ->. rewrite fst_handleOfflineMessages_fold.
    destruct ms as [| m rest]; simpl; split; try reflexivity.
    intros H. now contradiction H.
  - intros Hnot. unfold Store.fetchOfflineMessages.
    destruct response as [[ok [ms |]] | e];
      [destruct ok; [destruct ms as [| m rest] |] | destruct ok |]; simpl;
      try (split; [reflexivity |];
           intros u ids Hin; decompose [or] Hin; try discriminate;
           contradiction).
    exfalso. now apply (Hnot (m :: rest)).
Qed.

Lemma fetchOfflineMessages_ingests_like_batch_witness :
  fst (Store.fetchOfflineMessages 2000
         (Return (Store.mkApiResponse true (Some Sample.batch7)))
         Sample.store7) =
  fst (Chat.handleOfflineMessages 2000 Sample.batch7 Sample.store7) /\
  fst (Store.fetchOfflineMessages 2000
         (Return (Store.mkApiResponse false None)) Sample.store7) =
  Sample.store7.
Proof.
  split.
  - apply (fetchOfflineMessages_ingests_like_batch 2000
             (Return (Store.mkApiResponse true (Some Sample.batch7)))
             Sample.store7).
    reflexivity.
  - apply (fetchOfflineMessages_ingests_like_batch 2000
             (Return (Store.mkApiResponse false None)) Sample.store7).
    intros ms _ H. discriminate H.
Defined.

(** [getMessages] reads the local storage only while the cache has no
    message for the peer: once a call has returned a non-empty list, the
    next call returns the same list whatever the storage holds by then,
    without asking it; while the list is empty, every call asks again. *)
Theorem getMessages_caches (p : Z) (stored1 stored2 : list ChatMessage)
    (s : Chat.ChatManager) :
  let r1 := Store.getMessages (VNum p) stored1 s in
  let r2 := Store.getMessages (VNum p) stored2 (fst (fst r1)) in
  (snd r1 <> [] ->
   snd r2 = snd r1 /\ snd (fst r2) = [] /\ fst (fst r2) = fst (fst r1)) /\
  (snd r1 = [] ->
   snd r2 = stored2 /\
   snd (fst r2) = [Store.LocalGetMessagesWithUser (VNum p)]).
Proof.
  cbv zeta. unfold Store.getMessages.
  destruct (Chat.messagesOf (VNum p) s) as [| m rest] eqn:E; simpl.
  - assert (Hget : forall l c,
              Chat.messagesOf (VNum p)
                {| Chat.currentUserId := c;
                   Chat.messageCache :=
                     Chat.map_set (VNum p) l (Chat.messageCache s);
                   Chat.conversationCache := Chat.conversationCache s |} = l).
    { intros l c. unfold Chat.messagesOf; simpl.
      now rewrite map_get_set_same by apply same_value_zero_num. }
    rewrite Hget.
    destruct stored1 as [| m1 rest1]; simpl; split; intros H;
      try (now contradiction H); try discriminate H; repeat split.
  - rewrite E. split; intros H; [repeat split | discriminate H].
Qed.

Lemma getMessages_caches_witness :
  let r1 := Store.getMessages (VNum 7) Sample.batch7 Sample.store7 in
  let r2 := Store.getMessages (VNum 7) [] (fst (fst r1)) in
  snd r2 = Sample.batch7 /\ snd (fst r2) = [].
Proof.
  cbv zeta.
  destruct (getMessages_caches 7 Sample.batch7 [] Sample.store7)
    as (Hkept & _).
  destruct Hkept as (Hsame & Hquiet & _); [discriminate |].
  split; [exact Hsame | exact Hquiet].
Defined.

(** ** The index of the message cache *)

Lemma indexed_map_set (k : value) (v : list ChatMessage)
    (c : Chat.JsMap (list ChatMessage)) :
  Store.indexed c ->
  Forall (fun m => senderId m = k) v ->
  Store.indexed (Chat.map_set k v c).
Proof.
  intros Hc Hv. induction c as [| [k0 l0] rest IH]; simpl.
  - repeat split; assumption.
  - destruct Hc as (Hl0 & Hnone & Hrest).
    destruct (same_value_zero k0 k) eqn:E; simpl.
    + apply same_value_zero_true in E. subst k0. repeat split; assumption.
    + repeat split; [exact Hl0 | | now apply IH].
      rewrite map_get_set_other; [exact Hnone |].
      now rewrite same_value_zero_sym.
Qed.

Lemma indexed_get (k : value) (l : list ChatMessage)
    (c : Chat.JsMap (list ChatMessage)) :
  Store.indexed c -> Chat.map_get k c = Some l ->
  Forall (fun m => senderId m = k) l.
Proof.
  induction c as [| [k0 l0] rest IH]; simpl; [discriminate |].
  intros (Hl0 & _ & Hrest).
  destruct (same_value_zero k0 k) eqn:E; [| now apply IH].
  apply same_value_zero_true in E. subst k0. intros H. now injection H as <-.
Qed.

Lemma indexed_addMessageToCache (m : ChatMessage) (s : Chat.ChatManager) :
  Store.indexed (Chat.messageCache s) ->
  Store.indexed (Chat.messageCache (Chat.addMessageToCache (senderId m) m s)).
Proof.
  intros Hs. unfold Chat.addMessageToCache, Chat.messagesOf; simpl.
  apply indexed_map_set; [exact Hs |].
  apply Forall_app. split; [| now constructor].
  destruct (Chat.map_get (senderId m) (Chat.messageCache s)) eqn:E;
    [now apply (indexed_get _ _ _ Hs) | constructor].
Qed.

Lemma indexed_forEach (k : value) (f : ChatMessage -> ChatMessage)
    (s : Chat.ChatManager) :
  (forall m, senderId (f m) = senderId m) ->
  Store.indexed (Chat.messageCache s) ->
  Store.indexed (Chat.messageCache (Chat.forEachMessageOf k f s)).
Proof.
  intros Hf Hs. unfold Chat.forEachMessageOf.
  destruct (Chat.map_get k (Chat.messageCache s)) as [l |] eqn:E;
    [| exact Hs].
  simpl. apply indexed_map_set; [exact Hs |].
  apply Forall_map. eapply Forall_impl; [| apply (indexed_get _ _ _ Hs E)].
  intros m Hm. now rewrite Hf.
Qed.

Lemma indexed_addAndUpdate (now : Z) (ms : list ChatMessage) :
  forall s : Chat.ChatManager,
  Store.indexed (Chat.messageCache s) ->
  Store.indexed
    (Chat.messageCache
       (fold_left (fun acc x => Store.addAndUpdate now x acc) ms s)).
Proof.
  induction ms as [| m rest IH]; intros s Hs; [exact Hs |].
  simpl. apply IH. unfold Store.addAndUpdate.
  change (Chat.messageCache
            (Chat.updateConversationWithMessage now m
               (Chat.addMessageToCache (senderId m) m s)))
    with (Chat.messageCache (Chat.addMessageToCache (senderId m) m s)).
  now apply indexed_addMessageToCache.
Qed.

Lemma indexed_apply (o : Store.op) (s : Chat.ChatManager) :
  Store.indexed (Chat.messageCache s) ->
  Store.indexed (Chat.messageCache (Store.apply o s)).
Proof.
  intros Hs. destruct o; simpl Store.apply.
  - apply (indexed_addAndUpdate now [m] s Hs).
  - rewrite fst_handleOfflineMessages_fold. now apply indexed_addAndUpdate.
  - unfold Store.fetchOfflineMessages.
    destruct response as [[ok [ms |]] | e];
      [destruct ok; [destruct ms as [| m rest] |] | destruct ok |];
      try exact Hs.
    apply (indexed_addAndUpdate now (m :: rest) s Hs).
  - unfold Chat.sendMessage; simpl.
    apply indexed_map_set; [exact Hs |].
    apply Forall_app. split; [| now repeat constructor].
    unfold Chat.messagesOf.
    destruct (Chat.map_get (VNum receiver) (Chat.messageCache s)) eqn:E;
      [now apply (indexed_get _ _ _ Hs) | constructor].
  - unfold Chat.markAsRead; simpl.
    apply indexed_forEach; [| exact Hs].
    intros m. unfold Chat.markIfUnreadFrom.
    now destruct (_ && _).
  - unfold Chat.handleMessageRead; simpl.
    apply indexed_forEach; [| exact Hs].
    intros m. unfold Chat.markIfFrom. now destruct (_ === _).
  - exact Hs.
Qed.

(** The message cache stays indexed by sender.  From the empty cache, and
    from any cache indexed by sender, whatever is ingested, fetched, sent,
    marked or acknowledged, every list holds messages whose [senderId] is
    the key of the list (the messages the user sends included, which are
    stored with the receiver as their sender), and no key occurs twice. *)
Theorem cache_stays_indexed (ops : list Store.op) :
  forall s : Chat.ChatManager,
  Store.indexed (Chat.messageCache s) ->
  Store.indexed (Chat.messageCache (Store.applyAll ops s)).
Proof.
  induction ops as [| o rest IH]; intros s Hs; [exact Hs |].
  simpl. apply IH. now apply indexed_apply.
Qed.

Lemma cache_stays_indexed_witness :
  Store.indexed
    (Chat.messageCache
       (Store.applyAll
          [Store.Ingest 2000 Sample.msg7;
           Store.Send 2100 7 "hello";
           Store.IngestBatch 2200 Sample.batch7;
           Store.MarkAsRead 7;
           Store.Ingest 2300 Sample.confirmed42]
          Sample.emptyStore)).
Proof. apply cache_stays_indexed. exact I. Defined.

Lemma indexed_all_in_list (p : Z) (c : Chat.JsMap (list ChatMessage))
    (m : ChatMessage) :
  Store.indexed c ->
  In m (flat_map snd c) -> senderId m = VNum p ->
  exists l, Chat.map_get (VNum p) c = Some l /\ In m l.
Proof.
  induction c as [| [k0 l0] rest IH]; simpl; [contradiction |].
  intros (Hl0 & Hnone & Hrest) Hin Hm.
  apply in_app_or in Hin. destruct Hin as [Hin | Hin].
  - assert (Hk : k0 = VNum p).
    { rewrite Forall_forall in Hl0. now rewrite <- (Hl0 m Hin). }
    subst k0. rewrite same_value_zero_num. now exists l0.
  - destruct (IH Hrest Hin Hm) as (l & Hl & Hml).
    destruct (same_value_zero k0 (VNum p)) eqn:E.
    + apply same_value_zero_true in E. subst k0. congruence.
    + now exists l.
Qed.

Lemma filter_nothing {A} (p : A -> bool) (l : list A) :
  (forall x, In x l -> p x = false) -> filter p l = [].
Proof.
  induction l as [| y rest IH]; intros H; simpl; [reflexivity |].
  rewrite (H y (or_introl eq_refl)). apply IH. intros x Hx. apply H. now right.
Qed.

(** In a store whose cache is indexed by sender, as every store built by
    the manager is, [markAsRead(p)] leaves no unread message of [p]
    anywhere, and the conversation found for [p], if any, has
    [unreadCount] 0: the count and the messages agree again. *)
Theorem markAsRead_clears_unread (p : Z) (s : Chat.ChatManager) :
  Store.indexed (Chat.messageCache s) ->
  let s1 := fst (Chat.markAsRead p s) in
  Chat.unreadFrom (VNum p) s1 = 0 /\
  forall c, Chat.conversationOf (VNum p) s1 = Some c ->
            unreadCount c = Chat.unreadFrom (VNum p) s1.
Proof.
  intros Hs s1.
  assert (Hidx : Store.indexed (Chat.messageCache s1))
    by apply (indexed_apply (Store.MarkAsRead p) s Hs).
  assert (Hzero : Chat.unreadFrom (VNum p) s1 = 0).
  { unfold Chat.unreadFrom.
    replace (filter (Chat.isUnreadFrom (VNum p)) (Chat.allMessages s1))
      with (@nil ChatMessage); [reflexivity |].
    symmetry. apply filter_nothing. intros m Hin.
    unfold Chat.isUnreadFrom.
    destruct (senderId m === VNum p) eqn:E; [| reflexivity]. simpl.
    apply strict_eq_true in E.
    destruct (indexed_all_in_list p _ m Hidx Hin E) as (l & Hl & Hml).
    assert (Hrows : Chat.messagesOf (VNum p) s1 =
                    map (Chat.markIfUnreadFrom (VNum p))
                      (Chat.messagesOf (VNum p) s)).
    { subst s1. unfold Chat.markAsRead; simpl.
      change (Chat.messagesOf (VNum p)
                (Chat.updateConversationUnreadCount (VNum p) 0
                   (Chat.forEachMessageOf (VNum p)
                      (Chat.markIfUnreadFrom (VNum p)) s)))
        with (Chat.messagesOf (VNum p)
                (Chat.forEachMessageOf (VNum p)
                   (Chat.markIfUnreadFrom (VNum p)) s)).
      apply messagesOf_forEach_same, same_value_zero_num. }
    unfold Chat.messagesOf at 1 in Hrows. rewrite Hl in Hrows.
    rewrite Hrows in Hml. apply in_map_iff in Hml.
    destruct Hml as (m0 & <- & _).
    rewrite markIfUnreadFrom_read; [reflexivity |].
    rewrite E. simpl. apply Z.eqb_refl. }
  split; [exact Hzero |].
  intros c Hc. rewrite Hzero.
  subst s1. unfold Chat.markAsRead in Hc; simpl in Hc.
  unfold Chat.conversationOf, Chat.updateConversationUnreadCount in Hc;
    simpl in Hc.
  rewrite find_setFirstUnread in Hc.
  destruct (find _ _); simpl in Hc; [| discriminate].
  now injection Hc as <-.
Qed.

Lemma markAsRead_clears_unread_witness :
  Chat.unreadFrom (VNum 7) Sample.busyStore = 3 /\
  Chat.unreadFrom (VNum 7) (fst (Chat.markAsRead 7 Sample.busyStore)) = 0.
Proof.
  split; [reflexivity |].
  apply (markAsRead_clears_unread 7 Sample.busyStore).
  simpl. repeat split; repeat constructor.
Defined.

(** ** Runs of the socket manager *)

Lemma timersArmed_app (t1 t2 : list Ws.effect) :
  Socket.timersArmed (t1 ++ t2) =
  Socket.timersArmed t1 + Socket.timersArmed t2.
Proof.
  unfold Socket.timersArmed. rewrite filter_app, length_app. lia.
Qed.

Lemma counts_ret {A} (a : A) : Socket.counts (Ws.ret a).
Proof.
  intros s. unfold Socket.timersArmed, Ws.stateOf, Ws.traceOf; simpl.
  repeat split; lia.
Qed.

Lemma counts_throw {A} (e : error) : Socket.counts (@Ws.throw A e).
Proof.
  intros s. unfold Socket.timersArmed, Ws.stateOf, Ws.traceOf; simpl.
  repeat split; lia.
Qed.

Lemma counts_lift {A} (c : completion A) : Socket.counts (Ws.lift c).
Proof.
  intros s. unfold Socket.timersArmed, Ws.stateOf, Ws.traceOf; simpl.
  repeat split; lia.
Qed.

Lemma counts_read : Socket.counts Ws.read.
Proof.
  intros s. unfold Socket.timersArmed, Ws.stateOf, Ws.traceOf; simpl.
  repeat split; lia.
Qed.

Lemma counts_out (e : Ws.effect) :
  Ws.isSetTimeout e = false -> Socket.counts (Ws.out e).
Proof.
  intros He s. unfold Socket.timersArmed, Ws.stateOf, Ws.traceOf; simpl.
  rewrite He; simpl. repeat split; lia.
Qed.

Lemma counts_write (f : Ws.WebSocketManager -> Ws.WebSocketManager) :
  (forall s, Ws.maxReconnectAttempts (f s) = Ws.maxReconnectAttempts s /\
             Ws.reconnectDelay (f s) = Ws.reconnectDelay s /\
             Ws.reconnectAttempts (f s) = Ws.reconnectAttempts s) ->
  Socket.counts (Ws.write f).
Proof.
  intros Hf s. destruct (Hf s) as (Hm & Hd & Ha).
  unfold Socket.timersArmed, Ws.stateOf, Ws.traceOf; simpl.
  repeat split; lia.
Qed.

Lemma counts_bind {A B} (c : Ws.M A) (k : A -> Ws.M B) :
  Socket.counts c -> (forall a, Socket.counts (k a)) ->
  Socket.counts (Ws.bindM c k).
Proof.
  intros Hc Hk s. unfold Ws.bindM.
  destruct (Hc s) as (Hm & Hd & Ha & Hb).
  destruct (c s) as [[[a | e] s1] t1]; unfold Ws.stateOf, Ws.traceOf in *;
    simpl in *; [| now repeat split].
  destruct (Hk a s1) as (Hm2 & Hd2 & Ha2 & Hb2).
  destruct (k a s1) as [[r2 s2] t2]; unfold Ws.stateOf, Ws.traceOf in *;
    simpl in *.
  rewrite timersArmed_app. repeat split; try lia.
Qed.

Lemma counts_try_catch {A} (c : Ws.M A) (h : error -> Ws.M A) :
  Socket.counts c -> (forall e, Socket.counts (h e)) ->
  Socket.counts (Ws.try_catch c h).
Proof.
  intros Hc Hh s. unfold Ws.try_catch.
  destruct (Hc s) as (Hm & Hd & Ha & Hb).
  destruct (c s) as [[[a | e] s1] t1]; unfold Ws.stateOf, Ws.traceOf in *;
    simpl in *; [now repeat split |].
  destruct (Hh e s1) as (Hm2 & Hd2 & Ha2 & Hb2).
  destruct (h e s1) as [[r2 s2] t2]; unfold Ws.stateOf, Ws.traceOf in *;
    simpl in *.
  rewrite timersArmed_app. repeat split; try lia.
Qed.

Lemma counts_forEachFrom {C} (call : nat -> C -> Ws.effect)
    (args : completion C) (ls : list (C -> option error)) (i : nat) :
  (forall j c, Ws.isSetTimeout (call j c) = false) ->
  Socket.counts (Ws.forEachFrom call i ls args).
Proof.
  intros Hcall s.
  destruct (forEachFrom_frame call args ls i s) as [Hs Ht].
  rewrite Hs.
  assert (Hnone : Socket.timersArmed
                    (Ws.traceOf (Ws.forEachFrom call i ls args s)) = 0).
  { unfold Socket.timersArmed.
    rewrite filter_nothing; [reflexivity |].
    intros e He. rewrite Forall_forall in Ht.
    destruct (Ht e He) as (j & c & ->). apply Hcall. }
  rewrite Hnone. repeat split; lia.
Qed.

Lemma counts_scheduleReconnect : Socket.counts Ws.scheduleReconnect.
Proof.
  intros s.
  unfold Ws.scheduleReconnect, Ws.bindM, Ws.read, Ws.write, Ws.out, Ws.ret,
    Socket.timersArmed, Ws.stateOf, Ws.traceOf; simpl.
  destruct (Z.geb_spec (Ws.reconnectAttempts s) (Ws.maxReconnectAttempts s));
    simpl; [repeat split; lia |].
  destruct (Ws.reconnectTimer s); simpl; repeat split; lia.
Qed.

Lemma benign_counts {A} (c : Ws.M A) : Ws.benign c -> Socket.counts c.
Proof.
  intros Hc s. destruct (Hc s) as [Hs Ht]. rewrite Hs.
  assert (Hnone : Socket.timersArmed (Ws.traceOf (c s)) = 0).
  { unfold Socket.timersArmed. rewrite filter_nothing; [reflexivity |].
    intros e He. rewrite Forall_forall in Ht. specialize (Ht e He).
    now destruct e. }
  rewrite Hnone. repeat split; lia.
Qed.

Ltac counts_step :=
  first
    [ apply counts_ret | apply counts_throw | apply counts_lift
    | apply counts_read | apply counts_scheduleReconnect
    | apply counts_out; reflexivity
    | apply counts_write; intros; repeat split; reflexivity
    | apply counts_forEachFrom; reflexivity
    | apply counts_bind; [| intros ?]
    | apply counts_try_catch; [| intros ?]
    | match goal with
      | |- Socket.counts (if ?c then _ else _) => destruct c
      | |- Socket.counts (match ?x with _ => _ end) => destruct x
      end ].

Lemma counts_notify (event : string) (error : value) :
  Socket.counts (Ws.notifyConnectionListeners event error).
Proof. unfold Ws.notifyConnectionListeners. repeat counts_step. Qed.

Lemma counts_connect_catch (message : value) :
  Socket.counts (Ws.connect_catch message).
Proof.
  unfold Ws.connect_catch.
  repeat first [apply counts_notify | counts_step].
Qed.

Lemma counts_handler (JSON_parse : string -> completion value)
    (Date_convert : value -> Date) (ev : Socket.event) :
  Socket.isOpen ev = false ->
  Socket.counts (Socket.handlerOf JSON_parse Date_convert ev).
Proof.
  destruct ev; simpl; intros Hev; try discriminate.
  - unfold Ws.on_close. repeat first [apply counts_notify | counts_step].
  - unfold Ws.on_error. repeat first [apply counts_notify | counts_step].
  - apply benign_counts, benign_handleMessage.
  - unfold Ws.on_timer, Ws.connect.
    repeat first [apply counts_connect_catch | counts_step].
  - apply counts_connect_catch.
  - unfold Ws.connect.
    repeat first [apply counts_connect_catch | counts_step].
  - unfold Ws.disconnect. repeat first [apply counts_notify | counts_step].
  - unfold Socket.destroy, Ws.disconnect.
    repeat first [apply counts_notify | counts_step].
  - unfold Ws.emit. repeat counts_step.
Qed.

Lemma runEvents_cons (JSON_parse : string -> completion value)
    (Date_convert : value -> Date) (ev : Socket.event)
    (evs : list Socket.event) (s : Ws.WebSocketManager) :
  Socket.runEvents JSON_parse Date_convert (ev :: evs) s =
  let r := Socket.handlerOf JSON_parse Date_convert ev s in
  let rest := Socket.runEvents JSON_parse Date_convert evs (Ws.stateOf r) in
  (fst rest, Ws.traceOf r ++ snd rest).
Proof.
  unfold Socket.runEvents; simpl.
  destruct (Socket.handlerOf JSON_parse Date_convert ev s) as [[r s1] t1].
  unfold Ws.stateOf, Ws.traceOf; simpl.
  now destruct (Ws.run _ s1).
Qed.

(** Reconnection is bounded.  In every run of events and calls in which
    the socket does not open (closes, errors, frames, timers, rejected
    attempts, [connect], [disconnect], [destroy], [emit], whatever the
    listeners do), the counter rises by one for each timer armed and never
    passes the maximum: from a counter at [a] at most
    [maxReconnectAttempts - a] reconnections are scheduled.  The settings
    are never changed. *)
Theorem reconnection_is_bounded (JSON_parse : string -> completion value)
    (Date_convert : value -> Date) (evs : list Socket.event) :
  forall s : Ws.WebSocketManager,
  forallb (fun ev => negb (Socket.isOpen ev)) evs = true ->
  Ws.reconnectAttempts s <= Ws.maxReconnectAttempts s ->
  let r := Socket.runEvents JSON_parse Date_convert evs s in
  Ws.reconnectAttempts (fst r) =
    Ws.reconnectAttempts s + Socket.timersArmed (snd r) /\
  Socket.timersArmed (snd r) <=
    Ws.maxReconnectAttempts s - Ws.reconnectAttempts s /\
  Ws.maxReconnectAttempts (fst r) = Ws.maxReconnectAttempts s /\
  Ws.reconnectDelay (fst r) = Ws.reconnectDelay s.
Proof.
  induction evs as [| ev rest IH]; intros s Hevs Hle; cbv zeta.
  - unfold Socket.timersArmed; simpl. repeat split; lia.
  - simpl in Hevs. apply andb_true_iff in Hevs. destruct Hevs as [Hev Hrest].
    apply negb_true_iff in Hev.
    rewrite runEvents_cons. cbv zeta. simpl fst; simpl snd.
    destruct (counts_handler JSON_parse Date_convert ev Hev s)
      as (Hm & Hd & Ha & Hb).
    set (s1 := Ws.stateOf (Socket.handlerOf JSON_parse Date_convert ev s))
      in *.
    destruct (IH s1 Hrest) as (Ha2 & Hb2 & Hm2 & Hd2); [lia |].
    rewrite timersArmed_app. repeat split; lia.
Qed.

Lemma reconnection_is_bounded_witness :
  let evs :=
    [Socket.EvClose; Socket.EvTimer Ws.Pending; Socket.EvError VUndefined;
     Socket.EvClose; Socket.CallEmit "register" (VNum 1) None;
     Socket.EvTimer (Ws.CreateThrows (VStr "no network"));
     Socket.EvConnectRejected VUndefined; Socket.EvClose; Socket.EvClose;
     Socket.EvError VUndefined] in
  Socket.timersArmed
    (snd (Socket.runEvents Sample.parseOne (fun _ => None) evs
            Sample.connected)) <= 5.
Proof.
  cbv zeta.
  match goal with
  | |- Socket.timersArmed (snd (Socket.runEvents _ _ ?evs _)) <= _ =>
      destruct (reconnection_is_bounded Sample.parseOne (fun _ => None) evs
                  Sample.connected) as (_ & Hbound & _)
  end.
  - reflexivity.
  - simpl. lia.
  - exact Hbound.
Defined.

(** ** Listeners that are gone *)















Lemma notify_frame (event : string) (error : value)
    (s : Ws.WebSocketManager) :
  Ws.stateOf (Ws.notifyConnectionListeners event error s) = s /\
  filter Socket.isSocketOrTimer
    (Ws.traceOf (Ws.notifyConnectionListeners event error s)) = [].
Proof.
  unfold Ws.notifyConnectionListeners, Ws.bindM, Ws.read.
  assert (Hcalls : forall c,
    Ws.stateOf (Ws.forEachFrom Ws.ConnCall 0 (Ws.connectionListeners s) c s)
      = s /\
    filter Socket.isSocketOrTimer
      (Ws.traceOf
         (Ws.forEachFrom Ws.ConnCall 0 (Ws.connectionListeners s) c s)) = []).
  { intros c.
    destruct (forEachFrom_frame Ws.ConnCall c (Ws.connectionListeners s) 0 s)
      as [Hs Ht].
    split; [exact Hs |]. apply filter_nothing. intros e He.
    rewrite Forall_forall in Ht. now destruct (Ht e He) as (j & x & ->). }
  repeat match goal with
         | |- context [if ?c then _ else _] => destruct c
         end;
    try (match goal with
         | |- context [Ws.forEachFrom Ws.ConnCall 0 _ ?c s] =>
             destruct (Hcalls c) as [Hs Ht];
             destruct (Ws.forEachFrom Ws.ConnCall 0 (Ws.connectionListeners s)
                         c s) as [[r s1] t]
         end;
         unfold Ws.stateOf, Ws.traceOf in *; simpl in *; now split);
    now split.
Qed.

Lemma disconnect_state (s : Ws.WebSocketManager) :
  Ws.stateOf (Ws.disconnect s) =
  Ws.set_status Ws.DISCONNECTED
    (Ws.set_webSocket None (Ws.set_reconnectTimer None s)).
Proof.
  unfold Ws.disconnect, Ws.bindM, Ws.read, Ws.write, Ws.out, Ws.ret.
  destruct s as [sock u st cl ml timer a mx d].
  destruct timer, sock; simpl;
    match goal with
    | |- context [Ws.notifyConnectionListeners ?e ?x ?s0] =>
        destruct (notify_frame e x s0) as [Hs _];
        destruct (Ws.notifyConnectionListeners e x s0) as [[r s1] tr]
    end;
    unfold Ws.stateOf in *; simpl in *; subst s1; reflexivity.
Qed.



(** ** Disconnecting and connecting *)

Lemma disconnect_trace (s : Ws.WebSocketManager) :
  filter Socket.isSocketOrTimer (Ws.traceOf (Ws.disconnect s)) =
  match Ws.reconnectTimer s with
  | Some t => [Ws.ClearTimeout t]
  | None => []
  end
  ++ match Ws.webSocket s with
     | Some _ => [Ws.SocketClose]
     | None => []
     end.
Proof.
  unfold Ws.disconnect, Ws.bindM, Ws.read, Ws.write, Ws.out, Ws.ret.
  destruct s as [sock u st cl ml timer a mx d].
  destruct timer, sock; simpl;
    match goal with
    | |- context [Ws.notifyConnectionListeners ?e ?x ?s0] =>
        destruct (notify_frame e x s0) as [_ Ht];
        destruct (Ws.notifyConnectionListeners e x s0) as [[r s1] tr]
    end;
    unfold Ws.traceOf in *; simpl in *; rewrite ?Ht; reflexivity.
Qed.

(** [disconnect()] is idempotent: it cancels the timer, closes and drops
    the socket and sets the status to [DISCONNECTED]; a second call finds
    nothing to cancel or close and leaves the manager as the first left
    it.  It does not touch the counter of failed attempts. *)
Theorem disconnect_idempotent (s : Ws.WebSocketManager) :
  let s1 := Ws.stateOf (Ws.disconnect s) in
  Ws.status s1 = Ws.DISCONNECTED /\
  Ws.webSocket s1 = None /\
  Ws.reconnectTimer s1 = None /\
  Ws.reconnectAttempts s1 = Ws.reconnectAttempts s /\
  Ws.stateOf (Ws.disconnect s1) = s1 /\
  filter Socket.isSocketOrTimer (Ws.traceOf (Ws.disconnect s1)) = [].
Proof.
  cbv zeta. rewrite disconnect_trace, !disconnect_state. simpl.
  repeat split.
Qed.

Lemma on_timer_starts (s : Ws.WebSocketManager) :
  Ws.status s = Ws.DISCONNECTED \/ Ws.status s = Ws.ERROR ->
  Ws.on_timer Ws.Pending s =
  (Return tt,
   Ws.set_webSocket (Some tt)
     (Ws.set_status Ws.CONNECTING (Ws.set_url (Ws.url s) s)),
   [Ws.SocketCreate; Ws.SocketConnect (Ws.url s)]).
Proof.
  intros Hs.
  unfold Ws.on_timer, Ws.connect, Ws.bindM, Ws.read, Ws.write, Ws.out; simpl.
  destruct Hs as [-> | ->]; reflexivity.
Qed.

(** An explicit [disconnect()] does not end reconnection.  When the close
    event of the socket it closed is delivered, the handler arms the
    reconnection timer like after any close, and the timer starts a new
    connection: the manager is [CONNECTING] again, with a new socket. *)
Theorem disconnect_is_followed_by_reconnection (s : Ws.WebSocketManager) :
  Ws.quiet (Ws.connectionListeners s) ->
  Ws.reconnectAttempts s < Ws.maxReconnectAttempts s ->
  let r := Ws.run [Ws.disconnect; Ws.on_close; Ws.on_timer Ws.Pending] s in
  Ws.status (fst r) = Ws.CONNECTING /\
  Ws.webSocket (fst r) = Some tt /\
  Ws.reconnectAttempts (fst r) = Ws.reconnectAttempts s + 1 /\
  In (Ws.SetTimeout (Ws.reconnectDelay s * (Ws.reconnectAttempts s + 1)))
     (snd r) /\
  In Ws.SocketCreate (snd r).
Proof.
  intros Hq Hlt. cbv zeta.
  change [Ws.disconnect; Ws.on_close; Ws.on_timer Ws.Pending]
    with ([Ws.disconnect] ++ [Ws.on_close] ++ [Ws.on_timer Ws.Pending]).
  rewrite !run_app, !run_single. cbn [fst snd].
  rewrite disconnect_state.
  set (s1 := Ws.set_status Ws.DISCONNECTED
               (Ws.set_webSocket None (Ws.set_reconnectTimer None s))).
  assert (Hclose := fail_schedules s1 Hq Ws.SocketClosed Hlt).
  simpl Ws.fail in Hclose. rewrite Hclose.
  unfold Ws.stateOf at 1 2 3 4 5. unfold Ws.traceOf at 2 3. cbn [fst snd].
  set (s2 := Ws.set_reconnectTimer _ _).
  rewrite (on_timer_starts s2) by (now left).
  unfold Ws.stateOf, Ws.traceOf; cbn [fst snd].
  split; [reflexivity |]. split; [reflexivity |]. split; [reflexivity |].
  split.
  - apply in_or_app. right. apply in_or_app. left.
    right. apply in_or_app. right. apply in_or_app. right.
    right. left. reflexivity.
  - apply in_or_app. right. apply in_or_app. right. left. reflexivity.
Qed.

Lemma disconnect_is_followed_by_reconnection_witness :
  Ws.status
    (fst (Ws.run [Ws.disconnect; Ws.on_close; Ws.on_timer Ws.Pending]
            Sample.connected)) = Ws.CONNECTING.
Proof.
  apply (disconnect_is_followed_by_reconnection Sample.connected).
  - intros l c [<- | []]. reflexivity.
  - simpl. lia.
Defined.

(** [connect] while an attempt is under way or the socket is open does
    nothing but log: no socket is created, and the url it was given is
    dropped.  So of two calls in a row, only the first creates a
    socket. *)
Theorem connect_twice_creates_one_socket (s : Ws.WebSocketManager)
    (url1 url2 : string) (o : Ws.connect_outcome) :
  Ws.status s = Ws.DISCONNECTED \/ Ws.status s = Ws.ERROR ->
  let r := Ws.run [Ws.connect url1 Ws.Pending; Ws.connect url2 o] s in
  filter Socket.isSocketCreate (snd r) = [Ws.SocketCreate] /\
  Ws.url (fst r) = url1 /\
  Ws.status (fst r) = Ws.CONNECTING /\
  Ws.stateOf (Ws.connect url2 o (fst r)) = fst r.
Proof.
  intros Hs. cbv zeta.
  unfold Ws.run, Ws.connect, Ws.bindM, Ws.read, Ws.write, Ws.out,
    Ws.stateOf; simpl.
  destruct Hs as [-> | ->]; simpl; repeat split.
Qed.

Lemma connect_twice_creates_one_socket_witness :
  Ws.url
    (fst (Ws.run [Ws.connect "ws://a" Ws.Pending;
                  Ws.connect "ws://b" Ws.Pending] Sample.listening))
  = "ws://a".
Proof.
  apply (connect_twice_creates_one_socket Sample.listening "ws://a" "ws://b"
           Ws.Pending).
  now left.
Defined.

(** ** Sending while connected *)

Lemma emit_rejected (s : Ws.WebSocketManager) (event : string)
    (data : value) (e : error) :
  Ws.status s = Ws.CONNECTED -> Ws.webSocket s <> None ->
  Ws.emit event data (Some e) s =
  (Throw e, s, [Ws.ConsoleError "WebSocket消息发送失败:"]).
Proof.
  intros Hs Hw. unfold Ws.emit, Ws.bindM, Ws.read, Ws.out, Ws.try_catch,
    Ws.throw; simpl.
  rewrite Hs. destruct (Ws.webSocket s); [reflexivity | contradiction].
Qed.

Lemma run_emitFrames (s : Ws.WebSocketManager)
    (frames : list (string * value * option error)) :
  Ws.status s = Ws.CONNECTED -> Ws.webSocket s <> None ->
  Ws.run (map Socket.emitFrame frames) s =
  (s,
   flat_map
     (fun f =>
        match snd f with
        | None => [Ws.SocketSend (fst (fst f)) (snd (fst f));
                   Ws.ConsoleLog "WebSocket消息发送成功:"]
        | Some _ => [Ws.ConsoleError "WebSocket消息发送失败:"]
        end)
     frames).
Proof.
  intros Hs Hw. induction frames as [| [[name data] o] rest IH];
    [reflexivity |].
  cbn [map Ws.run flat_map].
  change (Socket.emitFrame (name, data, o) s) with (Ws.emit name data o s).
  destruct o as [e |]; cbn [fst snd].
  - rewrite emit_rejected by assumption. now rewrite IH.
  - rewrite emit_connected by assumption. now rewrite IH.
Qed.

(** While the status is [CONNECTED], the frames the socket accepts reach
    it in the order of the calls, one per call and nothing else; a frame
    whose send is rejected is not sent, the error is thrown to the caller
    of [emit], and the frames after it are sent all the same.  The
    manager is left as it was. *)
Theorem connected_frames_in_order (s : Ws.WebSocketManager)
    (frames : list (string * value * option error)) :
  Ws.status s = Ws.CONNECTED -> Ws.webSocket s <> None ->
  let r := Ws.run (map Socket.emitFrame frames) s in
  fst r = s /\
  Queued.sentFrames (snd r) = map fst (filter Socket.accepted frames) /\
  (forall name data e,
     Ws.completionOf (Ws.emit name data (Some e) s) = Throw e).
Proof.
  intros Hs Hw. cbv zeta.
  rewrite (run_emitFrames s frames Hs Hw). cbn [fst snd].
  split; [reflexivity |]. split.
  - induction frames as [| [[name data] [e |]] rest IH]; simpl;
      [reflexivity | exact IH | now rewrite IH].
  - intros name data e. now rewrite emit_rejected.
Qed.

Lemma connected_frames_in_order_witness :
  Queued.sentFrames
    (snd (Ws.run
            (map Socket.emitFrame
               [("register", VNum 1, None);
                ("mark_as_read", VNull, Some (ExternalError "closed"));
                ("get_online_status", VArr [VNum 7; VNum 8], None)])
            Sample.connected))
  = [("register", VNum 1); ("get_online_status", VArr [VNum 7; VNum 8])].
Proof.
  apply (connected_frames_in_order Sample.connected
           [("register", VNum 1, None);
            ("mark_as_read", VNull, Some (ExternalError "closed"));
            ("get_online_status", VArr [VNum 7; VNum 8], None)]).
  - reflexivity.
  - discriminate.
Defined.

(** ** Listeners that throw *)

Lemma forEachFrom_throws {C} (call : nat -> C -> Ws.effect) (c : C)
    (l1 l2 : list (C -> option error)) (t : C -> option error) (e : error) :
  (forall l, In l l1 -> l c = None) -> t c = Some e ->
  forall (i : nat) (s : Ws.WebSocketManager),
  Ws.forEachFrom call i (l1 ++ t :: l2) (Return c) s =
  (Throw e, s, Ws.callsFrom call i (l1 ++ [t]) c).
Proof.
  intros Hq Ht. induction l1 as [| l rest IH]; intros i s; simpl;
    unfold Ws.bindM, Ws.lift, Ws.out; simpl.
  - now rewrite Ht.
  - rewrite (Hq l (or_introl eq_refl)).
    rewrite IH by (intros l' Hl'; apply Hq; now right). reflexivity.
Qed.

Lemma callsFrom_are_msg_calls {C} (call : nat -> C -> Ws.effect) (c : C)
    (ls : list (C -> option error)) (i : nat) :
  (forall j x, Ws.isCall (call j x) = true) ->
  filter Ws.isCall (Ws.callsFrom call i ls c) = Ws.callsFrom call i ls c.
Proof.
  intros Hcall. revert i.
  induction ls as [| l rest IH]; intros i; simpl; [reflexivity |].
  now rewrite Hcall, IH.
Qed.

(** A connection listener that throws from its callback stops the failure
    handler: the listeners registered after it are not told, no
    reconnection timer is armed and the counter is not raised, although
    the status has been written; the error goes to the platform. *)
Theorem throwing_listener_stops_reconnection (s : Ws.WebSocketManager)
    (f : Ws.failure) (l1 l2 : list Ws.connection_listener)
    (t : Ws.connection_listener) (e : error) :
  Ws.connectionListeners s = l1 ++ t :: l2 ->
  (forall l, In l l1 -> l (Ws.noticeOf f) = None) ->
  t (Ws.noticeOf f) = Some e ->
  let r := Ws.fail f s in
  Ws.completionOf r = Throw e /\
  Ws.stateOf r = Ws.set_status (Ws.statusAfter f) s /\
  filter Ws.isSetTimeout (Ws.traceOf r) = [] /\
  filter Ws.isCall (Ws.traceOf r) =
    Ws.callsFrom Ws.ConnCall 0 (l1 ++ [t]) (Ws.noticeOf f).
Proof.
  intros Hls Hq Ht. cbv zeta.
  assert (Hrun : Ws.fail f s =
    (Throw e, Ws.set_status (Ws.statusAfter f) s,
     Ws.firstLineOf f
     :: Ws.callsFrom Ws.ConnCall 0 (l1 ++ [t]) (Ws.noticeOf f))).
  { destruct f; simpl in *;
      unfold Ws.on_close, Ws.on_error, Ws.connect_catch,
        Ws.notifyConnectionListeners, Ws.bindM, Ws.read, Ws.write, Ws.out;
      simpl; rewrite Hls;
      rewrite (forEachFrom_throws Ws.ConnCall _ l1 l2 t e Hq Ht);
      reflexivity. }
  rewrite Hrun. unfold Ws.completionOf, Ws.stateOf, Ws.traceOf; simpl.
  assert (Hfirst : Ws.isSetTimeout (Ws.firstLineOf f) = false
                   /\ Ws.isCall (Ws.firstLineOf f) = false)
    by (now destruct f).
  destruct Hfirst as [-> ->].
  rewrite callsFrom_no_timeout by reflexivity.
  rewrite callsFrom_are_msg_calls by reflexivity.
  repeat split.
Qed.

Lemma throwing_listener_stops_reconnection_witness :
  let s := Socket.set_connectionListeners
             [Sample.quietListener; Sample.throwingListener;
              Sample.quietListener] Sample.connected in
  filter Ws.isSetTimeout (Ws.traceOf (Ws.on_close s)) = [] /\
  filter Ws.isCall (Ws.traceOf (Ws.on_close s)) =
    [Ws.ConnCall 0 Ws.OnDisconnected; Ws.ConnCall 1 Ws.OnDisconnected].
Proof.
  cbv zeta.
  destruct (throwing_listener_stops_reconnection
              (Socket.set_connectionListeners
                 [Sample.quietListener; Sample.throwingListener;
                  Sample.quietListener] Sample.connected)
              Ws.SocketClosed [Sample.quietListener] [Sample.quietListener]
              Sample.throwingListener (ExternalError "listener"))
    as (_ & _ & Htimer & Hcalls).
  - reflexivity.
  - intros l [<- | []]. reflexivity.
  - reflexivity.
  - split; [exact Htimer | exact Hcalls].
Defined.

(** A message listener that throws from [onMessageReceived] keeps the
    message from the listeners registered after it; [handleMessage] logs
    an error and returns to its caller as usual. *)
Theorem throwing_listener_starves_later_listeners
    (JSON_parse : string -> completion value) (Date_convert : value -> Date)
    (now : Z) (data : string) (s : Ws.WebSocketManager) (msg d : value)
    (m : ChatMessage) (l1 l2 : list Ws.message_listener)
    (t : Ws.message_listener) (e : error) :
  JSON_parse data = Return msg ->
  get_prop msg "event" = Return (VStr "receive_private_message") ->
  get_prop msg "data" = Return d ->
  ChatMessage_fromJson Date_convert now d = Return m ->
  Ws.messageListeners s = l1 ++ t :: l2 ->
  (forall l, In l l1 -> l (Ws.OnMessageReceived m) = None) ->
  t (Ws.OnMessageReceived m) = Some e ->
  Ws.handleMessage JSON_parse Date_convert now data s =
  (Return tt, s,
   Ws.ConsoleLog "收到WebSocket消息:"
   :: Ws.callsFrom Ws.MsgCall 0 (l1 ++ [t]) (Ws.OnMessageReceived m)
   ++ [Ws.ConsoleError "解析WebSocket消息失败:"]).
Proof.
  intros Hparse Hevent Hdata Hm Hls Hq Ht.
  unfold Ws.handleMessage, Ws.try_catch, Ws.bindM, Ws.lift, Ws.out.
  rewrite Hparse; cbn [fst snd app]. rewrite Hevent; cbn [fst snd app].
  simpl. rewrite Hdata.
  unfold Ws.handlePrivateMessage, Ws.forEachMessageListener, Ws.bindM,
    Ws.lift, Ws.read.
  rewrite Hm, Hls.
  rewrite (forEachFrom_throws Ws.MsgCall _ l1 l2 t e Hq Ht).
  reflexivity.
Qed.

Lemma throwing_listener_starves_later_listeners_witness :
  let s := Socket.set_messageListeners
             [Sample.throwingListener; Sample.quietListener]
             Sample.connected in
  filter Ws.isCall
    (Ws.traceOf (Ws.handleMessage Sample.parseOne (fun _ => None) 5
                   Sample.frameWithoutFields s)) =
  [Ws.MsgCall 0 (Ws.OnMessageReceived (defaultMessage 5))].
Proof.
  cbv zeta.
  rewrite (throwing_listener_starves_later_listeners Sample.parseOne
             (fun _ => None) 5 Sample.frameWithoutFields
             (Socket.set_messageListeners
                [Sample.throwingListener; Sample.quietListener]
                Sample.connected)
             (VObj [("event", VStr "receive_private_message");
                    ("data", VObj [])])
             (VObj []) (defaultMessage 5) [] [Sample.quietListener]
             Sample.throwingListener (ExternalError "listener"));
    try reflexivity.
  intros l [].
Defined.

(** ** Offline batches *)

Lemma map_m_all (Date_convert : value -> Date) (now : Z)
    (items : list value) :
  Forall (fun j => ~ Wire.nullish j) items ->
  exists decoded,
    map_m (ChatMessage_fromJson Date_convert now) items = Return decoded /\
    List.length decoded = List.length items /\
    Forall2 (fun j m => ChatMessage_fromJson Date_convert now j = Return m)
      items decoded.
Proof.
  induction 1 as [| j rest Hj _ (decoded & Hd & Hlen & Hall)].
  - exists []. repeat split. constructor.
  - assert (Hdec : exists m,
              ChatMessage_fromJson Date_convert now j = Return m).
    { eexists. apply fromJson_shape; intros ->; apply Hj;
        [now left | now right]. }
    destruct Hdec as (m & Hm).
    exists (m :: decoded). simpl. rewrite Hm; simpl. rewrite Hd; simpl.
    repeat split; [now rewrite Hlen | now constructor].
Qed.

Lemma map_m_one_null (Date_convert : value -> Date) (now : Z)
    (items : list value) :
  Exists Wire.nullish items ->
  exists e, map_m (ChatMessage_fromJson Date_convert now) items = Throw e.
Proof.
  induction 1 as [j rest [-> | ->] | j rest _ (e & He)]; simpl.
  - eexists. reflexivity.
  - eexists. reflexivity.
  - destruct (ChatMessage_fromJson Date_convert now j); simpl;
      [rewrite He; simpl |]; eexists; reflexivity.
Qed.

(** An [offline_messages] frame is all or nothing.  When none of its
    entries is null, every listener is called once, in registration
    order, with the whole batch decoded entry by entry, in order.  When
    one entry is null, no listener is called and the other entries are
    lost with it. *)
Theorem offline_batch_all_or_nothing
    (JSON_parse : string -> completion value) (Date_convert : value -> Date)
    (now : Z) (data : string) (s : Ws.WebSocketManager) (msg d : value)
    (items : list value) :
  JSON_parse data = Return msg ->
  get_prop msg "event" = Return (VStr "offline_messages") ->
  get_prop msg "data" = Return d ->
  get_prop d "messages" = Return (VArr items) ->
  let r := Ws.handleMessage JSON_parse Date_convert now data s in
  (Exists Wire.nullish items -> filter Ws.isCall (Ws.traceOf r) = []) /\
  (Forall (fun j => ~ Wire.nullish j) items ->
   Ws.quiet (Ws.messageListeners s) ->
   exists decoded,
     List.length decoded = List.length items /\
     Forall2 (fun j m => ChatMessage_fromJson Date_convert now j = Return m)
       items decoded /\
     filter Ws.isCall (Ws.traceOf r) =
       Ws.callsFrom Ws.MsgCall 0 (Ws.messageListeners s)
         (Ws.OnOfflineMessagesReceived decoded)).
Proof.
  intros Hparse Hevent Hdata Hmessages. cbv zeta.
  unfold Ws.handleMessage, Ws.try_catch, Ws.bindM, Ws.lift, Ws.out.
  rewrite Hparse; cbn [fst snd app]. rewrite Hevent; cbn [fst snd app].
  simpl. rewrite Hdata.
  unfold Ws.handleOfflineMessages, Ws.bindM, Ws.lift.
  rewrite Hmessages. split.
  - intros Hnull.
    destruct (map_m_one_null Date_convert now items Hnull) as (e & He).
    rewrite He. reflexivity.
  - intros Hall Hq.
    destruct (map_m_all Date_convert now items Hall)
      as (decoded & Hd & Hlen & Heach).
    exists decoded. split; [exact Hlen |]. split; [exact Heach |].
    rewrite Hd. unfold Ws.forEachMessageListener, Ws.bindM, Ws.read.
    rewrite forEachFrom_quiet by (intros l Hl; now apply Hq).
    unfold Ws.traceOf; simpl.
    now apply callsFrom_are_msg_calls.
Qed.

Lemma offline_batch_all_or_nothing_witness :
  let envelope items :=
    VObj [("event", VStr "offline_messages");
          ("data", VObj [("messages", VArr items)])] in
  filter Ws.isCall
    (Ws.traceOf
       (Ws.handleMessage
          (fun _ => Return (envelope [ChatMessage_toJson Sample.msg7; VNull]))
          (fun _ => None) 5 "frame" Sample.connected)) = [] /\
  exists decoded,
    filter Ws.isCall
      (Ws.traceOf
         (Ws.handleMessage
            (fun _ => Return (envelope (map ChatMessage_toJson Sample.batch7)))
            (fun _ => None) 5 "frame" Sample.connected)) =
    [Ws.MsgCall 0 (Ws.OnOfflineMessagesReceived decoded)] /\
    List.length decoded = 3%nat.
Proof.
  cbv zeta. split.
  - eapply (offline_batch_all_or_nothing _ (fun _ => None) 5 "frame"
              Sample.connected); try reflexivity.
    right. left. now left.
  - edestruct (offline_batch_all_or_nothing
                 (fun _ => Return
                    (VObj [("event", VStr "offline_messages");
                           ("data",
                            VObj [("messages",
                                   VArr (map ChatMessage_toJson
                                           Sample.batch7))])]))
                 (fun _ => None) 5 "frame" Sample.connected)
      as (_ & Hall); try reflexivity.
    destruct Hall as (decoded & Hlen & _ & Hcalls).
    + repeat constructor; intros [H | H]; discriminate H.
    + intros l c [<- | []]. reflexivity.
    + exists decoded. split; [exact Hcalls | exact Hlen].
Defined.

(** ** The manager that queues *)

Lemma queued_frames_are_replayed_in_order_witness :
  let frames := [("register", VNum 1); ("mark_as_read", VNum 2)] in
  exists s2 t,
    Queued.on_open 3 (fun _ => None)
      (Queued.connect (fst (Queued.emitAll frames Queued.initial)))
    = Some (s2, t) /\
    Queued.sentFrames t = frames /\
    Queued.messageQueue s2 = [].
Proof.
  cbv zeta.
  destruct (queued_frames_are_replayed_in_order Queued.initial
              [("register", VNum 1); ("mark_as_read", VNum 2)]
              (fun _ => None) 3)
    as (_ & _ & Hreplay); try reflexivity.
  - simpl. lia.
  - exact Hreplay.
Defined.

Lemma queued_emit_cases (event : string) (data : value)
    (sendFails : option error) (s : Queued.WebSocketManager) :
  let r := Queued.emit event data sendFails s in
  Queued.isConnected (fst r) = Queued.isConnected s /\
  Queued.ws (fst r) = Queued.ws s /\
  ((Queued.messageQueue (fst r) = Queued.messageQueue s /\
    Queued.sentFrames (snd r) = [(event, data)] /\
    sendFails = None /\
    Queued.isConnected s = true /\ Queued.ws s <> None)
   \/
   (Queued.messageQueue (fst r) = Queued.messageQueue s ++ [(event, data)] /\
    Queued.sentFrames (snd r) = [] /\
    (sendFails <> None \/ Queued.isConnected s = false
     \/ Queued.ws s = None))).
Proof.
  unfold Queued.emit.
  destruct (Queued.isConnected s) eqn:Hc, (Queued.ws s) as [u |] eqn:Hw,
    sendFails as [e |]; simpl; rewrite ?Hc, ?Hw;
    repeat split; auto;
    try (left; repeat split; auto; discriminate);
    try (right; repeat split; auto; left; discriminate).
Qed.

Lemma replayFrom_ended (sendFails : nat -> option error) (fuel : nat) :
  forall (i : nat) (s s2 : Queued.WebSocketManager) (t : list Ws.effect),
  Queued.replayFrom fuel i sendFails s = Some (s2, t) ->
  Queued.messageQueue s2 = [] /\
  forall f, In f (skipn i (Queued.messageQueue s)) ->
            In f (Queued.sentFrames t).
Proof.
  induction fuel as [| fuel IH]; intros i s s2 t H; simpl in H;
    [discriminate |].
  destruct (nth_error (Queued.messageQueue s) i) as [[event data] |] eqn:Hi.
  - pose proof (queued_emit_cases event data (sendFails i) s) as Hemit.
    destruct (Queued.emit event data (sendFails i) s) as [s1 t1].
    cbn [fst snd] in Hemit.
    destruct (Queued.replayFrom fuel (S i) sendFails s1)
      as [[s2' t2] |] eqn:Hrest; [| discriminate].
    injection H as <- <-.
    destruct (IH _ _ _ _ Hrest) as [Hq Hin]. split; [exact Hq |].
    intros f Hf. rewrite sentFrames_app. apply in_or_app.
    rewrite (skipn_nth_error _ _ _ Hi) in Hf.
    assert (Hlen : (i < List.length (Queued.messageQueue s))%nat)
      by (apply nth_error_Some; now rewrite Hi).
    destruct Hemit as (_ & _ & [(Hsame & Hsent & _) | (Hpush & _)]).
    + destruct Hf as [<- | Hf].
      * left. rewrite Hsent. now left.
      * right. apply Hin. now rewrite Hsame.
    + right. apply Hin. rewrite Hpush, skipn_app. apply in_or_app.
      destruct Hf as [<- | Hf]; [right | now left].
      replace (S i - List.length (Queued.messageQueue s))%nat with 0%nat
        by lia.
      now left.
  - injection H as <- <-. split; [reflexivity |].
    intros f Hf. apply nth_error_None in Hi.
    rewrite skipn_all2 in Hf by exact Hi. destruct Hf.
Qed.

Lemma replayFrom_ends (sendFails : nat -> option error) (n fuel : nat) :
  (forall k, (n <= k)%nat -> sendFails k = None) ->
  forall (i : nat) (s : Queued.WebSocketManager),
  Queued.isConnected s = true -> Queued.ws s <> None ->
  ((List.length (Queued.messageQueue s) - i) + (n - i) < fuel)%nat ->
  exists s2 t, Queued.replayFrom fuel i sendFails s = Some (s2, t).
Proof.
  intros Hlate. induction fuel as [| fuel IH]; intros i s Hc Hw Hfuel;
    [lia |].
  simpl.
  destruct (nth_error (Queued.messageQueue s) i) as [[event data] |] eqn:Hi;
    [| do 2 eexists; reflexivity].
  assert (Hlen : (i < List.length (Queued.messageQueue s))%nat)
    by (apply nth_error_Some; now rewrite Hi).
  pose proof (queued_emit_cases event data (sendFails i) s) as Hemit.
  destruct (Queued.emit event data (sendFails i) s) as [s1 t1].
  cbn [fst snd] in Hemit. destruct Hemit as (Hc1 & Hw1 & Hcases).
  destruct (IH (S i) s1) as (s2 & t2 & Hrest).
  - now rewrite Hc1.
  - now rewrite Hw1.
  - destruct Hcases as [(Hsame & _) | (Hpush & _ & [Hfail | [Hd | Hd]])].
    + rewrite Hsame. lia.
    + assert (i < n)%nat.
      { destruct (Nat.lt_ge_cases i n) as [Hlt | Hge]; [exact Hlt |].
        now rewrite (Hlate i Hge) in Hfail. }
      rewrite Hpush, length_app. simpl. lia.
    + congruence.
    + congruence.
  - rewrite Hrest. do 2 eexists. reflexivity.
Qed.

(** A frame whose send is rejected during the replay goes back on the
    queue and is sent again later in the same replay.  Once sends stop
    being rejected the replay ends: every frame that was queued has then
    been handed to the socket and the queue is empty. *)
Theorem replay_retries_rejected_frames (s : Queued.WebSocketManager)
    (sendFails : nat -> option error) (n fuel : nat) :
  Queued.isConnected s = true -> Queued.ws s <> None ->
  (forall k, (n <= k)%nat -> sendFails k = None) ->
  (List.length (Queued.messageQueue s) + n < fuel)%nat ->
  exists s2 t,
    Queued.sendQueuedMessages fuel sendFails s = Some (s2, t) /\
    Queued.messageQueue s2 = [] /\
    forall f, In f (Queued.messageQueue s) -> In f (Queued.sentFrames t).
Proof.
  intros Hc Hw Hlate Hfuel. unfold Queued.sendQueuedMessages.
  destruct (Queued.messageQueue s) as [| f0 rest] eqn:Hq.
  - do 2 eexists. split; [reflexivity |]. split; [exact Hq |].
    intros f [].
  - destruct (replayFrom_ends sendFails n fuel Hlate 0 s Hc Hw)
      as (s2 & t & Hrun); [rewrite Hq in *; simpl in *; lia |].
    rewrite Hrun. exists s2, (Ws.ConsoleLog "发送队列中的消息" :: t).
    split; [reflexivity |].
    destruct (replayFrom_ended sendFails fuel 0 s s2 t Hrun) as [Hempty Hin].
    split; [exact Hempty |].
    intros f Hf. simpl. apply Hin. simpl. now rewrite Hq.
Qed.

Lemma replay_retries_rejected_frames_witness :
  let s := Queued.set_opened
             (Queued.connect
                (fst (Queued.emitAll
                        [("register", VNum 1); ("mark_as_read", VNum 2)]
                        Queued.initial))) in
  let rejectFirst := fun k => match k with
                              | O => Some (ExternalError "send")
                              | _ => None
                              end in
  exists s2 t,
    Queued.sendQueuedMessages 4 rejectFirst s = Some (s2, t) /\
    Queued.messageQueue s2 = [] /\
    In ("register", VNum 1) (Queued.sentFrames t).
Proof.
  cbv zeta.
  destruct (replay_retries_rejected_frames
              (Queued.set_opened
                 (Queued.connect
                    (fst (Queued.emitAll
                            [("register", VNum 1); ("mark_as_read", VNum 2)]
                            Queued.initial))))
              (fun k => match k with
                        | O => Some (ExternalError "send")
                        | _ => None
                        end) 1 4)
    as (s2 & t & Hrun & Hempty & Hin).
  - reflexivity.
  - discriminate.
  - intros [| k] Hk; [lia | reflexivity].
  - simpl. lia.
  - exists s2, t. split; [exact Hrun |]. split; [exact Hempty |].
    apply Hin. now left.
Defined.

Lemma replayFrom_never_ends (sendFails : nat -> option error) (fuel : nat) :
  forall (i : nat) (s : Queued.WebSocketManager),
  (Queued.isConnected s = false \/ Queued.ws s = None
   \/ forall k, sendFails k <> None) ->
  (i < List.length (Queued.messageQueue s))%nat ->
  Queued.replayFrom fuel i sendFails s = None.
Proof.
  induction fuel as [| fuel IH]; intros i s Hstuck Hi; [reflexivity |].
  simpl.
  destruct (nth_error (Queued.messageQueue s) i) as [[event data] |] eqn:Hn;
    [| apply nth_error_None in Hn; lia].
  pose proof (queued_emit_cases event data (sendFails i) s) as Hemit.
  destruct (Queued.emit event data (sendFails i) s) as [s1 t1].
  cbn [fst snd] in Hemit. destruct Hemit as (Hc1 & Hw1 & Hcases).
  rewrite (IH (S i) s1); [reflexivity | |].
  - rewrite Hc1, Hw1. exact Hstuck.
  - destruct Hcases as [(_ & _ & Hok & Hc & Hw) | (Hpush & _)].
    + destruct Hstuck as [Hd | [Hd | Hall]]; [congruence | congruence |].
      now destruct (Hall i).
    + rewrite Hpush, length_app. simpl. lia.
Qed.

(** While every send is rejected, or the manager is not connected, the
    replay of a queue that is not empty never comes to its end: each
    frame it takes is put back at the end of the queue it is walking, and
    the queue is never cleared. *)
Theorem replay_never_ends_while_sends_fail (s : Queued.WebSocketManager)
    (sendFails : nat -> option error) :
  Queued.messageQueue s <> [] ->
  (Queued.isConnected s = false \/ Queued.ws s = None
   \/ forall k, sendFails k <> None) ->
  forall fuel, Queued.sendQueuedMessages fuel sendFails s = None.
Proof.
  intros Hq Hstuck fuel. unfold Queued.sendQueuedMessages.
  destruct (Queued.messageQueue s) as [| f rest] eqn:Hqueue;
    [now destruct Hq |].
  rewrite (replayFrom_never_ends sendFails fuel 0 s Hstuck);
    [reflexivity | rewrite Hqueue; simpl; lia].
Qed.

Lemma replay_never_ends_while_sends_fail_witness :
  Queued.sendQueuedMessages 1000 (fun _ => Some (ExternalError "send"))
    (Queued.set_opened
       (Queued.connect
          (fst (Queued.emitAll [("register", VNum 1)] Queued.initial))))
  = None.
Proof.
  apply (replay_never_ends_while_sends_fail
           (Queued.set_opened
              (Queued.connect
                 (fst (Queued.emitAll [("register", VNum 1)]
                         Queued.initial))))
           (fun _ => Some (ExternalError "send"))).
  - discriminate.
  - right. right. intros k. discriminate.
Defined.

(** ** Listener registration *)

Lemma indexOf_absent (x : Socket.ref) (l : list Socket.ref) :
  ~ In x l -> Socket.indexOf x l = None.
Proof.
  induction l as [| y rest IH]; intros Hx; simpl; [reflexivity |].
  destruct (Nat.eqb_spec y x) as [-> | Hne].
  - destruct Hx. now left.
  - rewrite IH; [reflexivity |]. intros Hin. apply Hx. now right.
Qed.

Lemma removeListener_absent (x : Socket.ref) (l : list Socket.ref) :
  ~ In x l -> Socket.removeListener x l = l.
Proof.
  intros Hx. unfold Socket.removeListener. now rewrite indexOf_absent.
Qed.

Lemma indexOf_first (x : Socket.ref) (l1 l2 : list Socket.ref) :
  ~ In x l1 -> Socket.indexOf x (l1 ++ x :: l2) = Some (List.length l1).
Proof.
  induction l1 as [| y rest IH]; intros Hx; simpl.
  - now rewrite Nat.eqb_refl.
  - destruct (Nat.eqb_spec y x) as [-> | Hne].
    + destruct Hx. now left.
    + rewrite IH; [reflexivity |]. intros Hin. apply Hx. now right.
Qed.

Lemma splice1_middle {A} (l1 l2 : list A) (x : A) :
  Chat.splice1 (List.length l1) (l1 ++ x :: l2) = l1 ++ l2.
Proof.
  induction l1 as [| y rest IH]; simpl; [reflexivity | now rewrite IH].
Qed.

(** Removing a listener takes out its first registration and nothing
    else: the other listeners keep their order, and a listener that was
    added twice is still registered once. *)
Theorem removeListener_removes_first_registration (x : Socket.ref)
    (l1 l2 : list Socket.ref) :
  ~ In x l1 ->
  Socket.removeListener x (l1 ++ x :: l2) = l1 ++ l2.
Proof.
  intros Hx. unfold Socket.removeListener.
  rewrite (indexOf_first x l1 l2 Hx). apply splice1_middle.
Qed.

Lemma removeListener_removes_first_registration_witness :
  Socket.removeListener 7%nat
    (Socket.addListener 7%nat (Socket.addListener 7%nat [3%nat]))
  = [3%nat; 7%nat].
Proof.
  apply (removeListener_removes_first_registration 7%nat [3%nat] [7%nat]).
  intros [H | []]. discriminate H.
Defined.

Lemma session_step (r : Socket.registry) :
  Socket.allocated r ->
  let r1 := Socket.removeWebSocketListeners
              (Socket.setupWebSocketListeners r) in
  Socket.allocated r1 /\
  Socket.messageRefs r1 = Socket.messageRefs r ++ [Socket.next r] /\
  Socket.connectionRefs r1 = Socket.connectionRefs r ++ [S (Socket.next r)].
Proof.
  intros [Hm Hc]. cbv zeta.
  unfold Socket.removeWebSocketListeners, Socket.setupWebSocketListeners,
    Socket.addListener, Socket.allocated.
  cbn [Socket.messageRefs Socket.connectionRefs Socket.next].
  rewrite Forall_forall in Hm, Hc.
  assert (Hm1 : ~ In (S (S (Socket.next r)))
                  (Socket.messageRefs r ++ [Socket.next r])).
  { intros Hin. apply in_app_or in Hin as [Hin | [Hin | []]];
      [apply Hm in Hin |]; lia. }
  assert (Hc1 : ~ In (S (S (S (Socket.next r))))
                  (Socket.connectionRefs r ++ [S (Socket.next r)])).
  { intros Hin. apply in_app_or in Hin as [Hin | [Hin | []]];
      [apply Hc in Hin |]; lia. }
  rewrite !removeListener_absent by assumption.
  split; [| split; reflexivity].
  split; apply Forall_forall; intros y Hy;
    apply in_app_or in Hy as [Hy | [<- | []]];
    try (apply Hm in Hy); try (apply Hc in Hy); lia.
Qed.

(** [ChatManager.disconnect] removes no listener from the socket manager:
    the object it passes to the removal was never registered.  Each
    connect and disconnect of the chat manager therefore leaves one more
    message listener and one more connection listener behind, after the
    ones that were there. *)
Theorem sessions_leave_listeners_behind (r : Socket.registry) (n : nat) :
  Socket.allocated r ->
  let r' := Socket.sessions n r in
  Socket.allocated r' /\
  (exists added, Socket.messageRefs r' = Socket.messageRefs r ++ added
                 /\ List.length added = n) /\
  (exists added, Socket.connectionRefs r' = Socket.connectionRefs r ++ added
                 /\ List.length added = n).
Proof.
  revert r. induction n as [| n IH]; intros r Hr; cbv zeta; simpl.
  - split; [exact Hr |].
    split; exists []; now rewrite app_nil_r.
  - destruct (session_step r Hr) as (Hr1 & Hm1 & Hc1).
    destruct (IH _ Hr1) as (Hr' & (am & Ham & Hlm) & (ac & Hac & Hlc)).
    split; [exact Hr' |].
    split.
    + exists (Socket.next r :: am).
      rewrite Ham, Hm1, <- app_assoc. simpl. now rewrite Hlm.
    + exists (S (Socket.next r) :: ac).
      rewrite Hac, Hc1, <- app_assoc. simpl. now rewrite Hlc.
Qed.

Lemma sessions_leave_listeners_behind_witness :
  let r := Socket.sessions 3
             {| Socket.messageRefs := []; Socket.connectionRefs := [];
                Socket.next := 0%nat |} in
  exists added, Socket.messageRefs r = [] ++ added /\
                List.length added = 3%nat.
Proof.
  cbv zeta.
  destruct (sessions_leave_listeners_behind
              {| Socket.messageRefs := []; Socket.connectionRefs := [];
                 Socket.next := 0%nat |} 3)
    as (_ & Hm & _).
  - split; constructor.
  - exact Hm.
Defined.

(** ** Version comparison *)

Section VersionOrder.
Variable number : Type.
Variable Number : string -> number.
Variable zero : number.
Variable isTruthy : number -> bool.
Variable gt lt : number -> number -> bool.

Lemma compareFrom_range (turns i : nat) (p1 p2 : list number) :
  let c := Update.compareFrom number zero isTruthy gt lt turns i p1 p2 in
  c = 1 \/ c = -1 \/ c = 0.
Proof.
  cbv zeta. revert i. induction turns as [| turns IH]; intros i; simpl.
  - now right; right.
  - destruct (gt _ _); [now left |].
    destruct (lt _ _); [now right; left | apply IH].
Qed.

(** [isForceUpdateRequired] answers false for every pair of versions,
    whatever the platform's numbers are: it asks whether the comparison
    is below -1, and [compareVersions] only returns 1, -1 or 0. *)
Theorem isForceUpdateRequired_never (currentVersion newVersion : string) :
  Update.isForceUpdateRequired number Number zero isTruthy gt lt
    currentVersion newVersion = false.
Proof.
  unfold Update.isForceUpdateRequired, Update.compareVersions. cbv zeta.
  apply Z.ltb_ge.
  match goal with
  | |- _ <= Update.compareFrom _ _ _ _ _ ?n ?i ?p1 ?p2 =>
      destruct (compareFrom_range n i p1 p2) as [H | [H | H]]
  end; cbv zeta in H; lia.
Qed.

Hypothesis gt_lt : forall a b, gt a b = lt b a.
Hypothesis lt_asym : forall a b, lt a b = true -> lt b a = false.

Lemma compareFrom_swap (turns i : nat) (p1 p2 : list number) :
  Update.compareFrom number zero isTruthy gt lt turns i p2 p1 =
  - Update.compareFrom number zero isTruthy gt lt turns i p1 p2.
Proof.
  revert i. induction turns as [| turns IH]; intros i; simpl;
    [reflexivity |].
  rewrite !gt_lt.
  destruct (lt (Update.partOr0 number zero isTruthy p1 i)
               (Update.partOr0 number zero isTruthy p2 i)) eqn:H12.
  - rewrite (lt_asym _ _ H12). reflexivity.
  - destruct (lt (Update.partOr0 number zero isTruthy p2 i)
                 (Update.partOr0 number zero isTruthy p1 i));
      [reflexivity | apply IH].
Qed.

(** Swapping the two versions negates the result of [compareVersions]:
    it never calls both versions the newer one, and a version equals
    itself. *)
Theorem compareVersions_swap (version1 version2 : string) :
  Update.compareVersions number Number zero isTruthy gt lt
    version2 version1 =
  - Update.compareVersions number Number zero isTruthy gt lt
      version1 version2.
Proof.
  unfold Update.compareVersions. cbv zeta.
  rewrite Nat.max_comm. apply compareFrom_swap.
Qed.

End VersionOrder.

Lemma compareVersions_swap_witness :
  Update.compareDecimal "1.10" "1.9.3" = 1 /\
  Update.compareDecimal "1.9.3" "1.10" = -1.
Proof.
  split; [reflexivity |].
  rewrite (compareVersions_swap (option Z) Update.decimal (Some 0)
             Update.decimalTruthy Update.decimalGt Update.decimalLt).
  - reflexivity.
  - intros [a |] [b |]; reflexivity.
  - intros [a |] [b |]; simpl; try discriminate.
    intros H. apply Z.ltb_lt in H. apply Z.ltb_ge. lia.
Defined.
